(** * InSighto: the analysis pipeline (cleaner, profiler, chart engine,
      orchestrator) as a shallow embedding, and the properties of its
      specification.

    Conventions of the embedding.
    - A pandas [DataFrame] is a list of typed columns over a common index
      length; a cell is a number, a text or the missing value (NaN/None).
    - Numbers are exact rationals.  The three threshold tests of the
      source ([x / n > 0.7], [(m / n) * 100 > 50], [u < n * 0.05]) are
      written with the same operations over [Q]; on binary64 they decide
      the same inequalities for every table that fits in memory.
      Medians and quartiles are the exact values, where pandas rounds
      them to binary64 (integers beyond 2^53 are not represented there).
    - Column labels are taken to be distinct: on a table with two
      columns under one label [df[col]] is a frame, not a series, and
      the cleaner of the source raises.
    - What the source prints or appends as formatted text is kept as a
      structured value (which message, with which figures).
    - Library calls whose result the program cannot determine from its own
      data (text-to-number parsing, [repr] of a text, the HTTP request to
      the language model, matplotlib calls, the execution of a generated
      text, file readers and writers) are parameters of the sections.
    - A call returns or raises.  What is raised is an [Exception], which
      the handlers of the source ([except Exception]) catch, or a
      [SystemExit], which none of them catches; only the execution of a
      generated text is taken to raise the latter in the chart engine. *)

From Stdlib Require Import List String Ascii ZArith QArith Qround Bool Arith Lia.
From stdpp Require Import base gmap strings pretty.
Import ListNotations.

(* ===================================================================== *)
(** ** Tables *)
(* ===================================================================== *)

Module Frame.

(** The column dtypes the program distinguishes.  [number_other] stands
    for the numeric dtypes other than the two 64-bit ones (int32,
    float32, ...): [np.number] selects them, the literal list
    ['int64', 'float64'] does not. *)
Inductive dtype : Type :=
| int64 | float64 | number_other | object_ | datetime64_ns | bool_.

Definition dtype_eqb (a b : dtype) : bool :=
  match a, b with
  | int64, int64 | float64, float64 | number_other, number_other
  | object_, object_ | datetime64_ns, datetime64_ns | bool_, bool_ => true
  | _, _ => false
  end.

(** [dtype in ['int64', 'float64']] *)
Definition is_int64_or_float64 (d : dtype) : bool :=
  match d with int64 | float64 => true | _ => false end.

(** [select_dtypes(include=[np.number])] *)
Definition is_np_number (d : dtype) : bool :=
  match d with int64 | float64 | number_other => true | _ => false end.

(** [x < y] on exact rationals, as a test. *)
Definition Qltb (x y : Q) : bool := negb (Qle_bool y x).

(** A column label: text, or an integer position when the file had no
    header. *)
Inductive label : Type :=
| LStr (s : string)
| LInt (z : Z).

(** [str(label)] *)
Definition label_str (l : label) : string :=
  match l with
  | LStr s => s
  | LInt z => pretty z
  end.

Inductive cell : Type :=
| Num (q : Q)
| Str (s : string)
| NA.

Definition isna (c : cell) : bool :=
  match c with NA => true | _ => false end.

Definition notna (c : cell) : bool := negb (isna c).

(** Equality of two cells as [drop_duplicates] and [value_counts] see it:
    numbers by value, texts by content, and two missing values are
    equal. *)
Definition cell_eqb (a b : cell) : bool :=
  match a, b with
  | Num x, Num y => Qeq_bool x y
  | Str s, Str t => String.eqb s t
  | NA, NA => true
  | _, _ => false
  end.

Record column : Type := mkColumn {
  name : label;
  dtype_of : dtype;
  cells : list cell
}.

Record DataFrame : Type := mkDataFrame {
  index_len : nat;              (* len(df) *)
  columns : list column         (* df.columns, with their data *)
}.

(** Every column has one cell per index entry. *)
Definition well_formed (df : DataFrame) : Prop :=
  Forall (fun c => length (cells c) = index_len df) (columns df).

Definition well_formedb (df : DataFrame) : bool :=
  forallb (fun c => Nat.eqb (length (cells c)) (index_len df)) (columns df).

(** Every label is a text (what [columns.astype(str)] leaves). *)
Definition labels_are_text (df : DataFrame) : Prop :=
  Forall (fun c => name c = LStr (label_str (name c))) (columns df).

(** [df.empty]: one of the axes has length 0. *)
Definition empty (df : DataFrame) : bool :=
  Nat.eqb (index_len df) 0 || Nat.eqb (length (columns df)) 0.

Definition row_at (df : DataFrame) (i : nat) : list cell :=
  map (fun c => nth i (cells c) NA) (columns df).

Definition rows (df : DataFrame) : list (list cell) :=
  map (row_at df) (seq 0 (index_len df)).

Fixpoint row_eqb (r s : list cell) : bool :=
  match r, s with
  | [], [] => true
  | a :: r', b :: s' => cell_eqb a b && row_eqb r' s'
  | _, _ => false
  end.

(** Boolean indexing: keep the entries whose mask bit is set. *)
Fixpoint select {A : Type} (mask : list bool) (l : list A) : list A :=
  match mask, l with
  | b :: m, x :: l' => if b then x :: select m l' else select m l'
  | _, _ => []
  end.

Definition select_rows (mask : list bool) (df : DataFrame) : DataFrame :=
  {| index_len := length (select mask (seq 0 (index_len df)));
     columns := map (fun c => mkColumn (name c) (dtype_of c)
                                       (select mask (cells c)))
                    (columns df) |}.

(** [df.duplicated()]: a row is marked when an equal row came before. *)
Fixpoint duplicated_from (seen rs : list (list cell)) : list bool :=
  match rs with
  | [] => []
  | r :: rs' => existsb (row_eqb r) seen :: duplicated_from (r :: seen) rs'
  end.

Definition duplicated (df : DataFrame) : list bool :=
  duplicated_from [] (rows df).

(** [df.drop_duplicates()]: an empty frame is returned as it is. *)
Definition drop_duplicates (df : DataFrame) : DataFrame :=
  if empty df then df
  else select_rows (map negb (duplicated df)) df.

(** [series.isna().sum()] *)
Definition isna_sum (cs : list cell) : nat :=
  length (List.filter isna cs).

(** [series.fillna(v)] *)
Definition fillna (v : cell) (cs : list cell) : list cell :=
  map (fun c => if isna c then v else c) cs.

(** The numbers of a column, missing values skipped. *)
Fixpoint numbers (cs : list cell) : list Q :=
  match cs with
  | [] => []
  | Num q :: cs' => q :: numbers cs'
  | _ :: cs' => numbers cs'
  end.

Fixpoint insert_sorted (x : Q) (l : list Q) : list Q :=
  match l with
  | [] => [x]
  | y :: l' => if Qle_bool x y then x :: l else y :: insert_sorted x l'
  end.

Definition sort_numbers (l : list Q) : list Q :=
  fold_right insert_sorted [] l.

(** [series.quantile(q)] with linear interpolation; [None] is NaN (no
    value at all). *)
Definition quantile (q : Q) (cs : list cell) : option Q :=
  let v := sort_numbers (numbers cs) in
  match v with
  | [] => None
  | x0 :: _ =>
      let n := length v in
      let pos := (q * inject_Z (Z.of_nat (n - 1)))%Q in
      let lo := Z.to_nat (Qfloor pos) in
      let frac := (pos - inject_Z (Qfloor pos))%Q in
      let a := nth lo v x0 in
      let b := nth (Nat.min (S lo) (n - 1)) v x0 in
      Some (Qred (a + (b - a) * frac))
  end.

(** [series.median()] *)
Definition median (cs : list cell) : option Q := quantile (1 # 2) cs.

(** Distinct non-missing values in order of first appearance. *)
Fixpoint unique_from (seen : list cell) (cs : list cell) : list cell :=
  match cs with
  | [] => []
  | c :: cs' =>
      if isna c || existsb (cell_eqb c) seen then unique_from seen cs'
      else c :: unique_from (c :: seen) cs'
  end.

Definition unique (cs : list cell) : list cell := unique_from [] cs.

(** [series.nunique()] *)
Definition nunique (cs : list cell) : nat := length (unique cs).

Definition count_of (v : cell) (cs : list cell) : nat :=
  length (List.filter (cell_eqb v) cs).

Definition cell_leb (a b : cell) : bool :=
  match a, b with
  | Num x, Num y => Qle_bool x y
  | Str s, Str t => String.leb s t
  | _, _ => true
  end.

Fixpoint insert_cell (x : cell) (l : list cell) : list cell :=
  match l with
  | [] => [x]
  | y :: l' => if cell_leb x y then x :: l else y :: insert_cell x l'
  end.

Definition is_num (c : cell) : bool :=
  match c with Num _ => true | _ => false end.

Definition is_str (c : cell) : bool :=
  match c with Str _ => true | _ => false end.

(** [series.mode()]: the most frequent non-missing values, sorted when
    they can be compared with each other (values of mixed kinds are
    left in order of appearance). *)
Definition mode (cs : list cell) : list cell :=
  let u := unique cs in
  let best := fold_right Nat.max 0 (map (fun v => count_of v cs) u) in
  let top := List.filter (fun v => Nat.eqb (count_of v cs) best) u in
  if forallb is_num top || forallb is_str top
  then fold_right insert_cell [] top
  else top.

End Frame.

(* ===================================================================== *)
(** ** core/cleaner.py *)
(* ===================================================================== *)

Module Cleaner.
Import Frame.

(** How a missing-value decision is reported for one column. *)
Inductive missing_note : Type :=
| KeptAsIs (col : label) (missing_count : nat) (missing_pct : Q)
| FilledMedian (col : label) (missing_count : nat) (median_val : option Q)
| FilledUnknown (col : label) (missing_count : nat)
| FilledMode (col : label) (missing_count : nat) (mode_val : cell).

(** The entries of the cleaning report, one constructor per message of
    the source. *)
Inductive entry : Type :=
| CouldNotStandardize (e : string)
| RemovedDuplicates (duplicates_removed : nat)
| NoDuplicates
| FixedDataTypes (type_changes : list label)
| TypesAppropriate
| HandledMissing (missing_info : list missing_note)
| NoMissing
| RemovedEmpty (empty_rows empty_cols : nat)
| OutliersDetected (outlier_info : list (label * nat * Q))
| NoOutliers.

(** Which step of the pipeline writes a given entry. *)
Inductive step : Type :=
| StandardizeColumns | RemoveDuplicates | FixDataTypes
| HandleMissingValues | RemoveEmpty | DetectOutliers.

Definition step_of (e : entry) : step :=
  match e with
  | CouldNotStandardize _ => StandardizeColumns
  | RemovedDuplicates _ | NoDuplicates => RemoveDuplicates
  | FixedDataTypes _ | TypesAppropriate => FixDataTypes
  | HandledMissing _ | NoMissing => HandleMissingValues
  | RemovedEmpty _ _ => RemoveEmpty
  | OutliersDetected _ | NoOutliers => DetectOutliers
  end.

Definition step_eqb (a b : step) : bool :=
  match a, b with
  | StandardizeColumns, StandardizeColumns
  | RemoveDuplicates, RemoveDuplicates
  | FixDataTypes, FixDataTypes
  | HandleMissingValues, HandleMissingValues
  | RemoveEmpty, RemoveEmpty
  | DetectOutliers, DetectOutliers => true
  | _, _ => false
  end.

(** The object: [self.df], [self.original_df], [self.cleaning_report]. *)
Record DataCleaner : Type := mkCleaner {
  df : DataFrame;
  original_df : DataFrame;
  cleaning_report : list entry
}.

Definition init (d : DataFrame) : DataCleaner :=
  {| df := d; original_df := d; cleaning_report := [] |}.

Definition set_df (d : DataFrame) (self : DataCleaner) : DataCleaner :=
  {| df := d; original_df := original_df self;
     cleaning_report := cleaning_report self |}.

Definition report_append (e : entry) (self : DataCleaner) : DataCleaner :=
  {| df := df self; original_df := original_df self;
     cleaning_report := cleaning_report self ++ [e] |}.

(** *** Step 0.  [self.df.columns.astype(str)] succeeds on every flat
    index of labels, so the handler that would report a failure is
    never entered. *)
Definition _standardize_columns (self : DataCleaner) : DataCleaner :=
  set_df {| index_len := index_len (df self);
            columns := map (fun c => mkColumn (LStr (label_str (name c)))
                                              (dtype_of c) (cells c))
                           (columns (df self)) |} self.

(** *** Step 1 *)
Definition _remove_duplicates (self : DataCleaner) : DataCleaner :=
  let initial_count := index_len (df self) in
  let self := set_df (drop_duplicates (df self)) self in
  let duplicates_removed := initial_count - index_len (df self) in
  if Nat.ltb 0 duplicates_removed
  then report_append (RemovedDuplicates duplicates_removed) self
  else report_append NoDuplicates self.

Section WithParser.

(** What [pd.to_numeric] makes of one text; [None] when it does not
    read as a number. *)
Variable parse_number : string -> option Q.

(** [pd.to_numeric(series, errors='coerce')], cell by cell. *)
Definition to_numeric_cell (c : cell) : cell :=
  match c with
  | Num q => Num q
  | Str s => match parse_number s with Some q => Num q | None => NA end
  | NA => NA
  end.

Definition to_numeric (cs : list cell) : list cell :=
  map to_numeric_cell cs.

Definition is_integral (c : cell) : bool :=
  match c with
  | Num q => Pos.eqb (Qden (Qred q)) 1
  | _ => false
  end.

(** The dtype of the converted series: 64-bit integers when every cell
    is a whole number, 64-bit floats otherwise (in particular as soon
    as one cell is missing).  Both are handled alike by all the code
    below. *)
Definition numeric_dtype (cs : list cell) : dtype :=
  if forallb is_integral cs then int64 else float64.

(** [series.notna().sum()] *)
Definition notna_sum (cs : list cell) : nat :=
  length (List.filter notna cs).

(** [non_null_count / total_count > 0.7] *)
Definition converts_enough (non_null_count total_count : nat) : bool :=
  Qltb (7 # 10) (inject_Z (Z.of_nat non_null_count)
                 / inject_Z (Z.of_nat total_count)).

(** The body of the loop of [_fix_data_types] for one column; the
    second component is the label added to [type_changes], if any. *)
Definition fix_column (total_count : nat) (c : column)
  : column * option label :=
  if dtype_eqb (dtype_of c) object_ then
    let numeric_col := to_numeric (cells c) in
    let non_null_count := notna_sum numeric_col in
    if converts_enough non_null_count total_count
    then (mkColumn (name c) (numeric_dtype numeric_col) numeric_col,
          Some (name c))
    else (c, None)
  else (c, None).

Fixpoint somes {A : Type} (l : list (option A)) : list A :=
  match l with
  | [] => []
  | Some x :: l' => x :: somes l'
  | None :: l' => somes l'
  end.

(** *** Step 2 *)
Definition _fix_data_types (self : DataCleaner) : DataCleaner :=
  let total_count := index_len (df self) in
  let fixed := map (fix_column total_count) (columns (df self)) in
  let type_changes := somes (map snd fixed) in
  let self := set_df {| index_len := index_len (df self);
                        columns := map fst fixed |} self in
  match type_changes with
  | _ :: _ => report_append (FixedDataTypes type_changes) self
  | [] => report_append TypesAppropriate self
  end.

(** [(missing_count / len(self.df)) * 100] *)
Definition missing_pct (missing_count len : nat) : Q :=
  (inject_Z (Z.of_nat missing_count) / inject_Z (Z.of_nat len)
   * inject_Z 100)%Q.

Definition fill_value (o : option Q) : cell :=
  match o with Some q => Num q | None => NA end.

(** The body of the loop of [_handle_missing_values] for one column. *)
Definition handle_column (len : nat) (c : column)
  : column * option missing_note :=
  let missing_count := isna_sum (cells c) in
  if Nat.ltb 0 missing_count then
    let pct := missing_pct missing_count len in
    if Qltb (inject_Z 50) pct then
      (c, Some (KeptAsIs (name c) missing_count pct))
    else if is_int64_or_float64 (dtype_of c) then
      let median_val := median (cells c) in
      (mkColumn (name c) (dtype_of c)
                (fillna (fill_value median_val) (cells c)),
       Some (FilledMedian (name c) missing_count median_val))
    else
      match mode (cells c) with
      | [] =>
          (mkColumn (name c) (dtype_of c)
                    (fillna (Str "Unknown") (cells c)),
           Some (FilledUnknown (name c) missing_count))
      | mode_val :: _ =>
          (mkColumn (name c) (dtype_of c) (fillna mode_val (cells c)),
           Some (FilledMode (name c) missing_count mode_val))
      end
  else (c, None).

(** *** Step 3 *)
Definition _handle_missing_values (self : DataCleaner) : DataCleaner :=
  let len := index_len (df self) in
  let handled := map (handle_column len) (columns (df self)) in
  let missing_info := somes (map snd handled) in
  let self := set_df {| index_len := index_len (df self);
                        columns := map fst handled |} self in
  match missing_info with
  | _ :: _ => report_append (HandledMissing missing_info) self
  | [] => report_append NoMissing self
  end.

(** [df.dropna(how='all')]: rows in which some cell is present. *)
Definition dropna_rows (d : DataFrame) : DataFrame :=
  select_rows (map (existsb notna) (rows d)) d.

(** [df.dropna(axis=1, how='all')]: columns with some cell present. *)
Definition dropna_columns (d : DataFrame) : DataFrame :=
  {| index_len := index_len d;
     columns := List.filter (fun c => existsb notna (cells c))
                            (columns d) |}.

(** *** Step 4 *)
Definition _remove_empty (self : DataCleaner) : DataCleaner :=
  let initial_rows := index_len (df self) in
  let self := set_df (dropna_rows (df self)) self in
  let empty_rows := initial_rows - index_len (df self) in
  let initial_cols := length (columns (df self)) in
  let self := set_df (dropna_columns (df self)) self in
  let empty_cols := initial_cols - length (columns (df self)) in
  if Nat.ltb 0 empty_rows || Nat.ltb 0 empty_cols
  then report_append (RemovedEmpty empty_rows empty_cols) self
  else self.

(** [((series < lower_bound) | (series > upper_bound)).sum()];
    a comparison with a missing bound or a missing cell is false. *)
Definition count_outliers (cs : list cell) : nat :=
  match quantile (1 # 4) cs, quantile (3 # 4) cs with
  | Some Q1, Some Q3 =>
      let IQR := (Q3 - Q1)%Q in
      let lower_bound := (Q1 - (3 # 2) * IQR)%Q in
      let upper_bound := (Q3 + (3 # 2) * IQR)%Q in
      length (List.filter
                (fun c => match c with
                          | Num v => Qltb v lower_bound
                                     || Qltb upper_bound v
                          | _ => false
                          end) cs)
  | _, _ => 0
  end.

Definition outlier_note (len : nat) (c : column)
  : option (label * nat * Q) :=
  let outliers := count_outliers (cells c) in
  if Nat.ltb 0 outliers
  then Some (name c, outliers,
             (inject_Z (Z.of_nat outliers) / inject_Z (Z.of_nat len)
              * inject_Z 100)%Q)
  else None.

(** *** Step 5 *)
Definition _detect_outliers (self : DataCleaner) : DataCleaner :=
  let numeric_cols :=
    List.filter (fun c => is_np_number (dtype_of c)) (columns (df self)) in
  let outlier_info :=
    somes (map (outlier_note (index_len (df self))) numeric_cols) in
  match outlier_info with
  | _ :: _ => report_append (OutliersDetected outlier_info) self
  | [] => report_append NoOutliers self
  end.

(** Tables that no step has anything to do on: they have a row and a
    column, no row twice, no missing cell, and no text column that
    would be adopted as numeric. *)
Definition no_duplicates (d : DataFrame) : bool :=
  forallb negb (duplicated d).

Definition no_missing (d : DataFrame) : bool :=
  forallb (fun c => forallb notna (cells c)) (columns d).

Definition no_convertible_text (d : DataFrame) : bool :=
  forallb (fun c => negb (dtype_eqb (dtype_of c) object_)
                    || negb (converts_enough
                               (notna_sum (to_numeric (cells c)))
                               (index_len d)))
          (columns d).

Definition settled (d : DataFrame) : bool :=
  negb (empty d) && no_duplicates d && no_missing d
  && no_convertible_text d.

(** [DataCleaner.clean] up to its [return]: the object after the six
    steps. *)
Definition run (self : DataCleaner) : DataCleaner :=
  let self := _standardize_columns self in
  let self := _remove_duplicates self in
  let self := _fix_data_types self in
  let self := _handle_missing_values self in
  let self := _remove_empty self in
  _detect_outliers self.

(** [DataCleaner(df).clean()] *)
Definition clean (d : DataFrame) : DataFrame * list entry :=
  let self := run (init d) in
  (df self, cleaning_report self).

Record summary : Type := mkSummary {
  original_rows : nat;
  original_cols : nat;
  cleaned_rows : nat;
  cleaned_cols : nat;
  report : list entry
}.

Definition get_cleaning_summary (self : DataCleaner) : summary :=
  {| original_rows := index_len (original_df self);
     original_cols := length (columns (original_df self));
     cleaned_rows := index_len (df self);
     cleaned_cols := length (columns (df self));
     report := cleaning_report self |}.

End WithParser.

(** A reader of plain decimal whole numbers (an optional minus sign and
    digits), used to run the cleaner on concrete tables. *)
Definition digit_value (a : ascii) : option Z :=
  let n := Z.of_nat (nat_of_ascii a) in
  if (48 <=? n)%Z && (n <=? 57)%Z then Some (n - 48)%Z else None.

Fixpoint parse_digits (acc : Z) (s : string) : option Z :=
  match s with
  | EmptyString => Some acc
  | String a s' =>
      match digit_value a with
      | Some d => parse_digits (10 * acc + d)%Z s'
      | None => None
      end
  end.

Definition parse_integer (s : string) : option Q :=
  match s with
  | EmptyString => None
  | String "-" EmptyString => None
  | String "-" s' => option_map (fun z => inject_Z (- z)) (parse_digits 0 s')
  | _ => option_map inject_Z (parse_digits 0 s)
  end.

End Cleaner.

(* ===================================================================== *)
(** ** core/profiler.py *)
(* ===================================================================== *)

Module Profiler.
Import Frame.

(** The value of [profile['column_types']]. *)
Record column_types : Type := mkColumnTypes {
  numeric : list label;
  categorical : list label;
  datetime : list label
}.

(** [unique_count < 10 and unique_count < len(self.df) * 0.05] *)
Definition few_unique (unique_count len : nat) : bool :=
  Nat.ltb unique_count 10
  && Qltb (inject_Z (Z.of_nat unique_count))
          (inject_Z (Z.of_nat len) * (5 # 100)).

(** One turn of the loop of [_classify_columns]. *)
Definition classify_step (len : nat) (acc : column_types) (c : column)
  : column_types :=
  if is_int64_or_float64 (dtype_of c) then
    let unique_count := nunique (cells c) in
    if few_unique unique_count len
    then mkColumnTypes (numeric acc) (categorical acc ++ [name c])
                       (datetime acc)
    else mkColumnTypes (numeric acc ++ [name c]) (categorical acc)
                       (datetime acc)
  else if dtype_eqb (dtype_of c) datetime64_ns then
    mkColumnTypes (numeric acc) (categorical acc) (datetime acc ++ [name c])
  else
    mkColumnTypes (numeric acc) (categorical acc ++ [name c]) (datetime acc).

Definition _classify_columns (df : DataFrame) : column_types :=
  fold_left (classify_step (index_len df)) (columns df)
            (mkColumnTypes [] [] []).

End Profiler.

(* ===================================================================== *)
(** ** Text helpers of the Python runtime *)
(* ===================================================================== *)

Module Text.

(** [s.replace(old, new)] for a non-empty [old]: occurrences are taken
    from the left and do not overlap.  [skip] counts the characters of
    a match still to be passed over. *)
Fixpoint replace_from (old new : string) (skip : nat) (s : string)
  : string :=
  match s with
  | EmptyString => EmptyString
  | String a s' =>
      match skip with
      | S k => replace_from old new k s'
      | O =>
          if String.prefix old s
          then new +:+ replace_from old new (String.length old - 1) s'
          else String a (replace_from old new 0 s')
      end
  end.

Definition replace (old new s : string) : string :=
  replace_from old new 0 s.

(** Texts are UTF-8.  The white space of [str.strip] and [str.isspace]:
    the ASCII characters 9-13 and 28-32, and U+0085, U+00A0, U+1680,
    U+2000 to U+200A, U+2028, U+2029, U+202F, U+205F and U+3000. *)
Definition is_space (a : ascii) : bool :=
  let n := nat_of_ascii a in
  (Nat.leb 9 n && Nat.leb n 13) || (Nat.leb 28 n && Nat.leb n 32).

(** The two bytes of U+0085 or U+00A0. *)
Definition is_space2 (a b : ascii) : bool :=
  Nat.eqb (nat_of_ascii a) 194
  && (Nat.eqb (nat_of_ascii b) 133 || Nat.eqb (nat_of_ascii b) 160).

(** The three bytes of one of the other white-space characters. *)
Definition is_space3 (a b c : ascii) : bool :=
  let x := nat_of_ascii a in
  let y := nat_of_ascii b in
  let z := nat_of_ascii c in
  (Nat.eqb x 225 && Nat.eqb y 154 && Nat.eqb z 128)
  || (Nat.eqb x 226 && Nat.eqb y 128
      && ((Nat.leb 128 z && Nat.leb z 138)
          || Nat.eqb z 168 || Nat.eqb z 169 || Nat.eqb z 175))
  || (Nat.eqb x 226 && Nat.eqb y 129 && Nat.eqb z 159)
  || (Nat.eqb x 227 && Nat.eqb y 128 && Nat.eqb z 128).

(** The text after a leading white-space character, if there is one. *)
Definition after_space (s : string) : option string :=
  match s with
  | String a (String b (String c s3 as s2) as s1) =>
      if is_space a then Some s1
      else if is_space2 a b then Some s2
      else if is_space3 a b c then Some s3
      else None
  | String a (String b s2 as s1) =>
      if is_space a then Some s1
      else if is_space2 a b then Some s2
      else None
  | String a s1 => if is_space a then Some s1 else None
  | EmptyString => None
  end.

(** The bytes before a trailing white-space character, last byte
    first, if there is one. *)
Definition before_space (r : list ascii) : option (list ascii) :=
  match r with
  | c :: (b :: (a :: r3) as r2) as r1 =>
      if is_space c then Some r1
      else if is_space2 b c then Some r2
      else if is_space3 a b c then Some r3
      else None
  | c :: (b :: r2) as r1 =>
      if is_space c then Some r1
      else if is_space2 b c then Some r2
      else None
  | c :: r1 => if is_space c then Some r1 else None
  | [] => None
  end.

Fixpoint lstrip_from (fuel : nat) (s : string) : string :=
  match fuel with
  | O => s
  | S fuel' =>
      match after_space s with
      | Some s' => lstrip_from fuel' s'
      | None => s
      end
  end.

Fixpoint rstrip_from (fuel : nat) (r : list ascii) : list ascii :=
  match fuel with
  | O => r
  | S fuel' =>
      match before_space r with
      | Some r' => rstrip_from fuel' r'
      | None => r
      end
  end.

(** [s.lstrip()], [s.rstrip()] and [s.strip()]; no text has more
    white-space characters than bytes. *)
Definition lstrip (s : string) : string :=
  lstrip_from (String.length s) s.

Definition rstrip (s : string) : string :=
  string_of_list_ascii
    (List.rev (rstrip_from (String.length s)
                           (List.rev (list_ascii_of_string s)))).

Definition strip (s : string) : string := rstrip (lstrip s).

(** Python truth of a text: it is not empty. *)
Definition truthy (s : string) : bool :=
  match s with EmptyString => false | _ => true end.

(** [os.path.join(a, b)] *)
Definition path_join (a b : string) : string :=
  if String.prefix "/" b then b
  else if String.eqb a "" || String.eqb (String.substring
            (String.length a - 1) 1 a) "/"
  then a +:+ b
  else a +:+ "/" +:+ b.

Fixpoint join (sep : string) (l : list string) : string :=
  match l with
  | [] => ""
  | [x] => x
  | x :: l' => x +:+ sep +:+ join sep l'
  end.

End Text.

(* ===================================================================== *)
(** ** Computations that change a world and may raise *)
(* ===================================================================== *)

Module Effects.

(** What a call raises: an [Exception], with its message, or an
    exception that is not one.  [SystemExit] stands for those
    ([SystemExit], [KeyboardInterrupt]): no [except Exception] of the
    program catches them. *)
Inductive exn : Type :=
| Exception (message : string)
| SystemExit.

Inductive result (A : Type) : Type :=
| Returned (a : A)
| Raised (e : exn).
Arguments Returned {A} a.
Arguments Raised {A} e.

Definition M (W A : Type) : Type := W -> result A * W.

Definition ret {W A : Type} (a : A) : M W A := fun w => (Returned a, w).

Definition bind {W A B : Type} (m : M W A) (k : A -> M W B) : M W B :=
  fun w =>
    match m w with
    | (Returned a, w') => k a w'
    | (Raised e, w') => (Raised e, w')
    end.

(** [raise ValueError(message)] *)
Definition raise {W A : Type} (message : string) : M W A :=
  fun w => (Raised (Exception message), w).

(** [try: m  except Exception as e: h (str e)]; what is not an
    [Exception] passes through. *)
Definition try_except {W A : Type} (m : M W A) (h : string -> M W A)
  : M W A :=
  fun w =>
    match m w with
    | (Returned a, w') => (Returned a, w')
    | (Raised (Exception e), w') => h e w'
    | (Raised SystemExit, w') => (Raised SystemExit, w')
    end.

Definition gets {W A : Type} (f : W -> A) : M W A :=
  fun w => (Returned (f w), w).

Definition modify {W : Type} (f : W -> W) : M W unit :=
  fun w => (Returned tt, f w).

Declare Scope effect_scope.
Delimit Scope effect_scope with eff.
Notation "'let*' x ':=' m 'in' k" :=
  (bind m (fun x => k))
    (at level 10, x name, m at level 100, k at level 200) : effect_scope.
Notation "m '>>' k" :=
  (bind m (fun _ => k))
    (at level 100, k at level 200, right associativity) : effect_scope.

End Effects.

(* ===================================================================== *)
(** ** core/llm_client.py and core/analyzer.py *)
(* ===================================================================== *)

Module Analyzer.
Import Frame Text Effects.
Local Open Scope effect_scope.

(** The text sent to the language model by [generate_chart_code], by
    the three values formatted into it. *)
Record prompt : Type := mkPrompt {
  prompt_context : string;
  prompt_columns : string;
  prompt_chart_type : string
}.

(** Calls into the plotting libraries, each of which may raise.
    [exec_code] is [exec(code, {}, local_env)]; the executed text is
    assumed to touch nothing but the drawing surface, or to leave the
    interpreter. *)
Inductive plt_call : Type :=
| plt_figure
| exec_code (code : string)
| plt_title (title : string)
| plt_tight_layout
| plt_savefig (filepath : string)
| plt_close
| plt_xticks
| sns_histplot (column : label)
| sns_countplot (column : label)
| plt_boxplot (cols : list label).

Inductive event : Type :=
| Called (c : plt_call)
| Requested (p : prompt)
| Printed (line : string)
| PrintedTraceback.

Inductive chart_type : Type := basic | custom.

(** The ['code'] of a chart: the generated text, or one of the three
    fixed recipes with the columns formatted into it. *)
Inductive chart_code : Type :=
| Generated (code : string)
| HistogramRecipe (column : label)
| BarChartRecipe (column : label)
| BoxplotRecipe (cols_to_plot : list label).

Record chart : Type := mkChart {
  type_ : chart_type;
  title : string;
  filename : string;
  filepath : string;
  description : string;
  code : chart_code
}.

(** The analyzer object ([self.llm.available] is set to [True] by the
    constructor of the client and never changed) and everything the
    run has done so far. *)
Record world : Type := mkWorld {
  df : DataFrame;
  session_id : string;
  charts : list chart;
  charts_dir : string;
  llm_available : bool;
  events : list event
}.

Definition record_event (ev : event) (w : world) : world :=
  mkWorld (df w) (session_id w) (charts w) (charts_dir w)
          (llm_available w) (events w ++ [ev]).

Definition charts_append (c : chart) (w : world) : world :=
  mkWorld (df w) (session_id w) (charts w ++ [c]) (charts_dir w)
          (llm_available w) (events w).

Definition print (line : string) : M world unit :=
  modify (record_event (Printed line)).

(** [w'] differs from [w] at most by its charts and its events. *)
Definition same_object (w w' : world) : Prop :=
  df w' = df w /\ session_id w' = session_id w
  /\ charts_dir w' = charts_dir w /\ llm_available w' = llm_available w.

Section WithEnvironment.

(** [repr] of a text (Python chooses the quotes and the escapes by the
    characters of the text). *)
Variable repr_str : string -> string.

(** [repr] of a label and of a list of labels. *)
Definition repr_label (l : label) : string :=
  match l with
  | LStr s => repr_str s
  | LInt z => pretty z
  end.

Definition repr_list (l : list label) : string :=
  "[" +:+ join ", " (map repr_label l) +:+ "]".

(** [config.TEMP_FOLDER] (it depends on where the program is
    installed). *)
Variable TEMP_FOLDER : string.

(** Whether the plotting call made as the [t]-th event of the run
    raises an [Exception], and with which message. *)
Variable raises : nat -> plt_call -> option string.

(** Whether the text executed as the [t]-th event of the run leaves
    the interpreter ([exit()], [sys.exit()]): a [SystemExit]. *)
Variable exec_exits : nat -> string -> bool.

(** What [LLMClient._make_request] returns for the request made as the
    [t]-th event of the run: the text of the answer, or [None].  It
    catches every exception itself. *)
Variable _make_request : nat -> prompt -> option string.

Definition call (c : plt_call) : M world unit :=
  fun w =>
    let w' := record_event (Called c) w in
    match raises (length (events w)) c with
    | Some e => (Raised (Exception e), w')
    | None => (Returned tt, w')
    end.

(** [exec(code, {}, local_env)] *)
Definition exec_ (code : string) : M world unit :=
  fun w =>
    let w' := record_event (Called (exec_code code)) w in
    if exec_exits (length (events w)) code then (Raised SystemExit, w')
    else
      match raises (length (events w)) (exec_code code) with
      | Some e => (Raised (Exception e), w')
      | None => (Returned tt, w')
      end.

Definition request (p : prompt) : M world (option string) :=
  fun w =>
    (Returned (_make_request (length (events w)) p),
     record_event (Requested p) w).

(** [DataAnalyzer.__init__] *)
Definition init (d : DataFrame) (sid : string) : world :=
  {| df := d; session_id := sid; charts := [];
     charts_dir := path_join TEMP_FOLDER sid;
     llm_available := true; events := [] |}.

(** [LLMClient.generate_chart_code] *)
Definition generate_chart_code (context columns : string)
           (chart_type : option string) : M world (option string) :=
  let* available := gets llm_available in
  if negb available then ret None
  else
    let* response :=
      request (mkPrompt context columns
                        (match chart_type with
                         | Some t => if truthy t then t else "Best fit"
                         | None => "Best fit"
                         end)) in
    match response with
    | Some r =>
        if truthy r
        then ret (Some (strip (replace "```" "" (replace "```python" "" r))))
        else ret None
    | None => ret None
    end.

(** The chart entry [_execute_plot_code] appends. *)
Definition custom_chart (charts_dir code title filename_base : string)
  : chart :=
  let filename := filename_base +:+ ".png" in
  {| type_ := custom; title := title; filename := filename;
     filepath := path_join charts_dir filename;
     description := "AI generated chart: " +:+ title;
     code := Generated code |}.

(** The body of the [try] of [_execute_plot_code]. *)
Definition plot_and_save (code title filename_base : string)
  : M world bool :=
  call plt_figure >>
  exec_ code >>
  let filename := filename_base +:+ ".png" in
  let* dir := gets charts_dir in
  let filepath := path_join dir filename in
  call (plt_title title) >>
  call plt_tight_layout >>
  call (plt_savefig filepath) >>
  call plt_close >>
  modify (charts_append (custom_chart dir code title filename_base)) >>
  ret true.

(** [DataAnalyzer._execute_plot_code] *)
Definition _execute_plot_code (code title filename_base : string)
  : M world bool :=
  try_except
    (plot_and_save code title filename_base)
    (fun e =>
       print ("Error executing plot code: " +:+ e) >>
       modify (record_event PrintedTraceback) >>
       call plt_close >>
       ret false).

(** [filename_base.replace(" ", "_").replace("/", "").replace("\\", "")] *)
Definition safe_name (filename_base : string) : string :=
  replace "\" "" (replace "/" "" (replace " " "_" filename_base)).

(** The chart entry [_save_plot] appends. *)
Definition basic_chart (charts_dir title filename_base : string)
           (code : chart_code) : chart :=
  let filename := safe_name filename_base +:+ ".png" in
  {| type_ := basic; title := title; filename := filename;
     filepath := path_join charts_dir filename; description := title;
     code := code |}.

(** [DataAnalyzer._save_plot] *)
Definition _save_plot (title filename_base : string) (code : chart_code)
  : M world unit :=
  let filename := safe_name filename_base +:+ ".png" in
  let* dir := gets charts_dir in
  let filepath := path_join dir filename in
  call (plt_title title) >>
  call plt_tight_layout >>
  call (plt_savefig filepath) >>
  call plt_close >>
  modify (charts_append (basic_chart dir title filename_base code)).

(** [DataAnalyzer._create_histogram] *)
Definition _create_histogram (column : label) : M world unit :=
  try_except
    (call plt_figure >>
     call (sns_histplot column) >>
     _save_plot ("Distribution of " +:+ label_str column)
                ("hist_" +:+ label_str column) (HistogramRecipe column))
    (fun e => print ("Hist error: " +:+ e)).

(** [DataAnalyzer._create_bar_chart] *)
Definition _create_bar_chart (column : label) : M world unit :=
  try_except
    (call plt_figure >>
     call (sns_countplot column) >>
     call plt_xticks >>
     _save_plot ("Top categories in " +:+ label_str column)
                ("bar_" +:+ label_str column) (BarChartRecipe column))
    (fun e => print ("Bar error: " +:+ e)).

(** [DataAnalyzer._create_boxplot] *)
Definition _create_boxplot (numeric_cols : list label) : M world unit :=
  let cols_to_plot := firstn 5 numeric_cols in
  try_except
    (call plt_figure >>
     call (plt_boxplot cols_to_plot) >>
     call plt_xticks >>
     _save_plot "Box Plot Distribution" "boxplot_comparison"
                (BoxplotRecipe cols_to_plot))
    (fun e => print ("Boxplot error: " +:+ e)).

Definition numeric_cols_of (d : DataFrame) : list label :=
  map name (List.filter (fun c => is_np_number (dtype_of c)) (columns d)).

Definition categorical_cols_of (d : DataFrame) : list label :=
  map name (List.filter (fun c => dtype_eqb (dtype_of c) object_)
                        (columns d)).

(** The five blocks of [analyze].  Each takes the running [count] and
    returns it as the block leaves it. *)

(** 1. Trend/Correlation (Heatmap) *)
Definition slot_heatmap (numeric_cols : list label) (count : nat)
  : M world nat :=
  if Nat.ltb 1 (length numeric_cols) && Nat.ltb count 5 then
    try_except
      (let context := "Numeric columns: " +:+ repr_list numeric_cols in
       let* code :=
         generate_chart_code context (repr_list numeric_cols)
                             (Some "Correlation Heatmap") in
       match code with
       | Some c =>
           if truthy c then
             _execute_plot_code c "Correlation Heatmap"
                                "correlation_heatmap" >>
             ret (count + 1)
           else ret count
       | None => ret count
       end)
      (fun _ => ret count)
  else ret count.

(** 2. Key Distribution (Histogram) *)
Definition slot_histogram (numeric_cols : list label) (count : nat)
  : M world nat :=
  match numeric_cols with
  | col :: _ =>
      if Nat.ltb count 5 then _create_histogram col >> ret (count + 1)
      else ret count
  | [] => ret count
  end.

(** 3. Categorical Insights (Bar) *)
Definition slot_bar (categorical_cols : list label) (count : nat)
  : M world nat :=
  match categorical_cols with
  | col :: _ =>
      if Nat.ltb count 5 then _create_bar_chart col >> ret (count + 1)
      else ret count
  | [] => ret count
  end.

(** 4. Box Plot (Outliers/Spread) *)
Definition slot_boxplot (numeric_cols : list label) (count : nat)
  : M world nat :=
  if Nat.ltb 0 (length numeric_cols) && Nat.ltb count 5 then
    _create_boxplot (firstn 5 numeric_cols) >> ret (count + 1)
  else ret count.

(** 5. AI Suggested Relationship *)
Definition slot_relationship (numeric_cols : list label) (count : nat)
  : M world nat :=
  if Nat.ltb 1 (length numeric_cols) && Nat.ltb count 5 then
    try_except
      (let context :=
         "Find an interesting relationship between these columns: "
         +:+ repr_list numeric_cols +:+ "." in
       let* code :=
         generate_chart_code context (repr_list numeric_cols)
                             (Some "Scatter Plot or Line Chart") in
       match code with
       | Some c =>
           if truthy c then
             _execute_plot_code c "Key Relationship Analysis"
                                "ai_relationship_plot" >>
             ret (count + 1)
           else ret count
       | None => ret count
       end)
      (fun _ => ret count)
  else ret count.

(** The common shape of blocks 1 and 5. *)
Definition generated_slot (title filename_base context type : string)
           (numeric_cols : list label) (count : nat) : M world nat :=
  if Nat.ltb 1 (length numeric_cols) && Nat.ltb count 5 then
    try_except
      (let* code :=
         generate_chart_code context (repr_list numeric_cols)
                             (Some type) in
       match code with
       | Some c =>
           if truthy c then
             _execute_plot_code c title filename_base >>
             ret (count + 1)
           else ret count
       | None => ret count
       end)
      (fun _ => ret count)
  else ret count.

(** [analyze] up to its [return]: the value is the final [count]. *)
Definition analyze_count : M world nat :=
  let* d := gets df in
  let numeric_cols := numeric_cols_of d in
  let categorical_cols := categorical_cols_of d in
  let count := 0 in
  let* count := slot_heatmap numeric_cols count in
  let* count := slot_histogram numeric_cols count in
  let* count := slot_bar categorical_cols count in
  let* count := slot_boxplot numeric_cols count in
  slot_relationship numeric_cols count.

(** [DataAnalyzer.analyze] *)
Definition analyze : M world (list chart) :=
  analyze_count >> gets charts.

(** [DataAnalyzer.create_custom_chart] *)
Definition create_custom_chart (x_col : string) (y_col : option string)
           (chart_type : string) : M world (option (string * string)) :=
  try_except
    (let* d := gets df in
     let context :=
       "Columns available: " +:+ repr_list (map name (columns d)) in
     let cols :=
       x_col +:+ match y_col with
                 | Some y => if truthy y then ", " +:+ y else ""
                 | None => ""
                 end in
     let* code := generate_chart_code context cols (Some chart_type) in
     match code with
     | Some c =>
         if truthy c then
           let filename :=
             replace " " "_"
                     ("custom_" +:+ x_col +:+ "_" +:+ chart_type
                      +:+ ".png") in
           let* ok :=
             _execute_plot_code c (chart_type +:+ " of " +:+ cols)
                                (replace ".png" "" filename) in
           if ok then ret (Some (filename, c)) else ret None
         else ret None
     | None => ret None
     end)
    (fun e => print ("Custom chart error: " +:+ e) >> ret None).

End WithEnvironment.

End Analyzer.

(* ===================================================================== *)
(** ** core/storage.py and core/agent.py *)
(* ===================================================================== *)

Module Agent.
Import Frame Text Effects.
Local Open Scope effect_scope.

(** A row of the [sessions] table. *)
Record session : Type := mkSession {
  filename : string;
  filepath : string;
  status : string
}.

(** What a file of the temporary folder holds: a text, a table written
    by [to_csv], or a picture written by [plt.savefig]. *)
Inductive file : Type :=
| TextFile (content : string)
| CsvFile (table : DataFrame)
| PngFile.

(** What the agent and the storage did during a run, in order. *)
Inductive event : Type :=
| StatusSet (session_id status : string)
| Loaded (filepath : string)
| Cleaned
| SavedDataframe (filepath : string)
| Profiled
| Charted
| Narrated
| ReportBuilt
| SavedResult (session_id result_type : string)
| Printed (line : string).

Record world : Type := mkWorld {
  sessions : gmap string session;
  files : gmap string file;
  log : list event
}.

Definition record_event (ev : event) (w : world) : world :=
  mkWorld (sessions w) (files w) (log w ++ [ev]).

Definition write_file (path : string) (f : file) (w : world) : world :=
  mkWorld (sessions w) (<[path := f]> (files w)) (log w).

Definition print (line : string) : M world unit :=
  modify (record_event (Printed line)).

Definition lift {A : Type} (r : result A) : M world A := fun w => (r, w).

(** [s.lower()] on ASCII letters. *)
Definition lower_ascii (a : ascii) : ascii :=
  let n := nat_of_ascii a in
  if Nat.leb 65 n && Nat.leb n 90 then ascii_of_nat (n + 32) else a.

Fixpoint lower (s : string) : string :=
  match s with
  | EmptyString => EmptyString
  | String a s' => String (lower_ascii a) (lower s')
  end.

(** [filepath.rsplit('.', 1)[1]]: the text after the last dot; [None]
    when there is no dot (the index is out of range). *)
Fixpoint after_last_dot (s : string) : option string :=
  match s with
  | EmptyString => None
  | String a s' =>
      match after_last_dot s' with
      | Some e => Some e
      | None => if Ascii.eqb a "." then Some s' else None
      end
  end.

Section WithStages.

Variable TEMP_FOLDER : string.

(** [pd.read_csv] and [pd.read_excel] on a path. *)
Variable read_csv read_excel : string -> result DataFrame.

(** The cleaner's number reader. *)
Variable parse_number : string -> option Q.

(** Whether writing the file [path] as the [t]-th event of the run
    fails, and with which message.  A write that fails is taken to
    leave the file as it was. *)
Variable write_error : nat -> string -> option string.

(** The stages other than the chart engine, each of which may raise.
    [Profile] and [Report] are the values they hand on. *)
Variable Profile Report : Type.

(** [DataProfiler(cleaned_df).generate_profile()] and
    [get_summary_text()] *)
Variable generate_profile : DataFrame -> result (Profile * string).

(** What the chart engine depends on: [repr], the plotting calls, the
    executed texts and the language model. *)
Variable repr_str : string -> string.
Variable raises : nat -> Analyzer.plt_call -> option string.
Variable exec_exits : nat -> string -> bool.
Variable _make_request : nat -> Analyzer.prompt -> option string.

(** Step 5: the two [json.dumps] and the three requests for insights,
    executive summary and recommendations. *)
Variable narrate :
  string -> Cleaner.summary -> Profile -> string
  -> result (string * string * string).

(** Step 6: the report generator, fed in the order of the source. *)
Variable build_report :
  string -> string -> Profile -> Cleaner.summary -> list Analyzer.chart
  -> string * string * string -> result Report.

(** [json.dumps(_, cls=NumpyEncoder)] on the three kinds of value. *)
Variable dumps_profile : Profile -> result string.
Variable dumps_charts : list Analyzer.chart -> result string.
Variable dumps_report : Report -> result string.

(** [Storage._get_session_dir] *)
Definition _get_session_dir (session_id : string) : string :=
  path_join TEMP_FOLDER session_id.

(** [Storage.get_session] *)
Definition get_session (session_id : string) (w : world)
  : option session :=
  sessions w !! session_id.

(** [Storage.update_session_status]: an UPDATE of the rows with that
    session id. *)
Definition update_session_status (session_id new_status : string)
  : M world unit :=
  modify (fun w =>
            mkWorld (alter (fun s => mkSession (filename s) (filepath s)
                                               new_status)
                           session_id (sessions w))
                    (files w)
                    (log w ++ [StatusSet session_id new_status])).

(** [Storage.save_analysis_result] with a text: a failure of the
    write is caught and printed. *)
Definition save_analysis_result (session_id result_type : string)
           (result_data : string) : M world unit :=
  fun w =>
    let filepath :=
      path_join (_get_session_dir session_id) (result_type +:+ ".json") in
    match write_error (length (log w)) filepath with
    | None =>
        (Returned tt,
         record_event (SavedResult session_id result_type)
                      (write_file filepath (TextFile result_data) w))
    | Some e =>
        (Returned tt,
         record_event (Printed ("Error saving analysis result "
                                +:+ result_type +:+ ": " +:+ e)) w)
    end.

(** [Storage.load_dataframe]: every exception ends in [None]. *)
Definition load_dataframe (filepath : string) : option DataFrame :=
  match after_last_dot filepath with
  | None => None
  | Some e =>
      let file_ext := lower e in
      if String.eqb file_ext "csv" then
        match read_csv filepath with
        | Returned d => Some d
        | Raised _ => None
        end
      else if String.eqb file_ext "xlsx" || String.eqb file_ext "xls" then
        match read_excel filepath with
        | Returned d => Some d
        | Raised _ => None
        end
      else None
  end.

(** [Storage.save_dataframe]: the path, or [None] when the write
    fails (the failure is caught and printed). *)
Definition save_dataframe (d : DataFrame) (session_id suffix : string)
  : M world (option string) :=
  fun w =>
    let filename := session_id +:+ "_" +:+ suffix +:+ ".csv" in
    let filepath := path_join (_get_session_dir session_id) filename in
    match write_error (length (log w)) filepath with
    | None =>
        (Returned (Some filepath),
         record_event (SavedDataframe filepath)
                      (write_file filepath (CsvFile d) w))
    | Some e =>
        (Returned None,
         record_event (Printed ("Error saving dataframe: " +:+ e)) w)
    end.

(** The files [plt.savefig] has written in a run of the chart engine:
    the paths of the calls that returned, [t] being the time of the
    first of the events. *)
Fixpoint saved_pictures (t : nat) (evs : list Analyzer.event)
  : list string :=
  match evs with
  | [] => []
  | Analyzer.Called (Analyzer.plt_savefig filepath) :: evs' =>
      match raises t (Analyzer.plt_savefig filepath) with
      | None => filepath :: saved_pictures (S t) evs'
      | Some _ => saved_pictures (S t) evs'
      end
  | _ :: evs' => saved_pictures (S t) evs'
  end.

Definition write_files (paths : list string) (f : file)
           (fs : gmap string file) : gmap string file :=
  fold_left (fun fs' path => <[path := f]> fs') paths fs.

(** [DataAnalyzer(cleaned_df, session_id).analyze()]: the charts it
    returns, and its pictures in the folder of the session. *)
Definition chart_stage (cleaned_df : DataFrame) (session_id : string)
  : M world (list Analyzer.chart) :=
  fun w =>
    let run :=
      Analyzer.analyze repr_str raises exec_exits _make_request
                       (Analyzer.init TEMP_FOLDER cleaned_df session_id) in
    (fst run,
     mkWorld (sessions w)
             (write_files (saved_pictures 0 (Analyzer.events (snd run)))
                          PngFile (files w))
             (log w)).

(** The agent object: [session_id], [filename], [filepath]. *)
Record agent : Type := mkAgent {
  agent_session_id : string;
  agent_filename : option string;
  agent_filepath : option string
}.

(** [Agent.__init__] *)
Definition init (session_id : string) (w : world) : agent :=
  match get_session session_id w with
  | Some session_info =>
      mkAgent session_id (Some (filename session_info))
              (Some (filepath session_info))
  | None => mkAgent session_id None None
  end.

Definition truthy_opt (o : option string) : bool :=
  match o with Some s => truthy s | None => false end.

(** A stage of the pipeline: its outcome, and a mark in the log when
    it has completed. *)
Definition stage {A : Type} (ev : event) (r : result A) : M world A :=
  let* a := lift r in
  modify (record_event ev) >> ret a.

(** The body of the [try] of [run_analysis]. *)
Definition pipeline (session_id filename filepath : string)
  : M world bool :=
  update_session_status session_id "analyzing" >>
  (* STEP 1: Load Dataset *)
  print ("Loading dataset: " +:+ filepath) >>
  let* df :=
    match load_dataframe filepath with
    | None => raise "Dataset could not be loaded or is empty"
    | Some d => if empty d
                then raise "Dataset could not be loaded or is empty"
                else stage (Loaded filepath) (Returned d)
    end in
  (* STEP 2: Data Cleaning *)
  print "Cleaning data..." >>
  let cleaner := Cleaner.run parse_number (Cleaner.init df) in
  let cleaned_df := Cleaner.df cleaner in
  let cleaning_summary := Cleaner.get_cleaning_summary cleaner in
  modify (record_event Cleaned) >>
  save_dataframe cleaned_df session_id "cleaned" >>
  (* STEP 3: Data Profiling *)
  print "Profiling data..." >>
  let* profiled := stage Profiled (generate_profile cleaned_df) in
  let profile := fst profiled in
  let profile_summary_text := snd profiled in
  (* STEP 4: generate Charts *)
  print "Generating charts..." >>
  let* charts := chart_stage cleaned_df session_id in
  modify (record_event Charted) >>
  (* STEP 5: AI Insights & Content Generation *)
  print "Generating AI insights..." >>
  let* texts :=
    stage Narrated
          (narrate filename cleaning_summary profile
                   profile_summary_text) in
  let insights := fst (fst texts) in
  (* STEP 6: Build Structured Report *)
  print "Building final report..." >>
  let* report :=
    stage ReportBuilt
          (build_report session_id filename profile cleaning_summary
                        charts texts) in
  (* STEP 7: Persist Results *)
  print "Saving results..." >>
  let* profile_json := lift (dumps_profile profile) in
  save_analysis_result session_id "profile" profile_json >>
  let* charts_json := lift (dumps_charts charts) in
  save_analysis_result session_id "charts" charts_json >>
  save_analysis_result session_id "insights" insights >>
  let* report_json := lift (dumps_report report) in
  save_analysis_result session_id "report" report_json >>
  (* STEP 8: Mark Session Completed *)
  update_session_status session_id "completed" >>
  print "Analysis completed successfully." >>
  ret true.

(** [Agent.run_analysis] *)
Definition run_analysis (self : agent) : M world bool :=
  match agent_filename self, agent_filepath self with
  | Some filename, Some filepath =>
      if truthy filename && truthy filepath then
        try_except
          (pipeline (agent_session_id self) filename filepath)
          (fun e =>
             print ("Agent error in run_analysis: " +:+ e) >>
             update_session_status (agent_session_id self) "error" >>
             ret false)
      else
        print ("Session " +:+ agent_session_id self +:+ " not found.") >>
        ret false
  | _, _ =>
      print ("Session " +:+ agent_session_id self +:+ " not found.") >>
      ret false
  end.

(** [Agent(session_id).run_analysis()] *)
Definition run (session_id : string) : M world bool :=
  fun w => run_analysis (init session_id w) w.

End WithStages.

End Agent.

(* ===================================================================== *)
(** ** Concrete tables and environments used by the examples *)
(* ===================================================================== *)

Module Examples.
Import Frame Cleaner.

(** One float column of 100 cells, 49 of them missing. *)
Definition column_49_missing : column :=
  mkColumn (LStr "x") float64
           (repeat NA 49
            ++ map (fun k => Num (inject_Z (Z.of_nat k))) (seq 1 51)).

Definition cleaner_49_missing : DataCleaner :=
  init (mkDataFrame 100 [column_49_missing]).

(** Ten texts, seven of which read as numbers. *)
Definition column_70_percent : column :=
  mkColumn (LStr "x") object_
           [Str "1"; Str "2"; Str "3"; Str "4"; Str "5"; Str "6"; Str "7";
            Str "a"; Str "b"; Str "c"].

(** Ten texts, eight of which read as numbers. *)
Definition column_80_percent : column :=
  mkColumn (LStr "x") object_
           [Str "1"; Str "2"; Str "3"; Str "4"; Str "5"; Str "6"; Str "7";
            Str "8"; Str "b"; Str "c"].

(** Three rows without duplicates and one gap: filling the gap makes
    the first two rows equal. *)
Definition table_with_gap : DataFrame :=
  mkDataFrame 3 [mkColumn (LStr "a") int64 [Num 1; Num 1; Num 3];
                 mkColumn (LStr "b") float64 [NA; Num 2; Num 2]].

(** A text column that is half numbers until its gap is filled with
    its most frequent value. *)
Definition table_with_text_gap : DataFrame :=
  mkDataFrame 4 [mkColumn (LStr "a") object_
                          [Str "1"; Str "1"; Str "x"; NA];
                 mkColumn (LStr "b") int64 [Num 1; Num 2; Num 3; Num 4]].

(** Two columns that are two-thirds missing, with one row missing
    everywhere. *)
Definition table_with_empty_row : DataFrame :=
  mkDataFrame 3 [mkColumn (LStr "a") float64 [NA; NA; Num 1];
                 mkColumn (LStr "b") float64 [NA; Num 5; NA]].

(** A table on which every step has something to do: a repeated row,
    numbers written as text, a gap. *)
Definition messy_table : DataFrame :=
  mkDataFrame 4 [mkColumn (LInt 0) object_
                          [Str "1"; Str "2"; Str "2"; Str "4"];
                 mkColumn (LInt 1) float64 [Num 5; NA; NA; Num 7]].

(** An integer column with the 8 values 0..7 over [n] rows. *)
Definition codes (n : nat) : column :=
  mkColumn (LStr "code") int64
           (map (fun i => Num (inject_Z (Z.of_nat (i mod 8)))) (seq 0 n)).

(** Two numeric columns and a categorical one. *)
Definition sales_table : DataFrame :=
  mkDataFrame 3 [mkColumn (LStr "price") float64 [Num 5; Num 6; Num 7];
                 mkColumn (LStr "units") int64 [Num 1; Num 2; Num 4];
                 mkColumn (LStr "city") object_
                          [Str "Pune"; Str "Delhi"; Str "Pune"]].

(** [repr] of a text without quote, backslash or control character. *)
Definition quoted (s : string) : string := "'" +:+ s +:+ "'".

(** Plotting: nothing raises; or the text that uses a name it does not
    define raises when it is executed. *)
Definition nothing_raises (t : nat) (c : Analyzer.plt_call)
  : option string := None.

Definition exec_raises (t : nat) (c : Analyzer.plt_call) : option string :=
  match c with
  | Analyzer.exec_code code =>
      if String.eqb code "plt.scatter(data['price'], data['units'])"
      then Some "name 'data' is not defined"
      else None
  | _ => None
  end.

(** Executed texts: none leaves the interpreter; or the text [exit()]
    does. *)
Definition never_exits (t : nat) (code : string) : bool := false.

Definition exit_exits (t : nat) (code : string) : bool :=
  String.eqb code "exit()".

(** The language model: it answers every request with a fenced block
    of code, with a text that uses the undefined name [data], or with
    [exit()]; or it never answers. *)
Definition always_answers (t : nat) (p : Analyzer.prompt) : option string :=
  Some "```python plt.scatter(df['price'], df['units']) ```".


Definition answers_exit (t : nat) (p : Analyzer.prompt) : option string :=
  Some "exit()".

Definition never_answers (t : nat) (p : Analyzer.prompt) : option string :=
  None.

(** Two numeric columns and a column of booleans: categorical for the
    profiler, not a text column. *)
Definition flags_table : DataFrame :=
  mkDataFrame 3 [mkColumn (LStr "price") float64 [Num 5; Num 6; Num 7];
                 mkColumn (LStr "units") int64 [Num 1; Num 2; Num 4];
                 mkColumn (LStr "sold") bool_ [Num 1; Num 0; Num 1]].

(** A float32 column with [n] different values over [n] rows. *)
Definition readings (n : nat) : column :=
  mkColumn (LStr "reading") number_other
           (map (fun i => Num (inject_Z (Z.of_nat i))) (seq 0 n)).

(** A store with two sessions: one over a CSV file that reads as the
    sales table, one over a file that is not a table. *)
Definition sales_session : Agent.session :=
  Agent.mkSession "sales.csv" "/srv/temp/s1/sales.csv" "uploaded".

Definition notes_session : Agent.session :=
  Agent.mkSession "notes.txt" "/srv/temp/s2/notes.txt" "uploaded".

Definition store : Agent.world :=
  Agent.mkWorld (<["s1" := sales_session]> (<["s2" := notes_session]> ∅))
                ∅ [].

Definition read_sales (filepath : string) : Effects.result DataFrame :=
  if String.eqb filepath "/srv/temp/s1/sales.csv"
  then Effects.Returned sales_table
  else Effects.Raised (Effects.Exception "No such file or directory").

Definition read_nothing (filepath : string) : Effects.result DataFrame :=
  Effects.Raised (Effects.Exception "Excel file format cannot be determined").

(** Every write works; or the disk is full. *)
Definition writes_work (t : nat) (path : string) : option string := None.

Definition disk_full (t : nat) (path : string) : option string :=
  Some "[Errno 28] No space left on device".

(** Stages: the profile is the classification of the columns. *)
Definition profile_stage (d : DataFrame)
  : Effects.result (Profiler.column_types * string) :=
  Effects.Returned (Profiler._classify_columns d, "Dataset Profile Summary:").

Definition narrate_stage (filename : string) (s : Cleaner.summary)
           (p : Profiler.column_types) (text : string)
  : Effects.result (string * string * string) :=
  Effects.Returned ("<ul><li>insight</li></ul>", "<p>summary</p>",
                    "<ul><li>advice</li></ul>").

Definition report_stage (session_id filename : string)
           (p : Profiler.column_types) (s : Cleaner.summary)
           (c : list Analyzer.chart) (texts : string * string * string)
  : Effects.result string :=
  Effects.Returned ("report of " +:+ filename).

Definition dumps {A : Type} (kind : string) (x : A)
  : Effects.result string :=
  Effects.Returned ("{" +:+ kind +:+ "}").

(** A run of the agent in which every library call works, by what the
    language model answers and whether the writes work; the text
    [exit()] leaves the interpreter. *)
Definition run_with (answers : nat -> Analyzer.prompt -> option string)
           (write_error : nat -> string -> option string)
           (session_id : string)
  : Effects.result bool * Agent.world :=
  Agent.run "/srv/temp" read_sales read_nothing parse_integer write_error
            Profiler.column_types string profile_stage
            quoted nothing_raises exit_exits answers
            narrate_stage report_stage
            (dumps "profile") (dumps "charts")
            (fun r => Effects.Returned r) session_id store.

End Examples.

(* ===================================================================== *)
(** ** What the cleaning report accounts for *)
(* ===================================================================== *)

Module Audit.
Import Frame Cleaner.

(** The rows and columns an entry of the report says were removed. *)
Definition rows_removed (e : entry) : nat :=
  match e with
  | RemovedDuplicates duplicates_removed => duplicates_removed
  | RemovedEmpty empty_rows _ => empty_rows
  | _ => 0
  end.

Definition cols_removed (e : entry) : nat :=
  match e with
  | RemovedEmpty _ empty_cols => empty_cols
  | _ => 0
  end.

Definition total (f : entry -> nat) (report : list entry) : nat :=
  fold_right (fun e acc => f e + acc) 0 report.

(** The rows and columns present, plus those reported as removed, are
    those of the table the cleaner was given. *)
Definition accounted (self : DataCleaner) : Prop :=
  index_len (original_df self)
  = index_len (df self) + total rows_removed (cleaning_report self)
  /\ length (columns (original_df self))
     = length (columns (df self)) + total cols_removed (cleaning_report self).

(** A column of dtype int64 or float64 holds numbers and gaps only (what
    pandas guarantees of such a column). *)
Definition typed_column (c : column) : bool :=
  negb (is_int64_or_float64 (dtype_of c))
  || forallb (fun x => isna x || is_num x) (cells c).

Definition well_typed (d : DataFrame) : bool :=
  forallb typed_column (columns d).

(** The notes of the missing-value entries of a report. *)
Definition missing_notes (report : list entry) : list missing_note :=
  flat_map (fun e => match e with
                     | HandledMissing notes => notes
                     | _ => []
                     end) report.

Definition is_filled_unknown (n : missing_note) : bool :=
  match n with FilledUnknown _ _ => true | _ => false end.

End Audit.

(* ===================================================================== *)
(** ** What a run of the chart engine adds *)
(* ===================================================================== *)

Module ChartAudit.
Import Frame Text Effects Analyzer.

(** The requests to the language model among some events, in order. *)
Definition requests (evs : list event) : list prompt :=
  flat_map (fun e => match e with
                     | Requested p => [p]
                     | _ => []
                     end) evs.

(** The paths given to [plt.savefig] among some events, in order. *)
Definition savefigs (evs : list event) : list string :=
  flat_map (fun e => match e with
                     | Called (plt_savefig filepath) => [filepath]
                     | _ => []
                     end) evs.

(** [w'] is the analyzer [w] after it has appended the charts [new],
    made the requests [reqs] and called [plt.savefig] on the paths
    [figs], and nothing else but other plotting calls and prints. *)
Definition grows (w w' : world) (new : list chart) (reqs : list prompt)
           (figs : list string) : Prop :=
  same_object w w'
  /\ charts w' = charts w ++ new
  /\ requests (events w') = requests (events w) ++ reqs
  /\ savefigs (events w') = savefigs (events w) ++ figs.

(** The chart type [generate_chart_code] formats into its prompt. *)
Definition prompt_type (chart_type : option string) : string :=
  match chart_type with
  | Some t => if truthy t then t else "Best fit"
  | None => "Best fit"
  end.

(** The file names the five blocks of [analyze] save to, in the order
    of the blocks. *)
Definition role_names (d : DataFrame) : list string :=
  ["correlation_heatmap" +:+ ".png";
   safe_name ("hist_" +:+ label_str (hd (LStr "") (numeric_cols_of d)))
   +:+ ".png";
   safe_name ("bar_" +:+ label_str (hd (LStr "") (categorical_cols_of d)))
   +:+ ".png";
   safe_name "boxplot_comparison" +:+ ".png";
   "ai_relationship_plot" +:+ ".png"].

(** The characters [safe_name] takes out of a file name. *)
Definition unsafe_char (a : ascii) : bool :=
  Ascii.eqb a " " || Ascii.eqb a "/" || Ascii.eqb a "\".

Fixpoint string_forallb (p : ascii -> bool) (s : string) : bool :=
  match s with
  | EmptyString => true
  | String a s' => p a && string_forallb p s'
  end.

(** [w] after the plotting calls [cs] have been made, one after the
    other. *)
Definition made (cs : list plt_call) (w : world) : world :=
  fold_left (fun w' c => record_event (Called c) w') cs w.

Section WithEnvironment.

Variable repr_str : string -> string.
Variable raises : nat -> plt_call -> option string.
Variable exec_exits : nat -> string -> bool.

(** The two prompts of [analyze], for the numeric columns [cols]. *)
Definition heatmap_prompt (cols : list label) : prompt :=
  mkPrompt ("Numeric columns: " +:+ repr_list repr_str cols)
           (repr_list repr_str cols) "Correlation Heatmap".

Definition relationship_prompt (cols : list label) : prompt :=
  mkPrompt ("Find an interesting relationship between these columns: "
            +:+ repr_list repr_str cols +:+ ".")
           (repr_list repr_str cols) "Scatter Plot or Line Chart".

(** How the call [c], made as the [t]-th event, ends: [None] when it
    returns. *)
Definition call_outcome (t : nat) (c : plt_call) : option exn :=
  match c with
  | exec_code code =>
      if exec_exits t code then Some SystemExit
      else option_map Exception (raises t c)
  | _ => option_map Exception (raises t c)
  end.

(** The calls [cs] made one after the other from [w], up to the first
    that does not return: how that one ended ([None] when all
    returned), and the analyzer after the calls made. *)
Fixpoint run_calls (cs : list plt_call) (w : world) : option exn * world :=
  match cs with
  | [] => (None, w)
  | c :: cs' =>
      let w' := record_event (Called c) w in
      match call_outcome (length (events w)) c with
      | Some e => (Some e, w')
      | None => run_calls cs' w'
      end
  end.

End WithEnvironment.

(** The six calls of the [try] of [_execute_plot_code], in order. *)
Definition body_calls (charts_dir code title filename_base : string)
  : list plt_call :=
  [plt_figure; exec_code code; plt_title title; plt_tight_layout;
   plt_savefig (path_join charts_dir (filename_base +:+ ".png"));
   plt_close].

End ChartAudit.

(* ===================================================================== *)
(** ** The storage, as the routes use it *)
(* ===================================================================== *)

Module StorageAudit.
Import Frame Text Effects Agent.

(** [config.ALLOWED_EXTENSIONS] *)
Definition ALLOWED_EXTENSIONS : list string := ["csv"; "xlsx"; "xls"].

(** ['.' in filename] *)
Fixpoint contains_dot (s : string) : bool :=
  match s with
  | EmptyString => false
  | String a s' => Ascii.eqb a "." || contains_dot s'
  end.

(** [Storage.allowed_file]; the extension is looked at only when the
    name has a dot. *)
Definition allowed_file (filename : string) : bool :=
  contains_dot filename
  && match after_last_dot filename with
     | Some e => existsb (String.eqb (lower e)) ALLOWED_EXTENSIONS
     | None => false
     end.

(** The last character of a text. *)
Fixpoint last_char (s : string) : option ascii :=
  match s with
  | EmptyString => None
  | String a s' =>
      match last_char s' with
      | Some b => Some b
      | None => Some a
      end
  end.

(** In a log, no event [guarded] comes before the first event
    [mark]. *)
Fixpoint only_after (mark guarded : event -> bool) (l : list event)
  : bool :=
  match l with
  | [] => true
  | ev :: l' =>
      if mark ev then true
      else negb (guarded ev) && only_after mark guarded l'
  end.

Definition is_report_built (ev : event) : bool :=
  match ev with ReportBuilt => true | _ => false end.

Definition is_saved_result (ev : event) : bool :=
  match ev with SavedResult _ _ => true | _ => false end.

Section WithFolder.

Variable TEMP_FOLDER : string.

(** The file of a result, and the file of the cleaned table. *)
Definition result_path (session_id result_type : string) : string :=
  path_join (_get_session_dir TEMP_FOLDER session_id)
            (result_type +:+ ".json").

Definition cleaned_path (session_id : string) : string :=
  path_join (_get_session_dir TEMP_FOLDER session_id)
            (session_id +:+ "_" +:+ "cleaned" +:+ ".csv").

(** The pictures the chart engine may save for the table [d]. *)
Definition picture_paths (session_id : string) (d : DataFrame)
  : list string :=
  map (path_join (path_join TEMP_FOLDER session_id))
      (ChartAudit.role_names d).

(** The files a run of the agent may write for a session whose
    cleaned table is [d]. *)
Definition session_paths (session_id : string) (d : DataFrame)
  : list string :=
  [cleaned_path session_id; result_path session_id "profile";
   result_path session_id "charts"; result_path session_id "insights";
   result_path session_id "report"]
  ++ picture_paths session_id d.

(** Whether writing the file [path] as the [t]-th event of the run
    fails, and with which message. *)
Variable write_error : nat -> string -> option string.

(** What [save_dataframe] and [save_analysis_result] leave in the log
    when they run as event number [t]: the record of the write, or
    the line they print when the write fails. *)
Definition saving_dataframe (session_id : string) (t : nat) : event :=
  match write_error t (cleaned_path session_id) with
  | None => SavedDataframe (cleaned_path session_id)
  | Some e => Printed ("Error saving dataframe: " +:+ e)
  end.

Definition saving_result (session_id result_type : string) (t : nat)
  : event :=
  match write_error t (result_path session_id result_type) with
  | None => SavedResult session_id result_type
  | Some e =>
      Printed ("Error saving analysis result " +:+ result_type +:+ ": "
               +:+ e)
  end.

(** What the file [path] holds after a write of [new] attempted as
    event number [t], [old] being what it held before. *)
Definition written (t : nat) (path : string) (new : file)
           (old : option file) : option file :=
  match write_error t path with
  | None => Some new
  | Some _ => old
  end.

(** The files after that write. *)
Definition write_or_keep (t : nat) (path : string) (new : file)
           (fs : gmap string file) : gmap string file :=
  match write_error t path with
  | None => <[path := new]> fs
  | Some _ => fs
  end.

End WithFolder.

(** The pictures the chart stage of a run writes for the cleaned
    table [d]: those of the [plt.savefig] calls that returned. *)
Definition pictures_saved (TEMP_FOLDER : string)
           (repr_str : string -> string)
           (raises : nat -> Analyzer.plt_call -> option string)
           (exec_exits : nat -> string -> bool)
           (_make_request : nat -> Analyzer.prompt -> option string)
           (d : DataFrame) (session_id : string) : list string :=
  saved_pictures raises 0
    (Analyzer.events
       (snd (Analyzer.analyze repr_str raises exec_exits _make_request
                              (Analyzer.init TEMP_FOLDER d session_id)))).

Section WithReaders.

Variable TEMP_FOLDER : string.
Variable read_csv read_excel : string -> result DataFrame.
Variable parse_number : string -> option Q.

(** The table a run of the session cleans and draws, when its file
    loads as a table that is not empty. *)
Definition cleaned_table (s : session) : option DataFrame :=
  match load_dataframe read_csv read_excel (filepath s) with
  | Some d =>
      if empty d then None
      else Some (Cleaner.df (Cleaner.run parse_number (Cleaner.init d)))
  | None => None
  end.

(** The files a run of the session [session_id] may write. *)
Definition run_paths (session_id : string) (w : world) : list string :=
  match sessions w !! session_id with
  | Some s =>
      match cleaned_table s with
      | Some d => session_paths TEMP_FOLDER session_id d
      | None => []
      end
  | None => []
  end.

End WithReaders.

End StorageAudit.

(* ===================================================================== *)
(** ** The plotting calls of a run *)
(* ===================================================================== *)

Module FigureAudit.
Import Frame Text Effects Analyzer.

(** A plotting library in which the call made as event number [t]
    raises and every other call works. *)
Definition raises_at (t : nat) (message : string) (t' : nat)
           (c : plt_call) : option string :=
  if Nat.eqb t' t then Some message else None.

End FigureAudit.

(* ===================================================================== *)
(** * Properties *)
(* ===================================================================== *)

(** ** Threshold tests as integer inequalities *)

Section Thresholds.
Import Frame.

Lemma Qltb_iff (x y : Q) : Qltb x y = true <-> (x < y)%Q.
Proof.
  unfold Qltb. rewrite Bool.negb_true_iff. split.
  - intros H. apply Qnot_le_lt. intros Hle.
    apply Qle_bool_iff in Hle. congruence.
  - intros H. destruct (Qle_bool y x) eqn:E; [|reflexivity].
    apply Qle_bool_iff in E. exfalso. exact (Qlt_not_le _ _ H E).
Qed.

Lemma Qltb_false_iff (x y : Q) : Qltb x y = false <-> (y <= x)%Q.
Proof.
  unfold Qltb. rewrite Bool.negb_false_iff. apply Qle_bool_iff.
Qed.

(** [k / n > 0.7] is [7 n < 10 k]. *)
Lemma converts_enough_iff (k n : nat) :
  k <= n -> Cleaner.converts_enough k n = true <-> 7 * n < 10 * k.
Proof.
  intros Hkn. unfold Cleaner.converts_enough. rewrite Qltb_iff.
  destruct n as [|n].
  - assert (k = 0) by lia. subst k.
    unfold Qdiv, Qinv, Qlt, Qmult; simpl. lia.
  - unfold Qdiv, Qinv, Qlt, Qmult, inject_Z.
    rewrite Nat2Z.inj_succ.
    destruct (Z.succ (Z.of_nat n)) eqn:E; try lia.
    simpl Qnum; simpl Qden. rewrite Pos.mul_1_l. lia.
Qed.

(** [(m / n) * 100 > 50] is [n < 2 m]. *)
Lemma over_half_missing_iff (m n : nat) :
  m <= n ->
  Qltb (inject_Z 50) (Cleaner.missing_pct m n) = true <-> n < 2 * m.
Proof.
  intros Hmn. unfold Cleaner.missing_pct. rewrite Qltb_iff.
  destruct n as [|n].
  - assert (m = 0) by lia. subst m.
    unfold Qdiv, Qinv, Qlt, Qmult; simpl. lia.
  - unfold Qdiv, Qinv, Qlt, Qmult, inject_Z.
    rewrite Nat2Z.inj_succ.
    destruct (Z.succ (Z.of_nat n)) eqn:E; try lia.
    simpl Qnum; simpl Qden. rewrite Pos.mul_1_l, Pos.mul_1_r. lia.
Qed.

(** [u < 10 and u < n * 0.05] is [u < 10] and [20 u < n]. *)
Lemma few_unique_iff (u n : nat) :
  Profiler.few_unique u n = true <-> u < 10 /\ 20 * u < n.
Proof.
  unfold Profiler.few_unique.
  rewrite Bool.andb_true_iff, Nat.ltb_lt, Qltb_iff.
  unfold Qlt, Qmult, inject_Z. simpl Qnum; simpl Qden. lia.
Qed.

End Thresholds.

(** ** Lists *)

Section ListFacts.

Lemma In_somes {A : Type} (x : A) (l : list (option A)) :
  In x (Cleaner.somes l) <-> In (Some x) l.
Proof.
  induction l as [|[y|] l IH]; simpl.
  - tauto.
  - rewrite IH. split; intros [H|H]; auto; left; congruence.
  - rewrite IH. split; [auto|]. intros [H|H]; [discriminate|auto].
Qed.

Lemma filter_length_le {A : Type} (f : A -> bool) (l : list A) :
  length (List.filter f l) <= length l.
Proof.
  induction l as [|x l IH]; simpl; [lia|].
  destruct (f x); simpl; lia.
Qed.

Lemma nth_error_map_Some {A B : Type} (f : A -> B) (l : list A) (i : nat)
      (x : A) :
  nth_error l i = Some x -> nth_error (map f l) i = Some (f x).
Proof.
  intros H. rewrite nth_error_map, H. reflexivity.
Qed.

End ListFacts.

(** ** The cleaner, step by step *)

Section CleanerSteps.
Import Frame Cleaner.

Lemma isna_sum_le (cs : list cell) : isna_sum cs <= length cs.
Proof. apply filter_length_le. Qed.

Lemma notna_sum_le (cs : list cell) : notna_sum cs <= length cs.
Proof. apply filter_length_le. Qed.

Lemma to_numeric_length (parse : string -> option Q) (cs : list cell) :
  length (to_numeric parse cs) = length cs.
Proof. apply length_map. Qed.

Lemma insert_sorted_not_nil (x : Q) (l : list Q) : insert_sorted x l <> [].
Proof.
  destruct l as [|y l]; simpl; [discriminate|].
  destruct (Qle_bool x y); discriminate.
Qed.

Lemma quantile_some (q : Q) (cs : list cell) :
  numbers cs <> [] -> exists v, quantile q cs = Some v.
Proof.
  intros H. unfold quantile.
  destruct (sort_numbers (numbers cs)) as [|x0 v] eqn:E.
  - exfalso. destruct (numbers cs) as [|y l]; [congruence|].
    simpl in E. exact (insert_sorted_not_nil _ _ E).
  - eexists. reflexivity.
Qed.

(** A column of numbers and gaps that is not all gaps has a number. *)
Lemma numbers_not_nil (cs : list cell) :
  Forall (fun x => isna x = true \/ is_num x = true) cs ->
  isna_sum cs < length cs -> numbers cs <> [].
Proof.
  unfold isna_sum. induction 1 as [|c cs Hc Hcs IH]; simpl; [lia|].
  destruct c as [q|s|]; simpl.
  - discriminate.
  - destruct Hc; discriminate.
  - intros H. apply IH. lia.
Qed.

(** What the loop of [_handle_missing_values] does to the column at a
    given position, and what it notes. *)
Lemma handle_missing_at (self : DataCleaner) (i : nat) (c : column) :
  nth_error (columns (df self)) i = Some c ->
  let h := handle_column (index_len (df self)) c in
  nth_error (columns (df (_handle_missing_values self))) i = Some (fst h)
  /\ (forall note, snd h = Some note ->
      exists notes,
        cleaning_report (_handle_missing_values self)
        = cleaning_report self ++ [HandledMissing notes]
        /\ In note notes).
Proof.
  intros Hi h. unfold _handle_missing_values.
  set (handled := map (handle_column (index_len (df self)))
                      (columns (df self))).
  assert (Hin : In h handled).
  { apply nth_error_In with i. unfold handled.
    apply nth_error_map_Some. exact Hi. }
  split.
  - destruct (somes (map snd handled)); simpl;
      unfold handled; rewrite map_map;
      apply (nth_error_map_Some (fun x => fst (handle_column _ x)));
      exact Hi.
  - intros note Hnote.
    assert (Hs : In note (somes (map snd handled))).
    { apply In_somes. rewrite <- Hnote. apply in_map. exact Hin. }
    destruct (somes (map snd handled)) as [|n0 ns] eqn:E; [destruct Hs|].
    exists (n0 :: ns). simpl. split; [reflexivity|exact Hs].
Qed.

End CleanerSteps.

(** ** The most frequent value *)

Section MostFrequent.
Import Frame Cleaner.

Lemma unique_from_notna (seen cs : list cell) (x : cell) :
  In x (unique_from seen cs) -> isna x = false.
Proof.
  revert seen. induction cs as [|c cs IH]; intros seen; simpl; [tauto|].
  destruct (isna c || existsb (cell_eqb c) seen) eqn:E; [apply IH|].
  intros [H|H]; [|exact (IH _ H)].
  subst x. apply Bool.orb_false_iff in E. tauto.
Qed.

Lemma unique_from_not_nil (seen cs : list cell) :
  (exists x, In x cs /\ isna x = false
             /\ existsb (cell_eqb x) seen = false) ->
  unique_from seen cs <> [].
Proof.
  revert seen. induction cs as [|c cs IH]; intros seen (x & Hx & Hna & Hs);
    [destruct Hx|].
  simpl. destruct (isna c || existsb (cell_eqb c) seen) eqn:E;
    [|discriminate].
  apply IH. exists x. destruct Hx as [Hx|Hx]; [|tauto].
  subst c. rewrite Hna, Hs in E. discriminate.
Qed.

Lemma max_attained {A : Type} (f : A -> nat) (l : list A) :
  l <> [] -> exists x, In x l /\ f x = fold_right Nat.max 0 (map f l).
Proof.
  induction l as [|x l IH]; [congruence|]. intros _.
  destruct l as [|y l].
  - exists x. simpl. split; [auto|lia].
  - destruct IH as (z & Hz & Ez); [discriminate|].
    cbn [map fold_right] in *.
    destruct (Nat.le_ge_cases (f x) (fold_right Nat.max 0 (f y :: map f l)))
      as [Hle|Hge].
    + exists z. split; [right; exact Hz|].
      cbn [fold_right]. rewrite Ez. cbn [fold_right] in Hle. lia.
    + exists x. split; [left; reflexivity|].
      cbn [fold_right] in *. lia.
Qed.

Lemma insert_cell_In (x y : cell) (l : list cell) :
  In y (insert_cell x l) <-> y = x \/ In y l.
Proof.
  induction l as [|z l IH]; simpl; [intuition|].
  destruct (cell_leb x z); simpl; [intuition|].
  rewrite IH. intuition.
Qed.

Lemma sorted_cells_In (y : cell) (l : list cell) :
  In y (fold_right insert_cell [] l) <-> In y l.
Proof.
  induction l as [|x l IH]; simpl; [tauto|].
  rewrite insert_cell_In, IH. intuition.
Qed.

Lemma mode_In_unique (cs : list cell) (x : cell) :
  In x (mode cs) -> In x (unique cs).
Proof.
  unfold mode. cbv zeta.
  set (top := List.filter _ (unique cs)).
  assert (Ht : In x top -> In x (unique cs))
    by (unfold top; intros H; apply List.filter_In in H; tauto).
  destruct (forallb is_num top || forallb is_str top); [|exact Ht].
  intros H. apply (proj1 (sorted_cells_In _ _)) in H. exact (Ht H).
Qed.

Lemma mode_notna (cs : list cell) (x : cell) :
  In x (mode cs) -> isna x = false.
Proof.
  intros H. apply mode_In_unique in H. exact (unique_from_notna _ _ _ H).
Qed.

Lemma exists_notna (cs : list cell) :
  isna_sum cs < length cs -> exists x, In x cs /\ isna x = false.
Proof.
  unfold isna_sum. induction cs as [|c cs IH]; simpl; [lia|].
  destruct (isna c) eqn:E; simpl; intros H.
  - destruct IH as (x & Hx & Hn); [lia|]. exists x. auto.
  - exists c. auto.
Qed.

(** When a column has a value, it has a most frequent one. *)
Lemma mode_not_nil (cs : list cell) :
  isna_sum cs < length cs -> mode cs <> [].
Proof.
  intros H. destruct (exists_notna cs H) as (x & Hx & Hn).
  assert (Hu : unique cs <> []).
  { apply unique_from_not_nil. exists x. auto. }
  destruct (max_attained (fun v => count_of v cs) (unique cs) Hu)
    as (z & Hz & Ez).
  unfold mode. cbv zeta.
  set (top := List.filter _ (unique cs)).
  assert (Ht : In z top).
  { unfold top. apply List.filter_In. split; [exact Hz|].
    apply Nat.eqb_eq. exact Ez. }
  destruct (forallb is_num top || forallb is_str top).
  - intros E. apply (proj2 (sorted_cells_In _ _)) in Ht.
    rewrite E in Ht. destruct Ht.
  - intros E. rewrite E in Ht. destruct Ht.
Qed.

End MostFrequent.

(** ** Missing values *)

Section MissingValues.
Import Frame Cleaner.

(** C3 (as the code has it).  In [_handle_missing_values], for a column
    with [m > 0] missing cells out of [n]: when more than half are
    missing ([n < 2 m]) the column is left as it is and noted as kept;
    when at most half are missing ([2 m <= n], which includes exactly
    50% and 49%) the column is imputed: a column of dtype int64 or
    float64 has every missing cell replaced by the median of the cells
    it had before, and that median exists when the column holds
    numbers; a column of any other dtype has every missing cell
    replaced by the first of its most frequent values, which it always
    has. *)
Theorem missing_value_policy (self : DataCleaner) (i : nat) (c : column) :
  nth_error (columns (df self)) i = Some c ->
  length (cells c) = index_len (df self) ->
  0 < isna_sum (cells c) ->
  let n := index_len (df self) in
  let m := isna_sum (cells c) in
  let self' := _handle_missing_values self in
  exists notes,
    cleaning_report self' = cleaning_report self ++ [HandledMissing notes]
    /\ (n < 2 * m ->
        nth_error (columns (df self')) i = Some c
        /\ In (KeptAsIs (name c) m (missing_pct m n)) notes)
    /\ (2 * m <= n -> is_int64_or_float64 (dtype_of c) = true ->
        nth_error (columns (df self')) i
        = Some (mkColumn (name c) (dtype_of c)
                         (fillna (fill_value (median (cells c))) (cells c)))
        /\ In (FilledMedian (name c) m (median (cells c))) notes
        /\ (Forall (fun x => isna x = true \/ is_num x = true) (cells c) ->
            exists v, median (cells c) = Some v))
    /\ (2 * m <= n -> is_int64_or_float64 (dtype_of c) = false ->
        exists mode_val others,
          mode (cells c) = mode_val :: others
          /\ isna mode_val = false
          /\ nth_error (columns (df self')) i
             = Some (mkColumn (name c) (dtype_of c)
                              (fillna mode_val (cells c)))
          /\ In (FilledMode (name c) m mode_val) notes).
Proof.
  intros Hi Hlen Hm n m self'.
  destruct (handle_missing_at self i c Hi) as [Hcol Hnote].
  assert (Hle : m <= n) by (unfold m, n; rewrite <- Hlen; apply isna_sum_le).
  pose proof (over_half_missing_iff m n Hle) as Hhalf.
  assert (Hpos : Nat.ltb 0 (isna_sum (cells c)) = true)
    by (apply Nat.ltb_lt; exact Hm).
  destruct (Qltb (inject_Z 50) (missing_pct m n)) eqn:Ehalf.
  - (* more than half missing *)
    assert (Hh : handle_column (index_len (df self)) c
                 = (c, Some (KeptAsIs (name c) m (missing_pct m n)))).
    { unfold handle_column. rewrite Hpos. fold m. fold n.
      rewrite Ehalf. reflexivity. }
    rewrite Hh in Hcol, Hnote. simpl in Hcol.
    destruct (Hnote _ eq_refl) as [notes [Hrep Hin]].
    exists notes. split; [exact Hrep|]. split; [|split].
    + intros _. split; [exact Hcol|exact Hin].
    + intros H2. exfalso. assert (n < 2 * m) by (apply Hhalf; reflexivity).
      lia.
    + intros H2. exfalso. assert (n < 2 * m) by (apply Hhalf; reflexivity).
      lia.
  - (* at most half missing *)
    destruct (is_int64_or_float64 (dtype_of c)) eqn:Edt.
    + assert (Hh : handle_column (index_len (df self)) c
                   = (mkColumn (name c) (dtype_of c)
                        (fillna (fill_value (median (cells c))) (cells c)),
                      Some (FilledMedian (name c) m (median (cells c))))).
      { unfold handle_column. rewrite Hpos. fold m. fold n.
        rewrite Ehalf, Edt. reflexivity. }
      rewrite Hh in Hcol, Hnote. simpl in Hcol.
      destruct (Hnote _ eq_refl) as [notes [Hrep Hin]].
      exists notes. split; [exact Hrep|]. split; [|split].
      * intros H2. apply Hhalf in H2. discriminate.
      * intros H2 _. split; [exact Hcol|]. split; [exact Hin|].
        intros Hnum. apply quantile_some.
        apply numbers_not_nil; [exact Hnum|]. fold m. lia.
      * intros _ Hd. discriminate.
    + (* another dtype: the column has a value, so a most frequent one *)
      assert (Hlt : m < n).
      { destruct (Nat.lt_ge_cases n (2 * m)) as [H|H]; [|lia].
        apply Hhalf in H. congruence. }
      assert (Hmode : mode (cells c) <> []).
      { apply mode_not_nil. rewrite Hlen. exact Hlt. }
      destruct (mode (cells c)) as [|mode_val others] eqn:Emode;
        [congruence|].
      assert (Hh : handle_column (index_len (df self)) c
                   = (mkColumn (name c) (dtype_of c)
                               (fillna mode_val (cells c)),
                      Some (FilledMode (name c) m mode_val))).
      { unfold handle_column. rewrite Hpos. fold m. fold n.
        rewrite Ehalf, Edt, Emode. reflexivity. }
      rewrite Hh in Hcol, Hnote. simpl in Hcol.
      destruct (Hnote _ eq_refl) as [notes [Hrep Hin]].
      exists notes. split; [exact Hrep|]. split; [|split].
      * intros H2. apply Hhalf in H2. discriminate.
      * intros _ Hd. discriminate.
      * intros _ _. exists mode_val, others.
        split; [reflexivity|]. split; [|split; [exact Hcol|exact Hin]].
        apply (mode_notna (cells c)). rewrite Emode. left. reflexivity.
Qed.

End MissingValues.

Section MissingValuesExamples.
Import Frame Cleaner Examples.

(** The policy on a float column of 100 cells with 49 missing. *)
Lemma missing_value_policy_witness :
  exists notes,
    cleaning_report (_handle_missing_values cleaner_49_missing)
    = [HandledMissing notes]
    /\ nth_error (columns (df (_handle_missing_values cleaner_49_missing))) 0
       = Some (mkColumn (LStr "x") float64
                 (fillna (fill_value (median (cells column_49_missing)))
                         (cells column_49_missing))).
Proof.
  destruct (missing_value_policy cleaner_49_missing 0 column_49_missing
              eq_refl eq_refl ltac:(vm_compute; lia))
    as [notes [Hrep [_ [Hfill _]]]].
  exists notes. split; [exact Hrep|].
  apply Hfill; [vm_compute; lia|reflexivity].
Defined.

(** The median that fills the 49 gaps is that of the 51 numbers 1..51. *)
Example median_of_49_missing :
  median (cells column_49_missing) = Some (26 # 1).
Proof. vm_compute. reflexivity. Qed.

(** C3 as stated fails: a float column with exactly 50.0% missing is
    not kept as it is; its gap is filled with the median. *)
Lemma exactly_half_missing_is_imputed :
  let c := mkColumn (LStr "x") float64 [Num 1; NA] in
  let self := init (mkDataFrame 2 [c]) in
  (missing_pct (isna_sum (cells c)) (index_len (df self)) == 50)%Q
  /\ columns (df (_handle_missing_values self))
     = [mkColumn (LStr "x") float64 [Num 1; Num 1]]
  /\ nth_error (columns (df (_handle_missing_values self))) 0 <> Some c.
Proof.
  split; [reflexivity|]. split; [reflexivity|].
  vm_compute. discriminate.
Qed.

End MissingValuesExamples.

(** ** Type fixing *)

Section TypeFixing.
Import Frame Cleaner.
Variable parse_number : string -> option Q.

Lemma fix_types_at (self : DataCleaner) (i : nat) (c : column) :
  nth_error (columns (df self)) i = Some c ->
  nth_error (columns (df (_fix_data_types parse_number self))) i
  = Some (fst (fix_column parse_number (index_len (df self)) c)).
Proof.
  intros Hi. unfold _fix_data_types.
  destruct (somes _); simpl; rewrite map_map;
    apply (nth_error_map_Some (fun x => fst (fix_column _ _ x)));
    exact Hi.
Qed.

(** C4 (as the code has it).  In [_fix_data_types] a column of dtype
    object is replaced by its numeric form exactly when strictly more
    than 70% of the rows convert ([7 n < 10 k]); at 70% or below it is
    left as it is, and so is every column of another dtype.  In the
    numeric form a text that does not read as a number is a missing
    value, and the dtype is a numeric one. *)
Theorem numeric_adoption_threshold (self : DataCleaner) (i : nat)
        (c : column) :
  nth_error (columns (df self)) i = Some c ->
  length (cells c) = index_len (df self) ->
  let n := index_len (df self) in
  let numeric_col := to_numeric parse_number (cells c) in
  let k := notna_sum numeric_col in
  let after := nth_error (columns (df (_fix_data_types parse_number self))) i in
  (dtype_of c = object_ -> 7 * n < 10 * k ->
   after = Some (mkColumn (name c) (numeric_dtype numeric_col) numeric_col))
  /\ (dtype_of c = object_ -> 10 * k <= 7 * n -> after = Some c)
  /\ (dtype_of c <> object_ -> after = Some c)
  /\ (forall j s, nth_error (cells c) j = Some (Str s) ->
                  parse_number s = None ->
                  nth_error numeric_col j = Some NA)
  /\ is_np_number (numeric_dtype numeric_col) = true.
Proof.
  intros Hi Hlen n numeric_col k after.
  assert (Hafter : after = Some (fst (fix_column parse_number n c)))
    by (apply fix_types_at; exact Hi).
  assert (Hkn : k <= n).
  { unfold k, n, numeric_col. rewrite <- Hlen.
    rewrite <- (to_numeric_length parse_number (cells c)).
    apply notna_sum_le. }
  pose proof (converts_enough_iff k n Hkn) as Hiff.
  repeat split.
  - intros Hd Hgt. rewrite Hafter. unfold fix_column.
    rewrite Hd. simpl dtype_eqb. cbv iota. fold numeric_col. fold k.
    replace (converts_enough k n) with true
      by (symmetry; apply Hiff; exact Hgt).
    reflexivity.
  - intros Hd Hle. rewrite Hafter. unfold fix_column.
    rewrite Hd. simpl dtype_eqb. cbv iota. fold numeric_col. fold k.
    destruct (converts_enough k n) eqn:E; [|reflexivity].
    exfalso. assert (7 * n < 10 * k) by (apply Hiff; reflexivity). lia.
  - intros Hd. rewrite Hafter. unfold fix_column.
    destruct (dtype_of c); try reflexivity. congruence.
  - intros j s Hj Hs. unfold numeric_col, to_numeric.
    rewrite (nth_error_map_Some _ _ _ _ Hj). simpl. rewrite Hs. reflexivity.
  - unfold numeric_dtype. destruct (forallb _ _); reflexivity.
Qed.

End TypeFixing.

Section TypeFixingExamples.
Import Frame Cleaner Examples.

(** Eight texts out of ten read as numbers: the column is adopted. *)
Lemma numeric_adoption_threshold_witness :
  nth_error (columns (df (_fix_data_types parse_integer
                            (init (mkDataFrame 10 [column_80_percent]))))) 0
  = Some (mkColumn (LStr "x") float64
            [Num 1; Num 2; Num 3; Num 4; Num 5; Num 6; Num 7; Num 8;
             NA; NA]).
Proof.
  destruct (numeric_adoption_threshold parse_integer
              (init (mkDataFrame 10 [column_80_percent])) 0
              column_80_percent eq_refl eq_refl) as [Hadopt _].
  apply Hadopt; [reflexivity|vm_compute; lia].
Defined.

(** C4 as stated fails at the boundary: with exactly 70% of the values
    convertible the column is not adopted in numeric form. *)
Lemma exactly_70_percent_is_not_adopted :
  let self := init (mkDataFrame 10 [column_70_percent]) in
  7 * index_len (df self)
  = 10 * notna_sum (to_numeric parse_integer (cells column_70_percent))
  /\ columns (df (_fix_data_types parse_integer self)) = [column_70_percent]
  /\ dtype_of column_70_percent = object_.
Proof. repeat split. Qed.

End TypeFixingExamples.

(** ** The cleaning report *)

Section CleaningReport.
Import Frame Cleaner.
Variable parse_number : string -> option Q.

Lemma standardize_report (self : DataCleaner) :
  cleaning_report (_standardize_columns self) = cleaning_report self.
Proof. reflexivity. Qed.

Lemma remove_duplicates_report (self : DataCleaner) :
  exists e, cleaning_report (_remove_duplicates self)
            = cleaning_report self ++ [e]
            /\ step_of e = RemoveDuplicates.
Proof.
  unfold _remove_duplicates.
  destruct (Nat.ltb 0 _); eexists; split; reflexivity.
Qed.

Lemma fix_data_types_report (self : DataCleaner) :
  exists e, cleaning_report (_fix_data_types parse_number self)
            = cleaning_report self ++ [e]
            /\ step_of e = FixDataTypes.
Proof.
  unfold _fix_data_types.
  destruct (somes _); eexists; split; reflexivity.
Qed.

Lemma handle_missing_values_report (self : DataCleaner) :
  exists e, cleaning_report (_handle_missing_values self)
            = cleaning_report self ++ [e]
            /\ step_of e = HandleMissingValues.
Proof.
  unfold _handle_missing_values.
  destruct (somes _); eexists; split; reflexivity.
Qed.

Lemma detect_outliers_report (self : DataCleaner) :
  exists e, cleaning_report (_detect_outliers self)
            = cleaning_report self ++ [e]
            /\ step_of e = DetectOutliers.
Proof.
  unfold _detect_outliers.
  destruct (somes _); eexists; split; reflexivity.
Qed.

Lemma detect_outliers_df (self : DataCleaner) :
  df (_detect_outliers self) = df self.
Proof. unfold _detect_outliers. destruct (somes _); reflexivity. Qed.

Lemma remove_empty_df (self : DataCleaner) :
  df (_remove_empty self) = dropna_columns (dropna_rows (df self)).
Proof. unfold _remove_empty. destruct (_ || _); reflexivity. Qed.

(** [_remove_empty] writes an entry only when the table lost a row or
    a column. *)
Lemma remove_empty_report (self : DataCleaner) :
  let empty_rows :=
    index_len (df self) - index_len (df (_remove_empty self)) in
  let empty_cols :=
    length (columns (df self)) - length (columns (df (_remove_empty self))) in
  cleaning_report (_remove_empty self)
  = cleaning_report self
    ++ (if Nat.ltb 0 empty_rows || Nat.ltb 0 empty_cols
        then [RemovedEmpty empty_rows empty_cols] else []).
Proof.
  intros empty_rows empty_cols. unfold empty_rows, empty_cols.
  rewrite remove_empty_df. unfold _remove_empty. simpl.
  rewrite !length_map.
  destruct (_ || _); simpl; [reflexivity|].
  symmetry. apply app_nil_r.
Qed.

(** C6 (as the code has it).  The report of a run of [clean] is: one
    entry for duplicate removal, one for type fixing, one for
    missing-value handling, then an entry for the removal of empty
    rows and columns only if that step removed a row or a column, then
    one entry for outlier detection.  Column-name standardization
    writes no entry. *)
Theorem cleaning_report_shape (d : DataFrame) :
  let before_empty :=
    _handle_missing_values
      (_fix_data_types parse_number
         (_remove_duplicates (_standardize_columns (init d)))) in
  let out := fst (clean parse_number d) in
  let empty_rows := index_len (df before_empty) - index_len out in
  let empty_cols :=
    length (columns (df before_empty)) - length (columns out) in
  exists e1 e2 e3 e5,
    step_of e1 = RemoveDuplicates /\ step_of e2 = FixDataTypes
    /\ step_of e3 = HandleMissingValues /\ step_of e5 = DetectOutliers
    /\ snd (clean parse_number d)
       = [e1; e2; e3]
         ++ (if Nat.ltb 0 empty_rows || Nat.ltb 0 empty_cols
             then [RemovedEmpty empty_rows empty_cols] else [])
         ++ [e5].
Proof.
  intros before_empty out empty_rows empty_cols.
  subst empty_rows empty_cols out before_empty.
  unfold clean, run. cbn [fst snd].
  set (s0 := _standardize_columns (init d)).
  set (s1 := _remove_duplicates s0).
  set (s2 := _fix_data_types parse_number s1).
  set (s3 := _handle_missing_values s2).
  destruct (remove_duplicates_report s0) as [e1 [H1 S1]]. fold s1 in H1.
  destruct (fix_data_types_report s1) as [e2 [H2 S2]]. fold s2 in H2.
  destruct (handle_missing_values_report s2) as [e3 [H3 S3]]. fold s3 in H3.
  destruct (detect_outliers_report (_remove_empty s3)) as [e5 [H5 S5]].
  exists e1, e2, e3, e5. repeat split; try assumption.
  rewrite detect_outliers_df, H5, (remove_empty_report s3), H3, H2, H1.
  unfold s0. rewrite standardize_report. simpl cleaning_report.
  rewrite <- !app_assoc. reflexivity.
Qed.

End CleaningReport.

Section CleaningReportExamples.
Import Frame Cleaner.

(** C6 as stated fails: on a table with nothing to remove, neither the
    standardization of column names nor the removal of empty rows and
    columns leaves an entry in the report. *)
Lemma two_steps_leave_no_entry :
  let d := mkDataFrame 2 [mkColumn (LStr "x") int64 [Num 1; Num 2]] in
  let r := snd (clean parse_integer d) in
  r = [NoDuplicates; TypesAppropriate; NoMissing; NoOutliers]
  /\ existsb (fun e => step_eqb (step_of e) StandardizeColumns) r = false
  /\ existsb (fun e => step_eqb (step_of e) RemoveEmpty) r = false.
Proof. repeat split. Qed.

End CleaningReportExamples.

(** ** What the steps preserve *)

Section CleanerInvariants.
Import Frame Cleaner.
Variable parse_number : string -> option Q.

Lemma well_formedb_iff (d : DataFrame) :
  well_formedb d = true <-> well_formed d.
Proof.
  unfold well_formedb, well_formed.
  rewrite List.forallb_forall, List.Forall_forall.
  split; intros H c Hc; specialize (H c Hc).
  - apply Nat.eqb_eq. exact H.
  - apply Nat.eqb_eq. exact H.
Qed.

Lemma column_eta (c : column) :
  mkColumn (name c) (dtype_of c) (cells c) = c.
Proof. destruct c. reflexivity. Qed.

Lemma frame_eta (d : DataFrame) :
  mkDataFrame (index_len d) (columns d) = d.
Proof. destruct d. reflexivity. Qed.

Lemma set_df_same (self : DataCleaner) : set_df (df self) self = self.
Proof. destruct self. reflexivity. Qed.

Lemma select_length {A B : Type} (mask : list bool) (l : list A)
      (l' : list B) :
  length l = length l' ->
  length (select mask l) = length (select mask l').
Proof.
  revert l l'. induction mask as [|b mask IH]; intros l l' H; [reflexivity|].
  destruct l as [|x l], l' as [|y l']; simpl in *; try discriminate;
    [reflexivity|].
  destruct b; simpl; [f_equal|]; apply IH; lia.
Qed.

Lemma select_rows_well_formed (mask : list bool) (d : DataFrame) :
  well_formed d -> well_formed (select_rows mask d).
Proof.
  unfold well_formed, select_rows. simpl. intros H.
  apply List.Forall_map. eapply List.Forall_impl; [|exact H].
  intros c Hc. simpl. apply select_length.
  rewrite length_seq. exact Hc.
Qed.

Lemma fix_column_length (n : nat) (c : column) :
  length (cells (fst (fix_column parse_number n c))) = length (cells c).
Proof.
  unfold fix_column.
  destruct (dtype_eqb _ _); [|reflexivity].
  destruct (converts_enough _ _); [|reflexivity].
  simpl. apply length_map.
Qed.

Lemma fix_column_name (n : nat) (c : column) :
  name (fst (fix_column parse_number n c)) = name c.
Proof.
  unfold fix_column.
  destruct (dtype_eqb _ _); [|reflexivity].
  destruct (converts_enough _ _); reflexivity.
Qed.

Lemma handle_column_length (n : nat) (c : column) :
  length (cells (fst (handle_column n c))) = length (cells c).
Proof.
  unfold handle_column.
  destruct (Nat.ltb 0 _); [|reflexivity].
  destruct (Qltb _ _); [reflexivity|].
  destruct (is_int64_or_float64 _); [apply length_map|].
  destruct (mode _); apply length_map.
Qed.

Lemma handle_column_name (n : nat) (c : column) :
  name (fst (handle_column n c)) = name c.
Proof.
  unfold handle_column.
  destruct (Nat.ltb 0 _); [|reflexivity].
  destruct (Qltb _ _); [reflexivity|].
  destruct (is_int64_or_float64 _); [reflexivity|].
  destruct (mode _); reflexivity.
Qed.

(** The frame each step leaves. *)
Lemma standardize_df (self : DataCleaner) :
  df (_standardize_columns self)
  = mkDataFrame (index_len (df self))
                (map (fun c => mkColumn (LStr (label_str (name c)))
                                        (dtype_of c) (cells c))
                     (columns (df self))).
Proof. reflexivity. Qed.

Lemma remove_duplicates_df (self : DataCleaner) :
  df (_remove_duplicates self) = drop_duplicates (df self).
Proof. unfold _remove_duplicates. destruct (Nat.ltb 0 _); reflexivity. Qed.

Lemma fix_data_types_df (self : DataCleaner) :
  df (_fix_data_types parse_number self)
  = mkDataFrame (index_len (df self))
                (map (fun c => fst (fix_column parse_number
                                               (index_len (df self)) c))
                     (columns (df self))).
Proof.
  unfold _fix_data_types.
  destruct (somes _); simpl; rewrite map_map; reflexivity.
Qed.

Lemma handle_missing_values_df (self : DataCleaner) :
  df (_handle_missing_values self)
  = mkDataFrame (index_len (df self))
                (map (fun c => fst (handle_column (index_len (df self)) c))
                     (columns (df self))).
Proof.
  unfold _handle_missing_values.
  destruct (somes _); simpl; rewrite map_map; reflexivity.
Qed.

(** Well-formedness: every column keeps one cell per row. *)
Lemma drop_duplicates_well_formed (d : DataFrame) :
  well_formed d -> well_formed (drop_duplicates d).
Proof.
  intros H. unfold drop_duplicates. destruct (empty d); [exact H|].
  apply select_rows_well_formed. exact H.
Qed.

Lemma run_well_formed (self : DataCleaner) :
  well_formed (df self) -> well_formed (df (run parse_number self)).
Proof.
  intros H. unfold run.
  rewrite detect_outliers_df, remove_empty_df.
  assert (H0 : well_formed (df (_standardize_columns self))).
  { rewrite standardize_df. unfold well_formed in *. simpl.
    apply List.Forall_map. exact H. }
  assert (H1 : well_formed (df (_remove_duplicates
                                  (_standardize_columns self)))).
  { rewrite remove_duplicates_df. apply drop_duplicates_well_formed.
    exact H0. }
  set (s1 := _remove_duplicates (_standardize_columns self)) in *.
  assert (H2 : well_formed (df (_fix_data_types parse_number s1))).
  { rewrite fix_data_types_df. unfold well_formed in *. simpl.
    apply List.Forall_map. eapply List.Forall_impl; [|exact H1].
    intros c Hc. simpl. rewrite fix_column_length. exact Hc. }
  set (s2 := _fix_data_types parse_number s1) in *.
  assert (H3 : well_formed (df (_handle_missing_values s2))).
  { rewrite handle_missing_values_df. unfold well_formed in *. simpl.
    apply List.Forall_map. eapply List.Forall_impl; [|exact H2].
    intros c Hc. simpl. rewrite handle_column_length. exact Hc. }
  set (s3 := _handle_missing_values s2) in *.
  pose proof (select_rows_well_formed
                (map (existsb notna) (rows (df s3))) (df s3) H3) as H4.
  unfold dropna_columns, well_formed in *. cbn [columns index_len] in *.
  apply List.Forall_forall. intros c Hc. apply List.filter_In in Hc.
  destruct Hc as [Hc _].
  rewrite List.Forall_forall in H4. apply H4. exact Hc.
Qed.

(** Labels: after the first step every label is a text, and no later
    step renames a column. *)
Lemma select_rows_labels (mask : list bool) (d : DataFrame) :
  labels_are_text d -> labels_are_text (select_rows mask d).
Proof.
  unfold labels_are_text, select_rows. simpl. intros H.
  apply List.Forall_map. exact H.
Qed.

Lemma run_labels_are_text (self : DataCleaner) :
  labels_are_text (df (run parse_number self)).
Proof.
  unfold run. rewrite detect_outliers_df, remove_empty_df.
  assert (H0 : labels_are_text (df (_standardize_columns self))).
  { rewrite standardize_df. unfold labels_are_text. simpl.
    apply List.Forall_map. apply List.Forall_forall. intros c _. reflexivity. }
  assert (H1 : labels_are_text (df (_remove_duplicates
                                      (_standardize_columns self)))).
  { rewrite remove_duplicates_df. unfold drop_duplicates.
    destruct (empty _); [exact H0|]. apply select_rows_labels. exact H0. }
  set (s1 := _remove_duplicates (_standardize_columns self)) in *.
  assert (H2 : labels_are_text (df (_fix_data_types parse_number s1))).
  { rewrite fix_data_types_df. unfold labels_are_text in *. simpl.
    apply List.Forall_map. eapply List.Forall_impl; [|exact H1].
    intros c Hc. simpl. rewrite fix_column_name. exact Hc. }
  set (s2 := _fix_data_types parse_number s1) in *.
  assert (H3 : labels_are_text (df (_handle_missing_values s2))).
  { rewrite handle_missing_values_df. unfold labels_are_text in *. simpl.
    apply List.Forall_map. eapply List.Forall_impl; [|exact H2].
    intros c Hc. simpl. rewrite handle_column_name. exact Hc. }
  set (s3 := _handle_missing_values s2) in *.
  pose proof (select_rows_labels
                (map (existsb notna) (rows (df s3))) (df s3) H3) as H4.
  unfold dropna_columns, labels_are_text in *. cbn [columns index_len] in *.
  apply List.Forall_forall. intros c Hc. apply List.filter_In in Hc.
  destruct Hc as [Hc _].
  rewrite List.Forall_forall in H4. apply H4. exact Hc.
Qed.

End CleanerInvariants.

(** ** Cleaning a cleaned table *)

Section CleanerSettled.
Import Frame Cleaner.
Variable parse_number : string -> option Q.

Lemma select_all {A : Type} (mask : list bool) (l : list A) :
  forallb (fun b => b) mask = true -> length l <= length mask ->
  select mask l = l.
Proof.
  revert l. induction mask as [|b mask IH]; intros l Hm Hl.
  - destruct l; [reflexivity|simpl in Hl; lia].
  - destruct l as [|x l]; [reflexivity|].
    simpl in Hm. apply Bool.andb_true_iff in Hm. destruct Hm as [Hb Hm].
    subst b. simpl. f_equal. apply IH; [exact Hm|simpl in Hl; lia].
Qed.

Lemma filter_all {A : Type} (f : A -> bool) (l : list A) :
  (forall x, In x l -> f x = true) -> List.filter f l = l.
Proof.
  induction l as [|x l IH]; intros H; [reflexivity|].
  simpl. rewrite (H x (or_introl eq_refl)). f_equal.
  apply IH. intros y Hy. apply H. right. exact Hy.
Qed.

Lemma map_id_in {A : Type} (f : A -> A) (l : list A) :
  (forall x, In x l -> f x = x) -> map f l = l.
Proof.
  intros H. rewrite <- (map_id l) at 2. apply map_ext_in. exact H.
Qed.

Lemma forallb_map_comp {A B : Type} (f : A -> B) (p : B -> bool)
      (l : list A) :
  forallb p (map f l) = forallb (fun x => p (f x)) l.
Proof.
  induction l as [|x l IH]; [reflexivity|]. simpl. rewrite IH. reflexivity.
Qed.

Lemma duplicated_from_length (seen rs : list (list cell)) :
  length (duplicated_from seen rs) = length rs.
Proof.
  revert seen. induction rs as [|r rs IH]; intros seen; [reflexivity|].
  simpl. f_equal. apply IH.
Qed.

Lemma rows_length (d : DataFrame) : length (rows d) = index_len d.
Proof. unfold rows. rewrite length_map. apply length_seq. Qed.

(** Selecting with a mask that keeps every row changes nothing. *)
Lemma select_rows_all (mask : list bool) (d : DataFrame) :
  well_formed d -> forallb (fun b => b) mask = true ->
  length mask = index_len d -> select_rows mask d = d.
Proof.
  intros Hwf Hm Hlen. unfold select_rows.
  rewrite select_all by (rewrite ?length_seq; lia || assumption).
  rewrite length_seq.
  rewrite <- (frame_eta d) at 3. f_equal.
  apply map_id_in. intros c Hc.
  unfold well_formed in Hwf. rewrite List.Forall_forall in Hwf.
  rewrite select_all by (rewrite ?(Hwf c Hc); lia || assumption).
  apply column_eta.
Qed.

Lemma drop_duplicates_settled (d : DataFrame) :
  well_formed d -> no_duplicates d = true -> drop_duplicates d = d.
Proof.
  intros Hwf Hnd. unfold drop_duplicates.
  destruct (empty d); [reflexivity|].
  apply select_rows_all; [exact Hwf| |].
  - unfold no_duplicates in Hnd. rewrite forallb_map_comp. exact Hnd.
  - rewrite length_map. unfold duplicated.
    rewrite duplicated_from_length. apply rows_length.
Qed.

Lemma forallb_notna_isna_sum (cs : list cell) :
  forallb notna cs = true -> isna_sum cs = 0.
Proof.
  unfold isna_sum, notna. induction cs as [|c cs IH]; [reflexivity|].
  simpl. intros H. apply Bool.andb_true_iff in H. destruct H as [Hc H].
  destruct (isna c); [discriminate|]. apply IH. exact H.
Qed.

Lemma somes_all_none {A B : Type} (l : list A) :
  somes (map (fun _ => @None B) l) = [].
Proof. induction l; simpl; auto. Qed.

(** Each step on a settled table. *)
Lemma standardize_settled (self : DataCleaner) :
  labels_are_text (df self) -> _standardize_columns self = self.
Proof.
  intros H. unfold _standardize_columns, set_df.
  destruct self as [[n cols] o r]. unfold labels_are_text in H.
  simpl in *. f_equal. f_equal.
  apply map_id_in. intros c Hc.
  rewrite List.Forall_forall in H.
  rewrite <- (H c Hc). apply column_eta.
Qed.

Lemma remove_duplicates_settled (self : DataCleaner) :
  well_formed (df self) -> no_duplicates (df self) = true ->
  _remove_duplicates self = report_append NoDuplicates self.
Proof.
  intros Hwf Hnd. unfold _remove_duplicates.
  rewrite (drop_duplicates_settled _ Hwf Hnd), set_df_same.
  rewrite Nat.sub_diag. reflexivity.
Qed.

Lemma fix_data_types_settled (self : DataCleaner) :
  no_convertible_text parse_number (df self) = true ->
  _fix_data_types parse_number self = report_append TypesAppropriate self.
Proof.
  intros H. unfold _fix_data_types.
  assert (E : map (fix_column parse_number (index_len (df self)))
                  (columns (df self))
              = map (fun c => (c, None)) (columns (df self))).
  { apply map_ext_in. intros c Hc.
    unfold no_convertible_text in H.
    rewrite List.forallb_forall in H. specialize (H c Hc).
    unfold fix_column. destruct (dtype_eqb (dtype_of c) object_);
      [|reflexivity].
    simpl in H. apply Bool.negb_true_iff in H. rewrite H. reflexivity. }
  rewrite E, !map_map. cbn [fst snd].
  rewrite (somes_all_none (columns (df self))), map_id, frame_eta, set_df_same.
  reflexivity.
Qed.

Lemma handle_missing_values_settled (self : DataCleaner) :
  no_missing (df self) = true ->
  _handle_missing_values self = report_append NoMissing self.
Proof.
  intros H. unfold _handle_missing_values.
  assert (E : map (handle_column (index_len (df self))) (columns (df self))
              = map (fun c => (c, None)) (columns (df self))).
  { apply map_ext_in. intros c Hc.
    unfold no_missing in H.
    rewrite List.forallb_forall in H. specialize (H c Hc).
    unfold handle_column. rewrite (forallb_notna_isna_sum _ H).
    reflexivity. }
  rewrite E, !map_map. cbn [fst snd].
  rewrite (somes_all_none (columns (df self))), map_id, frame_eta, set_df_same.
  reflexivity.
Qed.

Lemma dropna_rows_settled (d : DataFrame) :
  well_formed d -> empty d = false -> no_missing d = true ->
  dropna_rows d = d.
Proof.
  intros Hwf Hne Hnm. unfold dropna_rows.
  apply select_rows_all; [exact Hwf| |rewrite length_map; apply rows_length].
  rewrite forallb_map_comp. unfold rows. rewrite forallb_map_comp.
  apply List.forallb_forall. intros i Hi. apply in_seq in Hi.
  unfold empty in Hne. apply Bool.orb_false_iff in Hne.
  destruct Hne as [_ Hcols]. apply Nat.eqb_neq in Hcols.
  destruct (columns d) as [|c cs] eqn:E; [simpl in Hcols; lia|].
  unfold row_at. rewrite E. simpl. apply Bool.orb_true_iff. left.
  unfold well_formed in Hwf. rewrite E in Hwf.
  apply Forall_inv in Hwf.
  unfold no_missing in Hnm. rewrite E in Hnm. simpl in Hnm.
  apply Bool.andb_true_iff in Hnm. destruct Hnm as [Hc _].
  rewrite List.forallb_forall in Hc. apply Hc.
  apply nth_In. lia.
Qed.

Lemma dropna_columns_settled (d : DataFrame) :
  well_formed d -> empty d = false -> no_missing d = true ->
  dropna_columns d = d.
Proof.
  intros Hwf Hne Hnm. unfold dropna_columns.
  rewrite <- (frame_eta d) at 3. f_equal.
  apply filter_all. intros c Hc.
  unfold empty in Hne. apply Bool.orb_false_iff in Hne.
  destruct Hne as [Hrows _]. apply Nat.eqb_neq in Hrows.
  unfold well_formed in Hwf. rewrite List.Forall_forall in Hwf.
  specialize (Hwf c Hc).
  unfold no_missing in Hnm. rewrite List.forallb_forall in Hnm.
  specialize (Hnm c Hc).
  destruct (cells c) as [|x xs]; [simpl in Hwf; lia|].
  simpl in *. apply Bool.andb_true_iff in Hnm. destruct Hnm as [Hx _].
  rewrite Hx. reflexivity.
Qed.

Lemma remove_empty_settled (self : DataCleaner) :
  well_formed (df self) -> empty (df self) = false ->
  no_missing (df self) = true -> _remove_empty self = self.
Proof.
  intros Hwf Hne Hnm. unfold _remove_empty.
  rewrite (dropna_rows_settled _ Hwf Hne Hnm), set_df_same.
  rewrite (dropna_columns_settled _ Hwf Hne Hnm), set_df_same.
  rewrite !Nat.sub_diag. reflexivity.
Qed.

(** A run on a settled table with text labels leaves the table as it
    is and reports that nothing was done. *)
Lemma clean_settled (d : DataFrame) :
  well_formed d -> labels_are_text d -> settled parse_number d = true ->
  fst (clean parse_number d) = d
  /\ exists e, snd (clean parse_number d)
               = [NoDuplicates; TypesAppropriate; NoMissing; e]
               /\ step_of e = DetectOutliers.
Proof.
  intros Hwf Hlab Hs. unfold settled in Hs.
  repeat (apply Bool.andb_true_iff in Hs; destruct Hs as [Hs ?]).
  apply Bool.negb_true_iff in Hs.
  unfold clean, run. cbn [fst snd].
  rewrite (standardize_settled (init d)) by exact Hlab.
  rewrite (remove_duplicates_settled (init d)) by assumption.
  rewrite (fix_data_types_settled (report_append _ (init d)))
    by assumption.
  rewrite (handle_missing_values_settled _) by assumption.
  rewrite (remove_empty_settled _) by assumption.
  rewrite detect_outliers_df.
  split; [reflexivity|].
  match goal with
  | |- context [_detect_outliers ?s] =>
      destruct (detect_outliers_report s) as [e [He Se]]
  end.
  exists e. split; [|exact Se]. rewrite He. reflexivity.
Qed.

(** C9 (as the code has it).  When the output of a run of the cleaner
    has a row and a column, no row twice, no missing cell and no text
    column of which more than 70% reads as numbers, a second run
    returns it unchanged and reports no duplicate, no type change and
    no imputation. *)
Theorem clean_twice_unchanged (d : DataFrame) :
  well_formedb d = true ->
  let out := fst (clean parse_number d) in
  settled parse_number out = true ->
  fst (clean parse_number out) = out
  /\ exists e, snd (clean parse_number out)
               = [NoDuplicates; TypesAppropriate; NoMissing; e]
               /\ step_of e = DetectOutliers.
Proof.
  intros Hwf out Hs. apply clean_settled; [| |exact Hs].
  - apply run_well_formed. apply well_formedb_iff. exact Hwf.
  - apply run_labels_are_text.
Qed.

End CleanerSettled.

Section CleanerSettledExamples.
Import Frame Cleaner Examples.

(** What the first run makes of the messy table. *)
Example messy_table_cleaned :
  clean parse_integer messy_table
  = (mkDataFrame 3 [mkColumn (LStr "0") int64 [Num 1; Num 2; Num 4];
                    mkColumn (LStr "1") float64 [Num 5; Num 6; Num 7]],
     [RemovedDuplicates 1; FixedDataTypes [LStr "0"];
      HandledMissing [FilledMedian (LStr "1") 1 (Some (6 # 1))]; NoOutliers]).
Proof. vm_compute. reflexivity. Qed.

(** A second run on it changes nothing. *)
Lemma clean_twice_unchanged_witness :
  fst (clean parse_integer (fst (clean parse_integer messy_table)))
  = fst (clean parse_integer messy_table).
Proof.
  apply (clean_twice_unchanged parse_integer messy_table);
    vm_compute; reflexivity.
Defined.

(** C9 as stated fails: the first run fills a gap, which makes two
    rows equal; the second run removes one of them. *)
Lemma second_run_removes_a_row :
  let out := fst (clean parse_integer table_with_gap) in
  fst (clean parse_integer out) <> out
  /\ snd (clean parse_integer table_with_gap)
     = [NoDuplicates; TypesAppropriate;
        HandledMissing [FilledMedian (LStr "b") 1 (Some (2 # 1))]; NoOutliers]
  /\ snd (clean parse_integer out)
     = [RemovedDuplicates 1; TypesAppropriate; NoMissing; NoOutliers].
Proof.
  split; [|split; vm_compute; reflexivity].
  intros H. apply (f_equal index_len) in H. vm_compute in H.
  discriminate.
Qed.

(** A second run can also change a type: the first run fills the gap
    of a text column with "1", after which three texts out of four
    read as numbers. *)
Example second_run_changes_a_type :
  let out := fst (clean parse_integer table_with_text_gap) in
  map dtype_of (columns out) = [object_; int64]
  /\ map dtype_of (columns (fst (clean parse_integer out)))
     = [float64; int64].
Proof. split; vm_compute; reflexivity. Qed.

(** A second run can also impute again: the first run keeps two
    columns that are two-thirds missing and drops the row that is
    missing everywhere, which leaves them half missing. *)
Example second_run_imputes_again :
  let out := fst (clean parse_integer table_with_empty_row) in
  map cells (columns out) = [[NA; Num 1]; [Num 5; NA]]
  /\ map cells (columns (fst (clean parse_integer out)))
     = [[Num 1; Num 1]; [Num 5; Num 5]].
Proof. split; vm_compute; reflexivity. Qed.

End CleanerSettledExamples.

(** ** The profiler's classification *)

Section Classification.
Import Frame Profiler Examples.

Lemma few_unique_eq (u n : nat) :
  few_unique u n = Nat.ltb u 10 && Nat.ltb (20 * u) n.
Proof.
  pose proof (few_unique_iff u n) as H.
  destruct (few_unique u n).
  - symmetry. apply Bool.andb_true_iff.
    rewrite !Nat.ltb_lt. apply H. reflexivity.
  - symmetry. apply Bool.not_true_is_false. intros E.
    apply Bool.andb_true_iff in E. rewrite !Nat.ltb_lt in E.
    apply H in E. discriminate.
Qed.

(** The tests that send a column to each of the three lists. *)
Let to_categorical (n : nat) (c : column) : bool :=
  if is_int64_or_float64 (dtype_of c)
  then Nat.ltb (nunique (cells c)) 10 && Nat.ltb (20 * nunique (cells c)) n
  else negb (dtype_eqb (dtype_of c) datetime64_ns).

Let to_numeric (n : nat) (c : column) : bool :=
  is_int64_or_float64 (dtype_of c)
  && negb (Nat.ltb (nunique (cells c)) 10
           && Nat.ltb (20 * nunique (cells c)) n).

Let to_datetime (c : column) : bool :=
  negb (is_int64_or_float64 (dtype_of c))
  && dtype_eqb (dtype_of c) datetime64_ns.

Lemma classify_fold (n : nat) (cols : list column) (acc : column_types) :
  fold_left (classify_step n) cols acc
  = mkColumnTypes
      (numeric acc ++ map name (List.filter (to_numeric n) cols))
      (categorical acc ++ map name (List.filter (to_categorical n) cols))
      (datetime acc ++ map name (List.filter to_datetime cols)).
Proof.
  revert acc. induction cols as [|c cols IH]; intros acc.
  - simpl. rewrite !app_nil_r. destruct acc. reflexivity.
  - simpl fold_left. rewrite IH. clear IH.
    unfold classify_step, to_numeric, to_categorical, to_datetime.
    cbn [List.filter]. rewrite few_unique_eq.
    set (few := Nat.ltb (nunique (cells c)) 10
                && Nat.ltb (20 * nunique (cells c)) n).
    destruct (is_int64_or_float64 (dtype_of c)); [destruct few|];
      try destruct (dtype_eqb (dtype_of c) datetime64_ns);
      cbn [negb andb map numeric categorical datetime];
      rewrite <- ?app_assoc; reflexivity.
Qed.

(** C8 (as the code has it).  [_classify_columns] lists a column of
    dtype int64 or float64 as categorical exactly when its number of
    distinct values [u] is below 10 and below 5% of the number of rows
    [n] ([20 u < n]), and as numeric otherwise; datetime columns go to
    the datetime list and every other column is categorical, the
    columns of the other numeric dtypes (int32, float32, ...) included,
    whatever their values.  An int64 column with 8 distinct values is
    categorical over 1000 rows and numeric over 50 rows. *)
Theorem numeric_column_classification :
  (forall d : DataFrame,
      let n := index_len d in
      let u c := nunique (cells c) in
      numeric (_classify_columns d)
      = map name
          (List.filter
             (fun c => is_int64_or_float64 (dtype_of c)
                       && negb (Nat.ltb (u c) 10 && Nat.ltb (20 * u c) n))
             (columns d))
      /\ categorical (_classify_columns d)
         = map name
             (List.filter
                (fun c => if is_int64_or_float64 (dtype_of c)
                          then Nat.ltb (u c) 10 && Nat.ltb (20 * u c) n
                          else negb (dtype_eqb (dtype_of c) datetime64_ns))
                (columns d))
      /\ datetime (_classify_columns d)
         = map name
             (List.filter
                (fun c => negb (is_int64_or_float64 (dtype_of c))
                          && dtype_eqb (dtype_of c) datetime64_ns)
                (columns d)))
  /\ nunique (cells (codes 1000)) = 8
  /\ _classify_columns (mkDataFrame 1000 [codes 1000])
     = mkColumnTypes [] [LStr "code"] []
  /\ nunique (cells (codes 50)) = 8
  /\ _classify_columns (mkDataFrame 50 [codes 50])
     = mkColumnTypes [LStr "code"] [] [].
Proof.
  split.
  - intros d n u. unfold _classify_columns.
    rewrite classify_fold. cbn [numeric categorical datetime app].
    repeat split.
  - repeat split; vm_compute; reflexivity.
Qed.

End Classification.

Section ClassificationExamples.
Import Frame Profiler Examples.

(** C8 as stated fails: a float32 column is numeric-typed, and with 50
    different values over 50 rows it has neither fewer than 10 values
    nor fewer than 5% of the rows; it is classified categorical all the
    same, as is every column whose dtype is not int64 or float64. *)
Lemma float32_column_is_categorical :
  is_np_number (dtype_of (readings 50)) = true
  /\ nunique (cells (readings 50)) = 50
  /\ _classify_columns (mkDataFrame 50 [readings 50])
     = mkColumnTypes [] [LStr "reading"] [].
Proof. repeat split; vm_compute; reflexivity. Qed.

End ClassificationExamples.

(** ** The chart engine *)

Section ChartEngine.
Import Frame Text Effects Analyzer ChartAudit.
Local Open Scope effect_scope.

Variable TEMP_FOLDER : string.
Variable repr_str : string -> string.
Variable raises : nat -> plt_call -> option string.
Variable exec_exits : nat -> string -> bool.
Variable _make_request : nat -> prompt -> option string.

Local Opaque replace path_join String.append strip.

Lemma same_object_refl (w : world) : same_object w w.
Proof. repeat split. Qed.

Lemma same_object_trans (w1 w2 w3 : world) :
  same_object w1 w2 -> same_object w2 w3 -> same_object w1 w3.
Proof.
  unfold same_object. intros (A & B & C & D) (A' & B' & C' & D').
  repeat split; congruence.
Qed.

Lemma record_event_same (ev : event) (w : world) :
  same_object w (record_event ev w) /\ charts (record_event ev w) = charts w.
Proof. repeat split. Qed.

Lemma charts_dir_record (ev : event) (w : world) :
  charts_dir (record_event ev w) = charts_dir w.
Proof. reflexivity. Qed.

(** C10 (as the code has it).  The [try] of [_execute_plot_code] makes
    six calls, one after the other, and appends the chart after the
    last.  When all six return, exactly one chart entry has been
    appended and the method returns [True].  When one of them raises an
    [Exception], no call of the body follows, the list of charts is as
    it was before the call, the failure is printed and the handler
    calls [plt.close()]: the method returns [False] when that call
    returns, and raises what it raises otherwise.  When the executed
    text leaves the interpreter, the [SystemExit] is not caught: the
    method returns nothing, the handler does not run, and the list of
    charts is as it was. *)
Theorem execute_plot_code_atomic (code title filename_base : string)
        (w : world) :
  let chart := custom_chart (charts_dir w) code title filename_base in
  let run :=
    _execute_plot_code raises exec_exits code title filename_base w in
  match run_calls raises exec_exits
                  (body_calls (charts_dir w) code title filename_base) w with
  | (None, w1) =>
      run = (Returned true, charts_append chart w1)
      /\ charts (snd run) = charts w ++ [chart]
  | (Some (Exception e), w1) =>
      let w2 :=
        record_event PrintedTraceback
          (record_event (Printed ("Error executing plot code: " +:+ e))
                        w1) in
      run = (match raises (length (events w2)) plt_close with
             | None => Returned false
             | Some e' => Raised (Exception e')
             end,
             record_event (Called plt_close) w2)
      /\ charts (snd run) = charts w
  | (Some SystemExit, w1) =>
      run = (Raised SystemExit, w1) /\ charts (snd run) = charts w
  end.
Proof.
  intros chart run. subst chart run.
  cbv [_execute_plot_code plot_and_save try_except bind call exec_ gets
       modify ret print body_calls run_calls call_outcome option_map].
  repeat (rewrite ?charts_dir_record;
          repeat match goal with
                 | H : exec_exits ?t ?c = _ |- context [exec_exits ?t ?c] =>
                     rewrite H; cbv beta iota
                 | H : raises ?t ?c = _ |- context [raises ?t ?c] =>
                     rewrite H; cbv beta iota
                 end;
          match goal with
          | |- context [exec_exits ?t ?c] =>
              destruct (exec_exits t c) eqn:?; cbv beta iota
          | |- context [raises ?t ?c] =>
              destruct (raises t c) eqn:?; cbv beta iota
          end);
    rewrite ?charts_dir_record;
    repeat match goal with
           | H : exec_exits ?t ?c = _ |- context [exec_exits ?t ?c] =>
               rewrite H; cbv beta iota
           | H : raises ?t ?c = _ |- context [raises ?t ?c] =>
               rewrite H; cbv beta iota
           end;
    (split; [reflexivity|]); reflexivity.
Qed.

(** *** When no plotting call raises *)

Section RendersSucceed.

Hypothesis renders_succeed : forall t c, raises t c = None.
Hypothesis nothing_exits : forall t code, exec_exits t code = false.

Lemma call_ok (c : plt_call) (w : world) :
  call raises c w = (Returned tt, record_event (Called c) w).
Proof using renders_succeed.
  unfold call. rewrite renders_succeed. reflexivity.
Qed.

Lemma exec_ok (code : string) (w : world) :
  exec_ raises exec_exits code w
  = (Returned tt, record_event (Called (exec_code code)) w).
Proof using renders_succeed nothing_exits.
  unfold exec_. rewrite nothing_exits, renders_succeed. reflexivity.
Qed.

Lemma plot_and_save_ok (code title filename_base : string) (w : world) :
  exists w1,
    plot_and_save raises exec_exits code title filename_base w = (Returned true, w1)
    /\ same_object w w1
    /\ charts w1
       = charts w ++ [custom_chart (charts_dir w) code title filename_base].
Proof using renders_succeed nothing_exits.
  unfold plot_and_save, bind, gets, modify, ret.
  rewrite call_ok, exec_ok, !call_ok. eexists. split; [reflexivity|].
  repeat split.
Qed.

Lemma execute_plot_code_ok (code title filename_base : string)
      (w : world) :
  exists w1,
    _execute_plot_code raises exec_exits code title filename_base w
    = (Returned true, w1)
    /\ same_object w w1
    /\ charts w1
       = charts w ++ [custom_chart (charts_dir w) code title filename_base].
Proof using renders_succeed nothing_exits.
  destruct (plot_and_save_ok code title filename_base w)
    as (w1 & E & Hs & Hc).
  exists w1. unfold _execute_plot_code, try_except. rewrite E.
  repeat split; try apply Hs. exact Hc.
Qed.

Lemma save_plot_ok (title filename_base : string) (code : chart_code)
      (w : world) :
  exists w1,
    _save_plot raises title filename_base code w = (Returned tt, w1)
    /\ same_object w w1
    /\ charts w1
       = charts w ++ [basic_chart (charts_dir w) title filename_base code].
Proof using renders_succeed.
  unfold _save_plot, bind, gets, modify, ret.
  rewrite !call_ok. eexists. split; [reflexivity|].
  repeat split.
Qed.

Lemma create_histogram_ok (column : label) (w : world) :
  exists w1,
    _create_histogram raises column w = (Returned tt, w1)
    /\ same_object w w1
    /\ charts w1
       = charts w
         ++ [basic_chart (charts_dir w)
                         ("Distribution of " +:+ label_str column)
                         ("hist_" +:+ label_str column)
                         (HistogramRecipe column)].
Proof using renders_succeed.
  unfold _create_histogram, try_except, bind. rewrite !call_ok.
  match goal with
  | |- context [_save_plot raises ?t ?f ?c ?w0] =>
      destruct (save_plot_ok t f c w0) as (w1 & E & Hs & Hc)
  end.
  exists w1. rewrite E. repeat split; try apply Hs. exact Hc.
Qed.

Lemma create_bar_chart_ok (column : label) (w : world) :
  exists w1,
    _create_bar_chart raises column w = (Returned tt, w1)
    /\ same_object w w1
    /\ charts w1
       = charts w
         ++ [basic_chart (charts_dir w)
                         ("Top categories in " +:+ label_str column)
                         ("bar_" +:+ label_str column)
                         (BarChartRecipe column)].
Proof using renders_succeed.
  unfold _create_bar_chart, try_except, bind. rewrite !call_ok.
  match goal with
  | |- context [_save_plot raises ?t ?f ?c ?w0] =>
      destruct (save_plot_ok t f c w0) as (w1 & E & Hs & Hc)
  end.
  exists w1. rewrite E. repeat split; try apply Hs. exact Hc.
Qed.

Lemma create_boxplot_ok (numeric_cols : list label) (w : world) :
  exists w1,
    _create_boxplot raises numeric_cols w = (Returned tt, w1)
    /\ same_object w w1
    /\ charts w1
       = charts w
         ++ [basic_chart (charts_dir w) "Box Plot Distribution"
                         "boxplot_comparison"
                         (BoxplotRecipe (firstn 5 numeric_cols))].
Proof using renders_succeed.
  unfold _create_boxplot, try_except, bind. rewrite !call_ok.
  match goal with
  | |- context [_save_plot raises ?t ?f ?c ?w0] =>
      destruct (save_plot_ok t f c w0) as (w1 & E & Hs & Hc)
  end.
  exists w1. rewrite E. repeat split; try apply Hs. exact Hc.
Qed.

End RendersSucceed.

(** *** The generator *)

(** A request changes nothing but the record of events, and never
    raises. *)
Lemma generate_chart_code_world (context columns : string)
      (chart_type : option string) (w : world) :
  exists r w1,
    generate_chart_code _make_request context columns chart_type w
    = (Returned r, w1)
    /\ same_object w w1 /\ charts w1 = charts w.
Proof.
  unfold generate_chart_code, bind, gets, request, ret.
  destruct (negb (llm_available w)).
  - exists None, w. repeat split.
  - destruct (_make_request _ _) as [r|].
    + destruct (truthy r); eexists; eexists; repeat split.
    + eexists; eexists; repeat split.
Qed.

(** *** The two generated slots *)

Lemma slot_heatmap_generated (numeric_cols : list label) (count : nat) :
  slot_heatmap repr_str raises exec_exits _make_request numeric_cols count
  = generated_slot repr_str raises exec_exits _make_request "Correlation Heatmap" "correlation_heatmap"
                   ("Numeric columns: " +:+ repr_list repr_str numeric_cols)
                   "Correlation Heatmap" numeric_cols count.
Proof. reflexivity. Qed.

Lemma slot_relationship_generated (numeric_cols : list label)
      (count : nat) :
  slot_relationship repr_str raises exec_exits _make_request numeric_cols count
  = generated_slot repr_str raises exec_exits _make_request "Key Relationship Analysis" "ai_relationship_plot"
                   ("Find an interesting relationship between these columns: "
                    +:+ repr_list repr_str numeric_cols +:+ ".")
                   "Scatter Plot or Line Chart" numeric_cols count.
Proof. reflexivity. Qed.

(** With an instruction for every request and renders that succeed, a
    generated slot appends its chart and counts it. *)
Lemma generated_slot_filled (title filename_base context type : string)
      (numeric_cols : list label) (count : nat) (w : world) :
  (forall t c, raises t c = None) ->
  (forall t code, exec_exits t code = false) ->
  (forall ctx cols ty w0,
      llm_available w0 = true ->
      exists code,
        fst (generate_chart_code _make_request ctx cols ty w0)
        = Returned (Some code) /\ truthy code = true) ->
  llm_available w = true ->
  2 <= length numeric_cols -> count < 5 ->
  exists w1 code,
    generated_slot repr_str raises exec_exits _make_request title filename_base context type
                   numeric_cols count w
    = (Returned (count + 1), w1)
    /\ same_object w w1
    /\ charts w1
       = charts w ++ [custom_chart (charts_dir w) code title filename_base].
Proof.
  intros Hok Hex Hgen Hav Hn Hc. unfold generated_slot.
  replace (Nat.ltb 1 (length numeric_cols)) with true
    by (symmetry; apply Nat.ltb_lt; lia).
  replace (Nat.ltb count 5) with true by (symmetry; apply Nat.ltb_lt; lia).
  cbn [andb]. unfold try_except, bind.
  destruct (generate_chart_code_world context (repr_list repr_str numeric_cols)
                                      (Some type) w)
    as (r & w0 & E & Hs0 & Hc0).
  destruct (Hgen context (repr_list repr_str numeric_cols) (Some type) w Hav)
    as (code & Ecode & Htruthy).
  rewrite E in Ecode. simpl in Ecode. inversion Ecode; subst r.
  rewrite E, Htruthy.
  destruct (execute_plot_code_ok Hok Hex code title filename_base w0)
    as (w1 & E1 & Hs1 & Hc1).
  rewrite E1. unfold ret. exists w1, code. split; [reflexivity|].
  split; [exact (same_object_trans _ _ _ Hs0 Hs1)|].
  rewrite Hc1, Hc0. destruct Hs0 as (_ & _ & Hd & _). rewrite Hd.
  reflexivity.
Qed.

(** Without an instruction a generated slot appends nothing and does
    not count. *)
Lemma generated_slot_skipped (title filename_base context type : string)
      (numeric_cols : list label) (count : nat) (w : world) :
  (forall ctx cols ty w0,
      fst (generate_chart_code _make_request ctx cols ty w0)
      = Returned None) ->
  exists w1,
    generated_slot repr_str raises exec_exits _make_request title filename_base context type
                   numeric_cols count w
    = (Returned count, w1)
    /\ same_object w w1 /\ charts w1 = charts w.
Proof.
  intros Hnone. unfold generated_slot.
  destruct (Nat.ltb 1 (length numeric_cols) && Nat.ltb count 5).
  - unfold try_except, bind.
    destruct (generate_chart_code_world context (repr_list repr_str numeric_cols)
                                        (Some type) w)
      as (r & w0 & E & Hs0 & Hc0).
    pose proof (Hnone context (repr_list repr_str numeric_cols) (Some type) w)
      as Enone.
    rewrite E in Enone. simpl in Enone. inversion Enone; subst r.
    rewrite E. unfold ret. exists w0. repeat split; try apply Hs0.
    exact Hc0.
  - exists w. unfold ret. repeat split.
Qed.

(** *** The three built-in slots *)

Lemma slot_histogram_filled (col : label) (rest : list label)
      (count : nat) (w : world) :
  (forall t c, raises t c = None) -> count < 5 ->
  exists w1,
    slot_histogram raises (col :: rest) count w = (Returned (count + 1), w1)
    /\ same_object w w1
    /\ charts w1
       = charts w
         ++ [basic_chart (charts_dir w)
                         ("Distribution of " +:+ label_str col)
                         ("hist_" +:+ label_str col)
                         (HistogramRecipe col)].
Proof.
  intros Hok Hc. unfold slot_histogram.
  replace (Nat.ltb count 5) with true by (symmetry; apply Nat.ltb_lt; lia).
  unfold bind.
  destruct (create_histogram_ok Hok col w) as (w1 & E & Hs & Hch).
  rewrite E. exists w1. unfold ret. repeat split; try apply Hs. exact Hch.
Qed.

Lemma slot_bar_filled (col : label) (rest : list label)
      (count : nat) (w : world) :
  (forall t c, raises t c = None) -> count < 5 ->
  exists w1,
    slot_bar raises (col :: rest) count w = (Returned (count + 1), w1)
    /\ same_object w w1
    /\ charts w1
       = charts w
         ++ [basic_chart (charts_dir w)
                         ("Top categories in " +:+ label_str col)
                         ("bar_" +:+ label_str col)
                         (BarChartRecipe col)].
Proof.
  intros Hok Hc. unfold slot_bar.
  replace (Nat.ltb count 5) with true by (symmetry; apply Nat.ltb_lt; lia).
  unfold bind.
  destruct (create_bar_chart_ok Hok col w) as (w1 & E & Hs & Hch).
  rewrite E. exists w1. unfold ret. repeat split; try apply Hs. exact Hch.
Qed.

Lemma slot_boxplot_filled (numeric_cols : list label) (count : nat)
      (w : world) :
  (forall t c, raises t c = None) ->
  1 <= length numeric_cols -> count < 5 ->
  exists w1,
    slot_boxplot raises numeric_cols count w = (Returned (count + 1), w1)
    /\ same_object w w1
    /\ charts w1
       = charts w
         ++ [basic_chart (charts_dir w) "Box Plot Distribution"
                         "boxplot_comparison"
                         (BoxplotRecipe (firstn 5 (firstn 5 numeric_cols)))].
Proof.
  intros Hok Hn Hc. unfold slot_boxplot.
  replace (Nat.ltb 0 (length numeric_cols)) with true
    by (symmetry; apply Nat.ltb_lt; lia).
  replace (Nat.ltb count 5) with true by (symmetry; apply Nat.ltb_lt; lia).
  cbn [andb]. unfold bind.
  destruct (create_boxplot_ok Hok (firstn 5 numeric_cols) w)
    as (w1 & E & Hs & Hch).
  rewrite E. exists w1. unfold ret. repeat split; try apply Hs. exact Hch.
Qed.

(** *** A generated text that raises *)


End ChartEngine.

(** ** The automatic run *)

Section AutomaticRun.
Import Frame Text Effects Analyzer.
Local Open Scope effect_scope.

Variable TEMP_FOLDER : string.
Variable repr_str : string -> string.
Variable raises : nat -> plt_call -> option string.
Variable exec_exits : nat -> string -> bool.
Variable _make_request : nat -> prompt -> option string.

Local Opaque replace path_join String.append strip.

(** C1 (as the code has it).  On a table with at least 2 numeric
    columns and at least 1 text column (dtype object: the categorical
    columns of the chart engine), with every plotting call and every
    executed text returning:
    when the generator returns an instruction for every request,
    [analyze] returns exactly 5 charts (heatmap, histogram, bar chart,
    box plot, relationship plot); when the generator returns no result
    for any request, it returns exactly the 3 built-in charts
    (histogram, bar chart, box plot). *)
Theorem chart_cap (d : DataFrame) (sid : string) :
  2 <= length (numeric_cols_of d) ->
  1 <= length (categorical_cols_of d) ->
  (forall t c, raises t c = None) ->
  (forall t code, exec_exits t code = false) ->
  let run := analyze repr_str raises exec_exits _make_request (init TEMP_FOLDER d sid) in
  ((forall ctx cols ty w,
       llm_available w = true ->
       exists code,
         fst (generate_chart_code _make_request ctx cols ty w)
         = Returned (Some code) /\ truthy code = true) ->
   exists cs,
     fst run = Returned cs /\ length cs = 5
     /\ map type_ cs = [custom; basic; basic; basic; custom]
     /\ map filename cs
        = ["correlation_heatmap.png";
           safe_name ("hist_" +:+ label_str (hd (LStr "") (numeric_cols_of d)))
           +:+ ".png";
           safe_name ("bar_" +:+ label_str (hd (LStr "") (categorical_cols_of d)))
           +:+ ".png";
           safe_name "boxplot_comparison" +:+ ".png";
           "ai_relationship_plot.png"])
  /\ ((forall ctx cols ty w,
          fst (generate_chart_code _make_request ctx cols ty w)
          = Returned None) ->
      exists cs,
        fst run = Returned cs /\ length cs = 3
        /\ map type_ cs = [basic; basic; basic]
        /\ map filename cs
           = [safe_name ("hist_" +:+ label_str (hd (LStr "") (numeric_cols_of d)))
              +:+ ".png";
              safe_name ("bar_" +:+ label_str (hd (LStr "") (categorical_cols_of d)))
              +:+ ".png";
              safe_name "boxplot_comparison" +:+ ".png"]).
Proof.
  intros Hnum Hcat Hok Hex run. subst run.
  unfold analyze, analyze_count.
  destruct (numeric_cols_of d) as [|n1 nrest] eqn:En; [simpl in Hnum; lia|].
  destruct (categorical_cols_of d) as [|c1 crest] eqn:Ec;
    [simpl in Hcat; lia|].
  set (w0 := init TEMP_FOLDER d sid).
  assert (Hav0 : llm_available w0 = true) by reflexivity.
  assert (Hch0 : charts w0 = []) by reflexivity.
  split.
  - intros Hgen.
    unfold bind at 1 2. unfold gets at 1. cbn [df w0 init].
    rewrite En, Ec.
    destruct (generated_slot_filled repr_str raises exec_exits _make_request
                "Correlation Heatmap" "correlation_heatmap"
                ("Numeric columns: " +:+ repr_list repr_str (n1 :: nrest))
                "Correlation Heatmap" (n1 :: nrest) 0 w0 Hok Hex Hgen Hav0
                Hnum ltac:(lia))
      as (w1 & code1 & E1 & Hs1 & Hc1).
    destruct (slot_histogram_filled raises n1 nrest (0 + 1) w1 Hok
                ltac:(lia)) as (w2 & E2 & Hs2 & Hc2).
    destruct (slot_bar_filled raises c1 crest (0 + 1 + 1) w2 Hok
                ltac:(lia)) as (w3 & E3 & Hs3 & Hc3).
    destruct (slot_boxplot_filled raises (n1 :: nrest) (0 + 1 + 1 + 1) w3
                Hok ltac:(simpl; lia) ltac:(lia))
      as (w4 & E4 & Hs4 & Hc4).
    assert (Hav4 : llm_available w4 = true).
    { destruct Hs1 as (_ & _ & _ & A1), Hs2 as (_ & _ & _ & A2),
        Hs3 as (_ & _ & _ & A3), Hs4 as (_ & _ & _ & A4). congruence. }
    destruct (generated_slot_filled repr_str raises exec_exits _make_request
                "Key Relationship Analysis" "ai_relationship_plot"
                ("Find an interesting relationship between these columns: "
                 +:+ repr_list repr_str (n1 :: nrest) +:+ ".")
                "Scatter Plot or Line Chart" (n1 :: nrest)
                (0 + 1 + 1 + 1 + 1) w4 Hok Hex Hgen Hav4 Hnum ltac:(lia))
      as (w5 & code5 & E5 & Hs5 & Hc5).
    rewrite <- slot_heatmap_generated in E1.
    rewrite <- slot_relationship_generated in E5.
    unfold bind. rewrite E1. cbv beta iota. rewrite E2. cbv beta iota.
    rewrite E3. cbv beta iota. rewrite E4. cbv beta iota. rewrite E5.
    unfold gets. cbn [fst].
    eexists. split; [reflexivity|].
    rewrite Hc5, Hc4, Hc3, Hc2, Hc1, Hch0.
    repeat split.
  - intros Hnone.
    unfold bind at 1 2. unfold gets at 1. cbn [df w0 init].
    rewrite En, Ec.
    destruct (generated_slot_skipped repr_str raises exec_exits _make_request
                "Correlation Heatmap" "correlation_heatmap"
                ("Numeric columns: " +:+ repr_list repr_str (n1 :: nrest))
                "Correlation Heatmap" (n1 :: nrest) 0 w0 Hnone)
      as (w1 & E1 & Hs1 & Hc1).
    destruct (slot_histogram_filled raises n1 nrest 0 w1 Hok
                ltac:(lia)) as (w2 & E2 & Hs2 & Hc2).
    destruct (slot_bar_filled raises c1 crest (0 + 1) w2 Hok
                ltac:(lia)) as (w3 & E3 & Hs3 & Hc3).
    destruct (slot_boxplot_filled raises (n1 :: nrest) (0 + 1 + 1) w3
                Hok ltac:(simpl; lia) ltac:(lia))
      as (w4 & E4 & Hs4 & Hc4).
    destruct (generated_slot_skipped repr_str raises exec_exits _make_request
                "Key Relationship Analysis" "ai_relationship_plot"
                ("Find an interesting relationship between these columns: "
                 +:+ repr_list repr_str (n1 :: nrest) +:+ ".")
                "Scatter Plot or Line Chart" (n1 :: nrest)
                (0 + 1 + 1 + 1) w4 Hnone)
      as (w5 & E5 & Hs5 & Hc5).
    rewrite <- slot_heatmap_generated in E1.
    rewrite <- slot_relationship_generated in E5.
    unfold bind. rewrite E1. cbv beta iota. rewrite E2. cbv beta iota.
    rewrite E3. cbv beta iota. rewrite E4. cbv beta iota. rewrite E5.
    unfold gets. cbn [fst].
    eexists. split; [reflexivity|].
    rewrite Hc5, Hc4, Hc3, Hc2, Hc1, Hch0.
    repeat split.
Qed.

End AutomaticRun.

Section ChartEngineExamples.
Import Frame Text Effects Analyzer ChartAudit Examples.

(** C1 on the sales table: 5 charts with a generator that
    always answers, 3 with one that never does. *)
Lemma chart_cap_witness :
  (exists cs,
      fst (analyze quoted nothing_raises never_exits always_answers
                   (init "/srv/temp" sales_table "s1")) = Returned cs
      /\ length cs = 5)
  /\ (exists cs,
         fst (analyze quoted nothing_raises never_exits never_answers
                      (init "/srv/temp" sales_table "s1")) = Returned cs
         /\ length cs = 3).
Proof.
  split.
  - destruct (chart_cap "/srv/temp" quoted nothing_raises never_exits
                        always_answers sales_table "s1")
      as [H5 _];
      [vm_compute; lia|vm_compute; lia|reflexivity|reflexivity|].
    destruct H5 as (cs & Hcs & Hlen & _).
    + intros ctx cols ty w Hw.
      unfold generate_chart_code, bind, gets, request, ret.
      rewrite Hw. eexists. split; reflexivity.
    + exists cs. split; assumption.
  - destruct (chart_cap "/srv/temp" quoted nothing_raises never_exits
                        never_answers sales_table "s1")
      as [_ H3];
      [vm_compute; lia|vm_compute; lia|reflexivity|reflexivity|].
    destruct H3 as (cs & Hcs & Hlen & _).
    + intros ctx cols ty w.
      unfold generate_chart_code, bind, gets, request, ret.
      destruct (negb (llm_available w)); reflexivity.
    + exists cs. split; assumption.
Defined.

(** The five charts of the sales table, by file name. *)
Example sales_table_charts :
  match fst (analyze quoted nothing_raises never_exits always_answers
                     (init "/srv/temp" sales_table "s1")) with
  | Returned cs =>
      map filepath cs
      = ["/srv/temp/s1/correlation_heatmap.png";
         "/srv/temp/s1/hist_price.png";
         "/srv/temp/s1/bar_city.png";
         "/srv/temp/s1/boxplot_comparison.png";
         "/srv/temp/s1/ai_relationship_plot.png"]
  | Raised _ => False
  end.
Proof. vm_compute. reflexivity. Qed.

(** C1 as stated fails: the table of flags has two numeric columns
    and, for the profiler, one categorical column (the booleans); but
    the chart engine draws its bar chart for a text column only, so
    with every render succeeding it returns 4 charts when the generator
    always answers and 2 when it never does. *)
Lemma flag_column_is_not_charted :
  let run answers :=
    fst (analyze quoted nothing_raises never_exits answers
                 (init "/srv/temp" flags_table "s1")) in
  Profiler._classify_columns flags_table
  = Profiler.mkColumnTypes [LStr "price"; LStr "units"] [LStr "sold"] []
  /\ numeric_cols_of flags_table = [LStr "price"; LStr "units"]
  /\ categorical_cols_of flags_table = []
  /\ (exists cs,
         run always_answers = Returned cs
         /\ map title cs
            = ["Correlation Heatmap"; "Distribution of price";
               "Box Plot Distribution"; "Key Relationship Analysis"])
  /\ (exists cs,
         run never_answers = Returned cs
         /\ map title cs
            = ["Distribution of price"; "Box Plot Distribution"]).
Proof.
  repeat split; try (vm_compute; reflexivity);
    eexists; split; vm_compute; reflexivity.
Qed.

(** The three ways [_execute_plot_code] can end, on a fresh analyzer:
    a text that draws, a text that uses a name it does not define, and
    a text that leaves the interpreter. *)
Example execute_plot_code_outcomes :
  let w := init "/srv/temp" sales_table "s1" in
  let run code :=
    _execute_plot_code exec_raises exit_exits code "Correlation Heatmap"
                       "correlation_heatmap" w in
  (fst (run "plt.scatter(df['price'], df['units'])") = Returned true
   /\ map filename
          (charts (snd (run "plt.scatter(df['price'], df['units'])")))
      = ["correlation_heatmap.png"])
  /\ (fst (run "plt.scatter(data['price'], data['units'])")
      = Returned false
      /\ charts (snd (run "plt.scatter(data['price'], data['units'])"))
         = [])
  /\ fst (run "exit()") = Raised SystemExit.
Proof. repeat split; vm_compute; reflexivity. Qed.

(** C10 as stated fails: when the executed text leaves the interpreter,
    what it raises is not an [Exception]; the handler does not run
    (nothing is printed, the figure is not closed) and the method does
    not return [False]. *)
Lemma exit_is_not_caught :
  let run :=
    _execute_plot_code nothing_raises exit_exits "exit()"
                       "Correlation Heatmap" "correlation_heatmap"
                       (init "/srv/temp" sales_table "s1") in
  fst run = Raised SystemExit
  /\ fst run <> Returned false
  /\ events (snd run) = [Called plt_figure; Called (exec_code "exit()")]
  /\ charts (snd run) = [].
Proof.
  repeat split; try (vm_compute; reflexivity).
  vm_compute. discriminate.
Qed.



End ChartEngineExamples.
(** ** The files of the automatic run *)

Section ChartFiles.
Import Frame Text Effects Analyzer ChartAudit.

Lemma role_names_spelled (d : DataFrame) :
  exists hist bar,
    role_names d
    = ["correlation_heatmap.png"; "hist_" +:+ hist; "bar_" +:+ bar;
       "boxplot_comparison.png"; "ai_relationship_plot.png"].
Proof.
  exists (safe_name (label_str (hd (LStr "") (numeric_cols_of d)))
          +:+ ".png"),
    (safe_name (label_str (hd (LStr "") (categorical_cols_of d)))
     +:+ ".png").
  reflexivity.
Qed.

Lemma role_names_distinct (d : DataFrame) : NoDup (role_names d).
Proof.
  destruct (role_names_spelled d) as (hist & bar & ->).
  repeat (apply NoDup_cons_2;
          [rewrite ?not_elem_of_cons; repeat split;
           try discriminate; apply not_elem_of_nil|]).
  apply NoDup_nil_2.
Qed.

Lemma role_names_relative (d : DataFrame) (n : string) :
  In n (role_names d) -> String.prefix "/" n = false.
Proof.
  destruct (role_names_spelled d) as (hist & bar & ->).
  intros [<-|[<-|[<-|[<-|[<-|[]]]]]]; reflexivity.
Qed.

(** [os.path.join] with a fixed folder tells relative names apart. *)
Lemma path_join_relative_inj (dir a b : string) :
  String.prefix "/" a = false -> String.prefix "/" b = false ->
  path_join dir a = path_join dir b -> a = b.
Proof.
  unfold path_join. intros -> ->.
  destruct (_ || _); intros H.
  - exact (String.app_inj dir _ _ H).
  - apply (String.app_inj dir) in H. exact (String.app_inj "/" _ _ H).
Qed.

Lemma NoDup_map_on {A B : Type} (f : A -> B) (l : list A) :
  (forall x y, In x l -> In y l -> f x = f y -> x = y) ->
  NoDup l -> NoDup (map f l).
Proof.
  intros Hinj Hl.
  change (NoDup (f <$> l)). apply NoDup_fmap_2_strong; [|exact Hl].
  intros x y Hx Hy. apply Hinj; apply list_elem_of_In; assumption.
Qed.

Lemma sublist_In {A : Type} (l k : list A) (x : A) :
  sublist l k -> In x l -> In x k.
Proof.
  intros Hs Hx. apply list_elem_of_In.
  eapply elem_of_sublist; [|exact Hs]. apply list_elem_of_In. exact Hx.
Qed.

(** Either nothing or the one chart of a block. *)
Lemma slot_names (new : list chart) (c : chart) :
  new = [] \/ new = [c] -> sublist (map filename new) [filename c].
Proof.
  intros [->| ->]; [apply sublist_nil_l|reflexivity].
Qed.

Lemma slot_figs (figs : list string) (p : string) :
  figs = [] \/ figs = [p] -> sublist figs [p].
Proof.
  intros [->| ->]; [apply sublist_nil_l|reflexivity].
Qed.

Lemma slot_paths (new : list chart) (c : chart) (dir : string) :
  filepath c = path_join dir (filename c) ->
  new = [] \/ new = [c] ->
  map filepath new = map (path_join dir) (map filename new).
Proof.
  intros Hc [->| ->]; [reflexivity|]. cbn [map]. rewrite Hc. reflexivity.
Qed.

End ChartFiles.

(** ** The chart engine, whatever the libraries do *)

Section ChartEngineAlways.
Import Frame Text Effects Analyzer ChartAudit.
Local Open Scope effect_scope.

Variable repr_str : string -> string.
Variable raises : nat -> plt_call -> option string.
Variable exec_exits : nat -> string -> bool.
Variable _make_request : nat -> prompt -> option string.

Local Opaque replace path_join String.append strip.

Lemma requests_app (a b : list event) :
  requests (a ++ b) = requests a ++ requests b.
Proof. apply flat_map_app. Qed.

Lemma savefigs_app (a b : list event) :
  savefigs (a ++ b) = savefigs a ++ savefigs b.
Proof. apply flat_map_app. Qed.

Lemma grows_refl (w : world) : grows w w [] [] [].
Proof.
  unfold grows. rewrite !app_nil_r. repeat split.
Qed.

Lemma grows_trans (w1 w2 w3 : world) (n1 n2 : list chart)
      (r1 r2 : list prompt) (f1 f2 : list string) :
  grows w1 w2 n1 r1 f1 -> grows w2 w3 n2 r2 f2 ->
  grows w1 w3 (n1 ++ n2) (r1 ++ r2) (f1 ++ f2).
Proof.
  intros (S1 & C1 & R1 & F1) (S2 & C2 & R2 & F2).
  split; [|split; [|split]].
  - exact (same_object_trans _ _ _ S1 S2).
  - rewrite C2, C1, app_assoc. reflexivity.
  - rewrite R2, R1, app_assoc. reflexivity.
  - rewrite F2, F1, app_assoc. reflexivity.
Qed.

Lemma grows_record (ev : event) (w0 w : world) (n : list chart)
      (r : list prompt) (f : list string) :
  grows w0 w n r f ->
  grows w0 (record_event ev w) n (r ++ requests [ev]) (f ++ savefigs [ev]).
Proof.
  intros (S & C & R & F). split; [exact S|]. split; [exact C|].
  unfold record_event. cbn [events].
  rewrite requests_app, savefigs_app, R, F, !app_assoc.
  split; reflexivity.
Qed.

Lemma grows_chart (c : chart) (w0 w : world) (n : list chart)
      (r : list prompt) (f : list string) :
  grows w0 w n r f -> grows w0 (charts_append c w) (n ++ [c]) r f.
Proof.
  intros (S & C & R & F). split; [exact S|].
  split; [|split; [exact R|exact F]].
  unfold charts_append. cbn [charts]. rewrite C, app_assoc. reflexivity.
Qed.

Lemma grows_eq (w w' : world) (n n' : list chart) (r r' : list prompt)
      (f f' : list string) :
  grows w w' n r f -> n = n' -> r = r' -> f = f' -> grows w w' n' r' f'.
Proof. intros G <- <- <-. exact G. Qed.

Ltac solve_grows :=
  eapply grows_eq;
  [repeat first [apply grows_chart|apply grows_record]; apply grows_refl
  |reflexivity|reflexivity|reflexivity].

(** Case analysis on the calls of a computation, one after the other. *)
Ltac split_calls :=
  repeat match goal with
         | |- context [exec_exits ?t ?c] =>
             destruct (exec_exits t c); cbv beta iota
         | |- context [raises ?t ?c] =>
             destruct (raises t c); cbv beta iota
         end.

(** [_execute_plot_code] appends its chart exactly when it returns
    [True]; it calls [plt.savefig] at most once, on the path of the
    chart. *)
Lemma execute_plot_code_any (code title filename_base : string)
      (w : world) :
  let chart := custom_chart (charts_dir w) code title filename_base in
  exists r w1 figs,
    _execute_plot_code raises exec_exits code title filename_base w
    = (r, w1)
    /\ (figs = [] \/ figs = [filepath chart])
    /\ ((r = Returned true /\ grows w w1 [chart] [] [filepath chart])
        \/ (r <> Returned true /\ grows w w1 [] [] figs)).
Proof.
  intros chart. subst chart.
  cbv [_execute_plot_code plot_and_save try_except bind call exec_ gets
       modify ret print].
  split_calls; eexists; eexists; eexists; (split; [reflexivity|]);
    first [split; [right; reflexivity|];
           left; split; [reflexivity|solve_grows]
          |split; [left; reflexivity|];
           right; split; [discriminate|solve_grows]
          |split; [right; reflexivity|];
           right; split; [discriminate|solve_grows]].
Qed.

Lemma create_histogram_any (column : label) (w : world) :
  let chart :=
    basic_chart (charts_dir w) ("Distribution of " +:+ label_str column)
                ("hist_" +:+ label_str column) (HistogramRecipe column) in
  exists w1 new figs,
    _create_histogram raises column w = (Returned tt, w1)
    /\ (new = [] \/ new = [chart])
    /\ (figs = [] \/ figs = [filepath chart])
    /\ grows w w1 new [] figs.
Proof.
  intros chart. subst chart.
  cbv [_create_histogram _save_plot try_except bind call gets modify
       ret print].
  split_calls; eexists; eexists; eexists; (split; [reflexivity|]);
    first [split; [left; reflexivity|];
           split; [left; reflexivity|solve_grows]
          |split; [left; reflexivity|];
           split; [right; reflexivity|solve_grows]
          |split; [right; reflexivity|];
           split; [right; reflexivity|solve_grows]].
Qed.

Lemma create_bar_chart_any (column : label) (w : world) :
  let chart :=
    basic_chart (charts_dir w) ("Top categories in " +:+ label_str column)
                ("bar_" +:+ label_str column) (BarChartRecipe column) in
  exists w1 new figs,
    _create_bar_chart raises column w = (Returned tt, w1)
    /\ (new = [] \/ new = [chart])
    /\ (figs = [] \/ figs = [filepath chart])
    /\ grows w w1 new [] figs.
Proof.
  intros chart. subst chart.
  cbv [_create_bar_chart _save_plot try_except bind call gets modify
       ret print].
  split_calls; eexists; eexists; eexists; (split; [reflexivity|]);
    first [split; [left; reflexivity|];
           split; [left; reflexivity|solve_grows]
          |split; [left; reflexivity|];
           split; [right; reflexivity|solve_grows]
          |split; [right; reflexivity|];
           split; [right; reflexivity|solve_grows]].
Qed.

Lemma create_boxplot_any (numeric_cols : list label) (w : world) :
  let chart :=
    basic_chart (charts_dir w) "Box Plot Distribution"
                "boxplot_comparison"
                (BoxplotRecipe (firstn 5 numeric_cols)) in
  exists w1 new figs,
    _create_boxplot raises numeric_cols w = (Returned tt, w1)
    /\ (new = [] \/ new = [chart])
    /\ (figs = [] \/ figs = [filepath chart])
    /\ grows w w1 new [] figs.
Proof.
  intros chart. subst chart.
  cbv [_create_boxplot _save_plot try_except bind call gets modify
       ret print].
  split_calls; eexists; eexists; eexists; (split; [reflexivity|]);
    first [split; [left; reflexivity|];
           split; [left; reflexivity|solve_grows]
          |split; [left; reflexivity|];
           split; [right; reflexivity|solve_grows]
          |split; [right; reflexivity|];
           split; [right; reflexivity|solve_grows]].
Qed.

(** The generator never raises and makes one request, when the client
    is available; it gives no code otherwise. *)
Lemma generate_chart_code_any (context columns : string)
      (chart_type : option string) (w : world) :
  exists r w1,
    generate_chart_code _make_request context columns chart_type w
    = (Returned r, w1)
    /\ (llm_available w = false -> r = None)
    /\ grows w w1 []
             (if llm_available w
              then [mkPrompt context columns (prompt_type chart_type)]
              else []) [].
Proof.
  cbv [generate_chart_code bind gets request ret].
  destruct (llm_available w) eqn:Eav; cbn [negb].
  - fold (prompt_type chart_type).
    destruct (_make_request _ _) as [r|]; [destruct (truthy r)|];
      eexists; eexists; (split; [reflexivity|]);
      (split; [discriminate|]); solve_grows.
  - eexists; eexists; (split; [reflexivity|]).
    split; [reflexivity|]. apply grows_refl.
Qed.

(** A generated block returns the count, raised by one at most, or
    passes on the [SystemExit] of the text it executed; an [Exception]
    never leaves it. *)
Lemma generated_slot_any (title filename_base context type : string)
      (numeric_cols : list label) (count : nat) (w : world) :
  let asks :=
    Nat.ltb 1 (length numeric_cols) && Nat.ltb count 5 && llm_available w in
  exists r w1 new figs,
    generated_slot repr_str raises exec_exits _make_request title
                   filename_base context type numeric_cols count w
    = (r, w1)
    /\ ((r = Raised SystemExit /\ asks = true)
        \/ exists count', r = Returned count'
                          /\ count <= count' <= count + 1)
    /\ (new = []
        \/ exists code,
             new = [custom_chart (charts_dir w) code title filename_base])
    /\ (figs = []
        \/ figs = [path_join (charts_dir w) (filename_base +:+ ".png")])
    /\ grows w w1 new
             (if asks
              then [mkPrompt context (repr_list repr_str numeric_cols)
                             (prompt_type (Some type))]
              else [])
             figs.
Proof.
  intros asks. subst asks. unfold generated_slot.
  destruct (Nat.ltb 1 (length numeric_cols) && Nat.ltb count 5);
    cbn [andb].
  - unfold try_except, bind.
    destruct (generate_chart_code_any
                context (repr_list repr_str numeric_cols) (Some type) w)
      as (r & w0 & E & Hnone & G0).
    rewrite E.
    assert (Hdir : charts_dir w0 = charts_dir w) by apply G0.
    destruct r as [c|]; [destruct (truthy c)|].
    + assert (Hav : llm_available w = true).
      { destruct (llm_available w); [reflexivity|].
        discriminate (Hnone eq_refl). }
      rewrite Hav in *.
      destruct (execute_plot_code_any c title filename_base w0)
        as (r1 & w1 & figs & E1 & Hf & HG); rewrite E1.
      rewrite Hdir in Hf, HG.
      change (filepath (custom_chart (charts_dir w) c title filename_base))
        with (path_join (charts_dir w) (filename_base +:+ ".png"))
        in Hf, HG.
      destruct HG as [[Hr G1]|[Hr G1]];
        pose proof (grows_trans _ _ _ _ _ _ _ _ _ G0 G1) as G;
        cbn [app] in G.
      * subst r1. unfold ret. exists (Returned (count + 1)), w1.
        eexists. eexists. split; [reflexivity|].
        split; [right; exists (count + 1); split; [reflexivity|lia]|].
        split; [right; exists c; reflexivity|].
        split; [right; reflexivity|exact G].
      * destruct r1 as [b|[e|]]; unfold ret.
        -- exists (Returned (count + 1)), w1, (@nil chart), figs.
           split; [reflexivity|].
           split; [right; exists (count + 1); split; [reflexivity|lia]|].
           split; [left; reflexivity|]. split; [exact Hf|exact G].
        -- exists (Returned count), w1, (@nil chart), figs.
           split; [reflexivity|].
           split; [right; exists count; split; [reflexivity|lia]|].
           split; [left; reflexivity|]. split; [exact Hf|exact G].
        -- exists (Raised SystemExit), w1, (@nil chart), figs.
           split; [reflexivity|].
           split; [left; split; reflexivity|].
           split; [left; reflexivity|]. split; [exact Hf|exact G].
    + unfold ret. exists (Returned count), w0, (@nil chart), (@nil string).
      split; [reflexivity|].
      split; [right; exists count; split; [reflexivity|lia]|].
      split; [left; reflexivity|]. split; [left; reflexivity|exact G0].
    + unfold ret. exists (Returned count), w0, (@nil chart), (@nil string).
      split; [reflexivity|].
      split; [right; exists count; split; [reflexivity|lia]|].
      split; [left; reflexivity|]. split; [left; reflexivity|exact G0].
  - unfold ret. exists (Returned count), w, (@nil chart), (@nil string).
    split; [reflexivity|].
    split; [right; exists count; split; [reflexivity|lia]|].
    split; [left; reflexivity|]. split; [left; reflexivity|].
    apply grows_refl.
Qed.

(** The three blocks drawn by the program itself always return. *)
Lemma slot_histogram_any (numeric_cols : list label) (count : nat)
      (w : world) :
  let chart :=
    basic_chart (charts_dir w)
                ("Distribution of "
                 +:+ label_str (hd (LStr "") numeric_cols))
                ("hist_" +:+ label_str (hd (LStr "") numeric_cols))
                (HistogramRecipe (hd (LStr "") numeric_cols)) in
  exists count' w1 new figs,
    slot_histogram raises numeric_cols count w = (Returned count', w1)
    /\ count <= count' <= count + 1
    /\ (new = [] \/ new = [chart])
    /\ (figs = [] \/ figs = [filepath chart])
    /\ grows w w1 new [] figs.
Proof.
  intros chart. subst chart.
  unfold slot_histogram. destruct numeric_cols as [|col rest].
  - unfold ret. exists count, w, (@nil chart), (@nil string).
    split; [reflexivity|]. split; [lia|]. split; [left; reflexivity|].
    split; [left; reflexivity|apply grows_refl].
  - destruct (Nat.ltb count 5).
    + unfold bind.
      destruct (create_histogram_any col w)
        as (w1 & new & figs & E & Hn & Hf & G).
      rewrite E. unfold ret. exists (count + 1), w1, new, figs.
      split; [reflexivity|]. split; [lia|]. split; [exact Hn|].
      split; [exact Hf|exact G].
    + unfold ret. exists count, w, (@nil chart), (@nil string).
      split; [reflexivity|]. split; [lia|]. split; [left; reflexivity|].
      split; [left; reflexivity|apply grows_refl].
Qed.

Lemma slot_bar_any (categorical_cols : list label) (count : nat)
      (w : world) :
  let chart :=
    basic_chart (charts_dir w)
                ("Top categories in "
                 +:+ label_str (hd (LStr "") categorical_cols))
                ("bar_" +:+ label_str (hd (LStr "") categorical_cols))
                (BarChartRecipe (hd (LStr "") categorical_cols)) in
  exists count' w1 new figs,
    slot_bar raises categorical_cols count w = (Returned count', w1)
    /\ count <= count' <= count + 1
    /\ (new = [] \/ new = [chart])
    /\ (figs = [] \/ figs = [filepath chart])
    /\ grows w w1 new [] figs.
Proof.
  intros chart. subst chart.
  unfold slot_bar. destruct categorical_cols as [|col rest].
  - unfold ret. exists count, w, (@nil chart), (@nil string).
    split; [reflexivity|]. split; [lia|]. split; [left; reflexivity|].
    split; [left; reflexivity|apply grows_refl].
  - destruct (Nat.ltb count 5).
    + unfold bind.
      destruct (create_bar_chart_any col w)
        as (w1 & new & figs & E & Hn & Hf & G).
      rewrite E. unfold ret. exists (count + 1), w1, new, figs.
      split; [reflexivity|]. split; [lia|]. split; [exact Hn|].
      split; [exact Hf|exact G].
    + unfold ret. exists count, w, (@nil chart), (@nil string).
      split; [reflexivity|]. split; [lia|]. split; [left; reflexivity|].
      split; [left; reflexivity|apply grows_refl].
Qed.

Lemma slot_boxplot_any (numeric_cols : list label) (count : nat)
      (w : world) :
  let chart :=
    basic_chart (charts_dir w) "Box Plot Distribution"
                "boxplot_comparison"
                (BoxplotRecipe (firstn 5 (firstn 5 numeric_cols))) in
  exists count' w1 new figs,
    slot_boxplot raises numeric_cols count w = (Returned count', w1)
    /\ count <= count' <= count + 1
    /\ (new = [] \/ new = [chart])
    /\ (figs = [] \/ figs = [filepath chart])
    /\ grows w w1 new [] figs.
Proof.
  intros chart. subst chart.
  unfold slot_boxplot.
  destruct (Nat.ltb 0 (length numeric_cols) && Nat.ltb count 5).
  - unfold bind.
    destruct (create_boxplot_any (firstn 5 numeric_cols) w)
      as (w1 & new & figs & E & Hn & Hf & G).
    rewrite E. unfold ret. exists (count + 1), w1, new, figs.
    split; [reflexivity|]. split; [lia|]. split; [exact Hn|].
    split; [exact Hf|exact G].
  - unfold ret. exists count, w, (@nil chart), (@nil string).
    split; [reflexivity|]. split; [lia|]. split; [left; reflexivity|].
    split; [left; reflexivity|apply grows_refl].
Qed.

(** The shape of a run of [analyze]: it returns its list of charts,
    or passes on the [SystemExit] of a generated text.  It has appended
    at most one chart per block, each under the block's own file name,
    saved pictures under those names only, and asked the language
    model for the heatmap and then for the relationship plot. *)
Lemma analyze_shape (w : world) :
  let nc := numeric_cols_of (df w) in
  let dir := charts_dir w in
  let asks := Nat.ltb 1 (length nc) && llm_available w in
  exists r w' new reqs figs,
    analyze repr_str raises exec_exits _make_request w = (r, w')
    /\ grows w w' new reqs figs
    /\ sublist (map filename new) (role_names (df w))
    /\ map filepath new = map (path_join dir) (map filename new)
    /\ sublist figs (map (path_join dir) (role_names (df w)))
    /\ match r with
       | Returned cs =>
           cs = charts w'
           /\ reqs = (if asks
                      then [heatmap_prompt repr_str nc;
                            relationship_prompt repr_str nc]
                      else [])
       | Raised SystemExit =>
           asks = true
           /\ (reqs = [heatmap_prompt repr_str nc]
               \/ reqs = [heatmap_prompt repr_str nc;
                          relationship_prompt repr_str nc])
       | Raised (Exception _) => False
       end.
Proof.
  intros nc dir asks.
  set (cc := categorical_cols_of (df w)).
  set (c1 := custom_chart dir "" "Correlation Heatmap"
                          "correlation_heatmap").
  set (c2 := basic_chart dir
               ("Distribution of " +:+ label_str (hd (LStr "") nc))
               ("hist_" +:+ label_str (hd (LStr "") nc))
               (HistogramRecipe (hd (LStr "") nc))).
  set (c3 := basic_chart dir
               ("Top categories in " +:+ label_str (hd (LStr "") cc))
               ("bar_" +:+ label_str (hd (LStr "") cc))
               (BarChartRecipe (hd (LStr "") cc))).
  set (c4 := basic_chart dir "Box Plot Distribution" "boxplot_comparison"
               (BoxplotRecipe (firstn 5 (firstn 5 nc)))).
  set (c5 := custom_chart dir "" "Key Relationship Analysis"
                          "ai_relationship_plot").
  assert (Hroles : role_names (df w)
                   = [filename c1] ++ [filename c2] ++ [filename c3]
                     ++ [filename c4] ++ [filename c5]) by reflexivity.
  assert (Hpaths : map (path_join dir) (role_names (df w))
                   = [filepath c1] ++ [filepath c2] ++ [filepath c3]
                     ++ [filepath c4] ++ [filepath c5]) by reflexivity.
  destruct (generated_slot_any
              "Correlation Heatmap" "correlation_heatmap"
              ("Numeric columns: " +:+ repr_list repr_str nc)
              "Correlation Heatmap" nc 0 w)
    as (r1 & w1 & n1 & f1 & E1 & Hr1 & Hn1 & Hf1 & G1).
  rewrite <- slot_heatmap_generated in E1.
  fold dir in Hn1, Hf1.
  assert (N1 : sublist (map filename n1) [filename c1])
    by (destruct Hn1 as [->|[code ->]];
        [apply sublist_nil_l|reflexivity]).
  assert (P1 : map filepath n1 = map (path_join dir) (map filename n1))
    by (destruct Hn1 as [->|[code ->]]; reflexivity).
  assert (F1 : sublist f1 [filepath c1]) by (apply slot_figs; exact Hf1).
  change (Nat.ltb 0 5) with true in Hr1, G1.
  rewrite Bool.andb_true_r in Hr1, G1. fold asks in Hr1, G1.
  destruct Hr1 as [[-> Hasks]|(k1 & -> & Hk1)].
  { (* the text of the heatmap leaves the interpreter *)
    exists (Raised SystemExit), w1, n1. eexists. exists f1.
    split; [|split; [exact G1|split; [|split; [exact P1|split]]]].
    - unfold analyze, analyze_count.
      unfold bind at 1 2. unfold gets at 1. fold nc. fold cc.
      unfold bind. rewrite E1. reflexivity.
    - rewrite Hroles. apply (sublist_inserts_r _ _ _ N1).
    - rewrite Hpaths. apply (sublist_inserts_r _ _ _ F1).
    - rewrite Hasks. split; [reflexivity|left; reflexivity]. }
  destruct (slot_histogram_any nc k1 w1)
    as (k2 & w2 & n2 & f2 & E2 & Hk2 & Hn2 & Hf2 & G2).
  destruct (slot_bar_any cc k2 w2)
    as (k3 & w3 & n3 & f3 & E3 & Hk3 & Hn3 & Hf3 & G3).
  destruct (slot_boxplot_any nc k3 w3)
    as (k4 & w4 & n4 & f4 & E4 & Hk4 & Hn4 & Hf4 & G4).
  destruct (generated_slot_any
              "Key Relationship Analysis" "ai_relationship_plot"
              ("Find an interesting relationship between these columns: "
               +:+ repr_list repr_str nc +:+ ".")
              "Scatter Plot or Line Chart" nc k4 w4)
    as (r5 & w5 & n5 & f5 & E5 & Hr5 & Hn5 & Hf5 & G5).
  rewrite <- slot_relationship_generated in E5.
  pose proof (grows_trans _ _ _ _ _ _ _ _ _ G1 G2) as G12.
  pose proof (grows_trans _ _ _ _ _ _ _ _ _ G12 G3) as G13.
  pose proof (grows_trans _ _ _ _ _ _ _ _ _ G13 G4) as G14.
  pose proof (grows_trans _ _ _ _ _ _ _ _ _ G14 G5) as G15.
  assert (D1 : charts_dir w1 = dir) by apply G1.
  assert (D2 : charts_dir w2 = dir) by apply G12.
  assert (D3 : charts_dir w3 = dir) by apply G13.
  assert (D4 : charts_dir w4 = dir) by apply G14.
  assert (A4 : llm_available w4 = llm_available w) by apply G14.
  rewrite D1 in Hn2, Hf2. rewrite D2 in Hn3, Hf3.
  rewrite D3 in Hn4, Hf4. rewrite D4 in Hn5, Hf5.
  fold c2 in Hn2, Hf2. fold c3 in Hn3, Hf3. fold c4 in Hn4, Hf4.
  assert (N5 : sublist (map filename n5) [filename c5])
    by (destruct Hn5 as [->|[code ->]];
        [apply sublist_nil_l|reflexivity]).
  assert (P5 : map filepath n5 = map (path_join dir) (map filename n5))
    by (destruct Hn5 as [->|[code ->]]; reflexivity).
  assert (Hrun : analyze repr_str raises exec_exits _make_request w
                 = (let (r, w') := (r5, w5) in
                    match r with
                    | Returned _ => (Returned (charts w'), w')
                    | Raised e => (Raised e, w')
                    end)).
  { unfold analyze, analyze_count.
    unfold bind at 1 2. unfold gets at 1. fold nc. fold cc.
    unfold bind. rewrite E1. cbv beta iota. rewrite E2. cbv beta iota.
    rewrite E3. cbv beta iota. rewrite E4. cbv beta iota. rewrite E5.
    destruct r5; reflexivity. }
  assert (Hnew : sublist (map filename (n1 ++ n2 ++ n3 ++ n4 ++ n5))
                         (role_names (df w))).
  { rewrite Hroles, !map_app. repeat apply sublist_app.
    - exact N1.
    - apply slot_names. exact Hn2.
    - apply slot_names. exact Hn3.
    - apply slot_names. exact Hn4.
    - exact N5. }
  assert (Hnewp : map filepath (n1 ++ n2 ++ n3 ++ n4 ++ n5)
                  = map (path_join dir)
                        (map filename (n1 ++ n2 ++ n3 ++ n4 ++ n5))).
  { rewrite !map_app, P1, P5.
    rewrite (slot_paths n2 c2 dir eq_refl Hn2),
            (slot_paths n3 c3 dir eq_refl Hn3),
            (slot_paths n4 c4 dir eq_refl Hn4).
    reflexivity. }
  assert (Hfigs : sublist (f1 ++ f2 ++ f3 ++ f4 ++ f5)
                          (map (path_join dir) (role_names (df w)))).
  { rewrite Hpaths. repeat apply sublist_app.
    - exact F1.
    - apply slot_figs. exact Hf2.
    - apply slot_figs. exact Hf3.
    - apply slot_figs. exact Hf4.
    - apply slot_figs. exact Hf5. }
  assert (G : grows w w5 (n1 ++ n2 ++ n3 ++ n4 ++ n5)
                    ((if asks then [heatmap_prompt repr_str nc] else [])
                     ++ (if Nat.ltb 1 (length nc) && Nat.ltb k4 5
                            && llm_available w
                         then [relationship_prompt repr_str nc] else []))
                    (f1 ++ f2 ++ f3 ++ f4 ++ f5)).
  { eapply grows_eq; [exact G15| | |].
    - rewrite <- !app_assoc. reflexivity.
    - rewrite A4, !app_nil_r. reflexivity.
    - rewrite <- !app_assoc. reflexivity. }
  replace (Nat.ltb k4 5) with true in G
    by (symmetry; apply Nat.ltb_lt; lia).
  rewrite Bool.andb_true_r in G. fold asks in G.
  rewrite A4 in Hr5.
  replace (Nat.ltb k4 5) with true in Hr5
    by (symmetry; apply Nat.ltb_lt; lia).
  rewrite Bool.andb_true_r in Hr5. fold asks in Hr5.
  exists (match r5 with
          | Returned _ => Returned (charts w5)
          | Raised e => Raised e
          end), w5, (n1 ++ n2 ++ n3 ++ n4 ++ n5).
  eexists. exists (f1 ++ f2 ++ f3 ++ f4 ++ f5).
  split; [rewrite Hrun; destruct r5; reflexivity|].
  split; [exact G|]. split; [exact Hnew|]. split; [exact Hnewp|].
  split; [exact Hfigs|].
  destruct Hr5 as [[-> Hasks]|(k5 & -> & Hk5)].
  - rewrite Hasks. split; [reflexivity|right; reflexivity].
  - split; [reflexivity|]. destruct asks; reflexivity.
Qed.

(** [create_custom_chart] tells whether it has added a chart; an
    [Exception] never leaves it. *)
Lemma create_custom_chart_shape (x_col : string) (y_col : option string)
      (chart_type : string) (w : world) :
  let cols :=
    x_col +:+ match y_col with
              | Some y => if truthy y then ", " +:+ y else ""
              | None => ""
              end in
  let filename :=
    replace " " "_"
            ("custom_" +:+ x_col +:+ "_" +:+ chart_type +:+ ".png") in
  exists r w',
    create_custom_chart repr_str raises exec_exits _make_request
                        x_col y_col chart_type w
    = (r, w')
    /\ same_object w w'
    /\ match r with
       | Returned (Some (name, code)) =>
           name = filename /\ truthy code = true
           /\ charts w'
              = charts w
                ++ [custom_chart (charts_dir w) code
                                 (chart_type +:+ " of " +:+ cols)
                                 (replace ".png" "" filename)]
       | Returned None => charts w' = charts w
       | Raised SystemExit => charts w' = charts w
       | Raised (Exception _) => False
       end.
Proof.
  intros cols filename.
  unfold create_custom_chart. fold cols. fold filename.
  unfold try_except, bind at 1 2, gets at 1.
  destruct (generate_chart_code_any
              ("Columns available: "
               +:+ repr_list repr_str (map name (columns (df w))))
              cols (Some chart_type) w)
    as (r & w0 & E & _ & G0).
  rewrite E.
  assert (Hdir : charts_dir w0 = charts_dir w) by apply G0.
  destruct r as [c|]; [destruct (truthy c) eqn:Ec|].
  - unfold bind.
    destruct (execute_plot_code_any c (chart_type +:+ " of " +:+ cols)
                                    (replace ".png" "" filename) w0)
      as (r1 & w1 & figs & E1 & _ & [[Hr G1]|[Hr G1]]); rewrite E1.
    + subst r1. unfold ret. eexists; eexists. split; [reflexivity|].
      pose proof (grows_trans _ _ _ _ _ _ _ _ _ G0 G1) as G.
      split; [apply G|]. split; [reflexivity|]. split; [exact Ec|].
      destruct G as (_ & C & _). rewrite C, Hdir. reflexivity.
    + pose proof (grows_trans _ _ _ _ _ _ _ _ _ G0 G1) as G.
      destruct r1 as [[|]|[e|]]; [congruence| | |].
      * unfold ret. eexists; eexists. split; [reflexivity|].
        split; [apply G|]. destruct G as (_ & C & _).
        rewrite C, app_nil_r. reflexivity.
      * unfold print, modify, ret. eexists; eexists.
        split; [reflexivity|]. split.
        -- apply (grows_record (Printed ("Custom chart error: " +:+ e))
                               w w1 _ _ _ G).
        -- destruct G as (_ & C & _).
           change (charts (record_event
                             (Printed ("Custom chart error: " +:+ e)) w1))
             with (charts w1).
           rewrite C, app_nil_r. reflexivity.
      * eexists; eexists. split; [reflexivity|].
        split; [apply G|]. destruct G as (_ & C & _).
        rewrite C, app_nil_r. reflexivity.
  - unfold ret. eexists; eexists. split; [reflexivity|].
    split; [apply G0|]. destruct G0 as (_ & C & _).
    rewrite C, app_nil_r. reflexivity.
  - unfold ret. eexists; eexists. split; [reflexivity|].
    split; [apply G0|]. destruct G0 as (_ & C & _).
    rewrite C, app_nil_r. reflexivity.
Qed.

End ChartEngineAlways.
(** ** The files of a session *)

Section SessionFiles.
Import Frame Text Effects Agent StorageAudit.

Variable TEMP_FOLDER : string.

Lemma append_assoc (a b c : string) : (a +:+ b) +:+ c = a +:+ b +:+ c.
Proof.
  induction a as [|x a IH]; [reflexivity|].
  change (String x ((a +:+ b) +:+ c) = String x (a +:+ b +:+ c)).
  rewrite IH. reflexivity.
Qed.

Lemma last_char_app (p q : string) :
  last_char q <> None -> last_char (p +:+ q) = last_char q.
Proof.
  intros Hq. induction p as [|x p IH]; [reflexivity|].
  simpl. rewrite IH. destruct (last_char q); [reflexivity|congruence].
Qed.

Lemma path_join_suffix (a b : string) :
  exists pre, path_join a b = pre +:+ b.
Proof.
  unfold path_join. destruct (String.prefix "/" b).
  - exists "". reflexivity.
  - destruct (_ || _).
    + exists a. reflexivity.
    + exists (a +:+ "/"). symmetry. apply append_assoc.
Qed.

Lemma last_char_path_join (a b : string) :
  last_char b <> None -> last_char (path_join a b) = last_char b.
Proof.
  intros Hb. destruct (path_join_suffix a b) as (pre & ->).
  apply last_char_app. exact Hb.
Qed.

Lemma last_char_cleaned (sid : string) :
  last_char (cleaned_path TEMP_FOLDER sid) = Some "v"%char.
Proof.
  unfold cleaned_path. rewrite last_char_path_join.
  - rewrite !last_char_app by discriminate. reflexivity.
  - rewrite !last_char_app by discriminate. discriminate.
Qed.

Lemma last_char_result (sid kind : string) :
  last_char (result_path TEMP_FOLDER sid kind) = Some "n"%char.
Proof.
  unfold result_path. rewrite last_char_path_join.
  - rewrite !last_char_app by discriminate. reflexivity.
  - rewrite !last_char_app by discriminate. discriminate.
Qed.

Lemma last_char_picture (sid p : string) (d : DataFrame) :
  In p (picture_paths TEMP_FOLDER sid d) -> last_char p = Some "g"%char.
Proof.
  unfold picture_paths. rewrite in_map_iff. intros (n & <- & Hn).
  assert (Hlast : last_char n = Some "g"%char).
  { unfold ChartAudit.role_names in Hn.
    destruct Hn as [<-|[<-|[<-|[<-|[<-|[]]]]]];
      rewrite last_char_app by discriminate; reflexivity. }
  rewrite last_char_path_join; [exact Hlast|]. rewrite Hlast. discriminate.
Qed.

Lemma cleaned_not_result (sid kind : string) :
  cleaned_path TEMP_FOLDER sid <> result_path TEMP_FOLDER sid kind.
Proof.
  intros H. apply (f_equal last_char) in H.
  rewrite last_char_cleaned, last_char_result in H. discriminate H.
Qed.

Lemma cleaned_not_picture (sid : string) (d : DataFrame) :
  ~ In (cleaned_path TEMP_FOLDER sid) (picture_paths TEMP_FOLDER sid d).
Proof.
  intros H. apply last_char_picture in H.
  rewrite last_char_cleaned in H. discriminate H.
Qed.

Lemma result_not_picture (sid kind : string) (d : DataFrame) :
  ~ In (result_path TEMP_FOLDER sid kind) (picture_paths TEMP_FOLDER sid d).
Proof.
  intros H. apply last_char_picture in H.
  rewrite last_char_result in H. discriminate H.
Qed.

Lemma result_path_inj (sid kind kind' : string) :
  String.prefix "/" (kind +:+ ".json") = false ->
  String.prefix "/" (kind' +:+ ".json") = false ->
  result_path TEMP_FOLDER sid kind = result_path TEMP_FOLDER sid kind' ->
  kind +:+ ".json" = kind' +:+ ".json".
Proof. apply path_join_relative_inj. Qed.

Lemma results_differ (sid kind kind' : string) :
  String.prefix "/" (kind +:+ ".json") = false ->
  String.prefix "/" (kind' +:+ ".json") = false ->
  kind +:+ ".json" <> kind' +:+ ".json" ->
  result_path TEMP_FOLDER sid kind <> result_path TEMP_FOLDER sid kind'.
Proof.
  intros Hk Hk' Hne E. apply Hne.
  exact (result_path_inj sid kind kind' Hk Hk' E).
Qed.

Lemma lookup_write_files_ne (paths : list string) (f : file)
      (fs : gmap string file) (p : string) :
  ~ In p paths -> write_files paths f fs !! p = fs !! p.
Proof.
  revert fs. induction paths as [|q paths IH]; intros fs Hp;
    [reflexivity|].
  cbn [write_files fold_left].
  change (write_files paths f (<[q := f]> fs) !! p = fs !! p).
  rewrite IH by (intros H; apply Hp; right; exact H).
  apply lookup_insert_ne. intros ->. apply Hp. left. reflexivity.
Qed.

Lemma lookup_write_files_in (paths : list string) (f : file)
      (fs : gmap string file) (p : string) :
  In p paths -> write_files paths f fs !! p = Some f.
Proof.
  revert fs. induction paths as [|q paths IH]; intros fs; [intros []|].
  intros Hp.
  change (write_files paths f (<[q := f]> fs) !! p = Some f).
  destruct (List.in_dec String.string_dec p paths) as [Hin|Hout].
  - apply IH. exact Hin.
  - destruct Hp as [->|Hin]; [|contradiction].
    rewrite lookup_write_files_ne by exact Hout.
    apply lookup_insert_eq.
Qed.

End SessionFiles.

(** ** The pictures of the chart stage *)

Section ChartStage.
Import Frame Text Effects Analyzer ChartAudit StorageAudit.

Variable TEMP_FOLDER : string.
Variable repr_str : string -> string.
Variable raises : nat -> plt_call -> option string.
Variable exec_exits : nat -> string -> bool.
Variable _make_request : nat -> prompt -> option string.

Lemma saved_pictures_savefigs (evs : list event) (t : nat) (p : string) :
  In p (Agent.saved_pictures raises t evs) -> In p (savefigs evs).
Proof.
  revert t. induction evs as [|ev evs IH]; intros t; [intros []|].
  cbn [Agent.saved_pictures].
  unfold savefigs. cbn [flat_map]. fold (savefigs evs).
  rewrite in_app_iff.
  destruct ev as [c|q|l|]; try (intros H; right; exact (IH _ H)).
  destruct c; try (intros H; right; exact (IH _ H)).
  destruct (raises t _).
  - intros H; right; exact (IH _ H).
  - intros [<-|H]; [left; left; reflexivity|right; exact (IH _ H)].
Qed.

(** The chart stage of the agent saves pictures under the names of
    the five blocks only, in the folder of the session, and lets no
    [Exception] out. *)
Lemma chart_stage_shape (d : DataFrame) (sid : string) :
  let run :=
    analyze repr_str raises exec_exits _make_request
            (init TEMP_FOLDER d sid) in
  (forall p, In p (Agent.saved_pictures raises 0 (events (snd run))) ->
             In p (picture_paths TEMP_FOLDER sid d))
  /\ (forall e, fst run <> Raised (Exception e)).
Proof.
  intros run. subst run.
  destruct (analyze_shape repr_str raises exec_exits _make_request
                          (init TEMP_FOLDER d sid))
    as (r & w' & new & reqs & figs & E & G & _ & _ & Hfigs & Hr).
  rewrite E. cbn [fst snd]. split.
  - intros p Hp. apply saved_pictures_savefigs in Hp.
    destruct G as (_ & _ & _ & F). rewrite F in Hp. cbn [app] in Hp.
    change (savefigs (events (init TEMP_FOLDER d sid))) with (@nil string)
      in Hp.
    cbn [app] in Hp.
    eapply sublist_In; [exact Hfigs|exact Hp].
  - intros e ->. exact Hr.
Qed.

End ChartStage.

(** ** The orchestrator *)

Section Orchestrator.
Import Frame Text Effects Agent StorageAudit.
Local Open Scope effect_scope.

Variable TEMP_FOLDER : string.
Variable read_csv read_excel : string -> result DataFrame.
Variable parse_number : string -> option Q.
Variable write_error : nat -> string -> option string.
Variable Profile Report : Type.
Variable generate_profile : DataFrame -> result (Profile * string).
Variable repr_str : string -> string.
Variable raises : nat -> Analyzer.plt_call -> option string.
Variable exec_exits : nat -> string -> bool.
Variable _make_request : nat -> Analyzer.prompt -> option string.
Variable narrate :
  string -> Cleaner.summary -> Profile -> string
  -> result (string * string * string).
Variable build_report :
  string -> string -> Profile -> Cleaner.summary -> list Analyzer.chart
  -> string * string * string -> result Report.
Variable dumps_profile : Profile -> result string.
Variable dumps_charts : list Analyzer.chart -> result string.
Variable dumps_report : Report -> result string.

Local Abbreviation run_session :=
  (run TEMP_FOLDER read_csv read_excel parse_number write_error Profile
       Report generate_profile repr_str raises exec_exits _make_request
       narrate build_report dumps_profile dumps_charts dumps_report).

Local Opaque path_join String.append Cleaner.run.

(** C7.  When the file of a session cannot be loaded, or loads as an
    empty table, [run_analysis] returns [False], leaves the session
    with status "error" (it never sets "completed"), and writes no
    file at all, so no report artifact. *)
Theorem unreadable_input_ends_in_error (sid : string) (s : session)
        (w : world) :
  sessions w !! sid = Some s ->
  truthy (filename s) = true -> truthy (filepath s) = true ->
  (load_dataframe read_csv read_excel (filepath s) = None
   \/ exists d, load_dataframe read_csv read_excel (filepath s) = Some d
                /\ empty d = true) ->
  let out := run_session sid w in
  fst out = Returned false
  /\ status <$> sessions (snd out) !! sid = Some "error"
  /\ files (snd out) = files w
  /\ log (snd out)
     = log w
       ++ [StatusSet sid "analyzing";
           Printed ("Loading dataset: " +:+ filepath s);
           Printed ("Agent error in run_analysis: "
                    +:+ "Dataset could not be loaded or is empty");
           StatusSet sid "error"].
Proof.
  intros Hs Hname Hpath Hload out.
  assert (Hraise :
            forall w0 : world,
              match load_dataframe read_csv read_excel (filepath s) with
              | Some d =>
                  if empty d
                  then raise "Dataset could not be loaded or is empty"
                  else stage (Loaded (filepath s)) (Returned d)
              | None => raise "Dataset could not be loaded or is empty"
              end w0
              = (Raised (Exception "Dataset could not be loaded or is empty"),
                 w0)).
  { intros w0. destruct Hload as [E|[d [E Hd]]]; rewrite E;
      [|rewrite Hd]; reflexivity. }
  assert (E : out
              = (Returned false,
                 mkWorld
                   (alter (fun s0 => mkSession (filename s0) (filepath s0)
                                               "error") sid
                      (alter (fun s0 => mkSession (filename s0) (filepath s0)
                                                  "analyzing") sid
                             (sessions w)))
                   (files w)
                   ((((log w ++ [StatusSet sid "analyzing"])
                      ++ [Printed ("Loading dataset: " +:+ filepath s)])
                     ++ [Printed ("Agent error in run_analysis: "
                                  +:+ "Dataset could not be loaded or is empty")])
                    ++ [StatusSet sid "error"]))).
  { subst out. unfold run, init, get_session. rewrite Hs.
    unfold run_analysis.
    cbn [agent_filename agent_filepath agent_session_id].
    rewrite Hname, Hpath. cbn [andb].
    unfold try_except, pipeline.
    unfold bind, update_session_status, print, modify, record_event.
    cbn [sessions files log].
    rewrite Hraise. reflexivity. }
  rewrite E. cbn [fst snd sessions files log].
  repeat split.
  - rewrite !lookup_alter_eq, Hs. reflexivity.
  - rewrite <- !app_assoc. reflexivity.
Qed.

(** The two writes of the storage, whatever becomes of them. *)
Lemma save_dataframe_eq (d : DataFrame) (sid : string) (w : world) :
  save_dataframe TEMP_FOLDER write_error d sid "cleaned" w
  = (Returned (match write_error (length (log w))
                                 (cleaned_path TEMP_FOLDER sid) with
               | None => Some (cleaned_path TEMP_FOLDER sid)
               | Some _ => None
               end),
     mkWorld (sessions w)
             (write_or_keep write_error (length (log w))
                            (cleaned_path TEMP_FOLDER sid) (CsvFile d)
                            (files w))
             (log w
              ++ [saving_dataframe TEMP_FOLDER write_error sid
                                   (length (log w))])).
Proof.
  unfold save_dataframe, write_or_keep, saving_dataframe, cleaned_path.
  destruct (write_error _ _); reflexivity.
Qed.

Lemma save_analysis_result_eq (sid kind data : string) (w : world) :
  save_analysis_result TEMP_FOLDER write_error sid kind data w
  = (Returned tt,
     mkWorld (sessions w)
             (write_or_keep write_error (length (log w))
                            (result_path TEMP_FOLDER sid kind)
                            (TextFile data) (files w))
             (log w
              ++ [saving_result TEMP_FOLDER write_error sid kind
                                (length (log w))])).
Proof.
  unfold save_analysis_result, write_or_keep, saving_result, result_path.
  destruct (write_error _ _); reflexivity.
Qed.

Lemma lookup_write_or_keep (t : nat) (p : string) (new : file)
      (fs : gmap string file) :
  write_or_keep write_error t p new fs !! p
  = written write_error t p new (fs !! p).
Proof.
  unfold write_or_keep, written.
  destruct (write_error t p); [reflexivity|apply lookup_insert_eq].
Qed.

Lemma lookup_write_or_keep_ne (t : nat) (p q : string) (new : file)
      (fs : gmap string file) :
  p <> q -> write_or_keep write_error t p new fs !! q = fs !! q.
Proof.
  intros Hne. unfold write_or_keep.
  destruct (write_error t p); [reflexivity|].
  apply lookup_insert_ne. exact Hne.
Qed.

Ltac eval_in E :=
  cbv [try_except stage lift chart_stage update_session_status print bind
       modify ret raise record_event write_file sessions files log fst
       snd] in E;
  cbv beta iota in E;
  rewrite <- ?app_assoc in E; cbn [app] in E;
  rewrite ?length_app in E; cbn [length] in E.

Ltac in_list := repeat first [left; reflexivity|right].

(** One stage after the other, by the outcome of each. *)
Ltac step_stage E k :=
  eval_in E;
  lazymatch type of E with
  | _ = (_, _) => idtac
  | context [save_dataframe _ _ ?d ?sid _ ?w] =>
      rewrite (save_dataframe_eq d sid w) in E; k E
  | context [save_analysis_result _ _ ?sid ?kind ?data ?w] =>
      rewrite (save_analysis_result_eq sid kind data w) in E; k E
  | context [generate_profile ?x] =>
      revert E; destruct (generate_profile x) as [[profile text]|[?|]];
      intros E; k E
  | context [narrate ?a ?b ?c ?d] =>
      revert E; destruct (narrate a b c d) as [texts|[?|]];
      intros E; k E
  | context [build_report ?a ?b ?c ?d ?e ?f] =>
      revert E; destruct (build_report a b c d e f) as [report|[?|]];
      intros E; k E
  | context [dumps_profile ?a] =>
      revert E; destruct (dumps_profile a) as [profile_json|[?|]];
      intros E; k E
  | context [dumps_charts ?a] =>
      revert E; destruct (dumps_charts a) as [charts_json|[?|]];
      intros E; k E
  | context [dumps_report ?a] =>
      revert E; destruct (dumps_report a) as [report_json|[?|]];
      intros E; k E
  end.

Ltac step_late E := step_stage E step_late.

Ltac step E cr Hcr :=
  first
    [step_stage E ltac:(fun E' => step E' cr Hcr)
    |revert E; destruct cr as [charts|[?|]]; intros E;
     [step_late E|exfalso; exact (Hcr _ eq_refl)|step_late E]].

(** The whole of a run whose table loads and is not empty. *)
Lemma run_loaded (sid : string) (s : session) (d : DataFrame)
      (w : world) :
  sessions w !! sid = Some s ->
  truthy (filename s) = true -> truthy (filepath s) = true ->
  load_dataframe read_csv read_excel (filepath s) = Some d ->
  empty d = false ->
  let cleaned_df := Cleaner.df (Cleaner.run parse_number (Cleaner.init d)) in
  let cleaned := cleaned_path TEMP_FOLDER sid in
  let result := result_path TEMP_FOLDER sid in
  let t := length (log w) in
  let saving := saving_result TEMP_FOLDER write_error sid in
  exists r w' rest,
    run_session sid w = (r, w')
    /\ log w'
       = log w
         ++ [StatusSet sid "analyzing";
             Printed ("Loading dataset: " +:+ filepath s);
             Loaded (filepath s); Printed "Cleaning data..."; Cleaned;
             saving_dataframe TEMP_FOLDER write_error sid (t + 5);
             Printed "Profiling data..."]
         ++ rest
    /\ only_after is_report_built is_saved_result rest = true
    /\ (In ReportBuilt rest
        \/ forall kind, files w' !! result kind = files w !! result kind)
    /\ files w' !! cleaned
       = written write_error (t + 5) cleaned (CsvFile cleaned_df)
                 (files w !! cleaned)
    /\ status <$> sessions w' !! sid
       = Some (match r with
               | Returned true => "completed"
               | Returned false => "error"
               | Raised _ => "analyzing"
               end)
    /\ (forall e, r <> Raised (Exception e))
    /\ (forall sid', sid' <> sid ->
                     sessions w' !! sid' = sessions w !! sid')
    /\ (forall p, ~ In p (session_paths TEMP_FOLDER sid cleaned_df) ->
                  files w' !! p = files w !! p)
    /\ (In Profiled rest ->
        forall p,
          In p (pictures_saved TEMP_FOLDER repr_str raises exec_exits
                               _make_request cleaned_df sid) ->
          files w' !! p = Some PngFile)
    /\ (r = Returned true ->
        rest
        = [Profiled; Printed "Generating charts..."; Charted;
           Printed "Generating AI insights..."; Narrated;
           Printed "Building final report..."; ReportBuilt;
           Printed "Saving results..."; saving "profile" (t + 15);
           saving "charts" (t + 16); saving "insights" (t + 17);
           saving "report" (t + 18); StatusSet sid "completed";
           Printed "Analysis completed successfully."]
        /\ exists profile_json charts_json insights report_json,
             files w' !! result "profile"
             = written write_error (t + 15) (result "profile")
                       (TextFile profile_json) (files w !! result "profile")
             /\ files w' !! result "charts"
                = written write_error (t + 16) (result "charts")
                          (TextFile charts_json)
                          (files w !! result "charts")
             /\ files w' !! result "insights"
                = written write_error (t + 17) (result "insights")
                          (TextFile insights)
                          (files w !! result "insights")
             /\ files w' !! result "report"
                = written write_error (t + 18) (result "report")
                          (TextFile report_json)
                          (files w !! result "report")).
Proof.
  intros Hs Hname Hpath Hload Hempty cleaned_df cleaned result t saving.
  destruct w as [ss fs lg]. cbn [sessions files log] in *.
  assert (Eout :
            run_session sid (mkWorld ss fs lg)
            = try_except
                (pipeline TEMP_FOLDER read_csv read_excel parse_number
                          write_error Profile Report generate_profile
                          repr_str raises exec_exits _make_request
                          narrate build_report dumps_profile dumps_charts
                          dumps_report sid (filename s) (filepath s))
                (fun e =>
                   print ("Agent error in run_analysis: " +:+ e) >>
                   update_session_status sid "error" >> ret false)
                (mkWorld ss fs lg)).
  { unfold run, init, get_session. cbn [sessions]. rewrite Hs.
    unfold run_analysis.
    cbn [agent_filename agent_filepath agent_session_id].
    rewrite Hname, Hpath. reflexivity. }
  rewrite Eout. clear Eout.
  destruct (chart_stage_shape TEMP_FOLDER repr_str raises exec_exits
                              _make_request cleaned_df sid)
    as [Hpics Hcharts].
  assert (Hpic_cleaned :
            forall pics : list string,
              (forall p, In p pics ->
                         In p (picture_paths TEMP_FOLDER sid cleaned_df)) ->
              ~ In (cleaned_path TEMP_FOLDER sid) pics).
  { intros pics H Hin.
    exact (cleaned_not_picture TEMP_FOLDER sid cleaned_df (H _ Hin)). }
  assert (Hpic_result :
            forall (pics : list string) (kind : string),
              (forall p, In p pics ->
                         In p (picture_paths TEMP_FOLDER sid cleaned_df)) ->
              ~ In (result_path TEMP_FOLDER sid kind) pics).
  { intros pics kind H Hin.
    exact (result_not_picture TEMP_FOLDER sid kind cleaned_df (H _ Hin)). }
  subst cleaned result t saving.
  unfold session_paths, pictures_saved.
  subst cleaned_df.
  match goal with
  | |- exists r w' rest, ?run = _ /\ _ => remember run as out eqn:E
  end.
  unfold pipeline in E. rewrite Hload, Hempty in E.
  eval_in E.
  revert Hpics Hcharts E.
  destruct (Analyzer.analyze repr_str raises exec_exits _make_request _)
    as [charts_result analyzer].
  cbv beta iota. cbn [fst snd]. intros Hpics Hcharts E.
  set (pics := saved_pictures raises 0 (Analyzer.events analyzer)) in *.
  clearbody pics. clear analyzer.
  specialize (Hpic_cleaned pics Hpics).
  pose proof (fun kind => Hpic_result pics kind Hpics) as Hpic_res.
  clear Hpic_result.
  step E charts_result Hcharts.
  all: subst out.
  all: eexists; eexists; eexists; (split; [reflexivity|]).
  all: cbn [sessions files log].
  all: split; [cbn [app]; reflexivity|].
  all: split; [reflexivity|].
  all: split;
    [first
       [left; solve [in_list]
       |right; intros kind;
        repeat first
          [rewrite lookup_write_or_keep_ne
            by apply (cleaned_not_result TEMP_FOLDER)
          |rewrite lookup_write_files_ne by apply Hpic_res];
        reflexivity]|].
  all: split;
    [repeat first
       [rewrite lookup_write_or_keep_ne
         by (let H := fresh in
             intros H;
             exact (cleaned_not_result TEMP_FOLDER _ _ (eq_sym H)))
       |rewrite lookup_write_files_ne by exact Hpic_cleaned];
     apply lookup_write_or_keep|].
  all: split; [rewrite !lookup_alter_eq, Hs; reflexivity|].
  all: split; [intros e0; discriminate|].
  all: split;
    [intros sid' Hne; rewrite !lookup_alter_ne by congruence;
     reflexivity|].
  all: split;
    [intros p Hp;
     repeat first
       [rewrite lookup_write_or_keep_ne
         by (let H := fresh in
             intros H; apply Hp; rewrite <- H; apply in_or_app; left;
             in_list)
       |rewrite lookup_write_files_ne
         by (let H := fresh in
             intros H; apply Hp; apply in_or_app; right; apply Hpics;
             exact H)];
     reflexivity|].
  all: split;
    [intros Hprofiled p Hp;
     first
       [solve [exfalso; cbn [In] in Hprofiled; intuition discriminate]
       |repeat first
          [rewrite lookup_write_or_keep_ne
            by (let H := fresh in
                intros H; rewrite <- H in Hp; exact (Hpic_res _ Hp))];
        apply lookup_write_files_in; exact Hp]|].
  all: intros Hr; try discriminate Hr; clear Hr.
  all: split; [reflexivity|].
  all: exists profile_json, charts_json, (fst (fst texts)), report_json.
  all: repeat split;
    repeat first
      [rewrite lookup_write_or_keep_ne
        by first
             [apply (cleaned_not_result TEMP_FOLDER)
             |apply results_differ;
              [reflexivity|reflexivity
              |let H := fresh in
               intros H; vm_compute in H; discriminate H]]
      |rewrite lookup_write_files_ne by apply Hpic_res
      |rewrite lookup_write_or_keep];
    reflexivity.
Qed.

(** C2 (as the code has it).  On a run whose table loads and is not
    empty, only the cleaned table is persisted when it is produced:
    [save_dataframe] runs right after cleaning, before profiling
    starts, and what it has written stays whatever becomes of the
    later stages (a write that fails is printed and the run goes on).
    The chart stage saves its pictures itself.  Profile, charts and
    insights are not written when they are produced: no result is
    saved before the report has been built, so a run that ends before
    leaves the result files as they were; a run that returns [True]
    has gone through profiling, charting, narration and report
    building, and only then attempted the four writes, in the order
    profile, charts, insights, report. *)
Theorem persistence_points (sid : string) (s : session) (d : DataFrame)
        (w : world) :
  sessions w !! sid = Some s ->
  truthy (filename s) = true -> truthy (filepath s) = true ->
  load_dataframe read_csv read_excel (filepath s) = Some d ->
  empty d = false ->
  let cleaned_df := Cleaner.df (Cleaner.run parse_number (Cleaner.init d)) in
  let cleaned := cleaned_path TEMP_FOLDER sid in
  let result := result_path TEMP_FOLDER sid in
  let t := length (log w) in
  let saving := saving_result TEMP_FOLDER write_error sid in
  let out := run_session sid w in
  exists rest,
    log (snd out)
    = log w
      ++ [StatusSet sid "analyzing";
          Printed ("Loading dataset: " +:+ filepath s);
          Loaded (filepath s); Printed "Cleaning data..."; Cleaned;
          saving_dataframe TEMP_FOLDER write_error sid (t + 5);
          Printed "Profiling data..."]
      ++ rest
    /\ files (snd out) !! cleaned
       = written write_error (t + 5) cleaned (CsvFile cleaned_df)
                 (files w !! cleaned)
    /\ (In Profiled rest ->
        forall p,
          In p (pictures_saved TEMP_FOLDER repr_str raises exec_exits
                               _make_request cleaned_df sid) ->
          files (snd out) !! p = Some PngFile)
    /\ only_after is_report_built is_saved_result rest = true
    /\ (In ReportBuilt rest
        \/ forall kind,
             files (snd out) !! result kind = files w !! result kind)
    /\ (fst out = Returned true ->
        rest
        = [Profiled; Printed "Generating charts..."; Charted;
           Printed "Generating AI insights..."; Narrated;
           Printed "Building final report..."; ReportBuilt;
           Printed "Saving results..."; saving "profile" (t + 15);
           saving "charts" (t + 16); saving "insights" (t + 17);
           saving "report" (t + 18); StatusSet sid "completed";
           Printed "Analysis completed successfully."]
        /\ exists profile_json charts_json insights report_json,
             files (snd out) !! result "profile"
             = written write_error (t + 15) (result "profile")
                       (TextFile profile_json) (files w !! result "profile")
             /\ files (snd out) !! result "charts"
                = written write_error (t + 16) (result "charts")
                          (TextFile charts_json)
                          (files w !! result "charts")
             /\ files (snd out) !! result "insights"
                = written write_error (t + 17) (result "insights")
                          (TextFile insights)
                          (files w !! result "insights")
             /\ files (snd out) !! result "report"
                = written write_error (t + 18) (result "report")
                          (TextFile report_json)
                          (files w !! result "report")).
Proof.
  intros Hs Hname Hpath Hload Hempty cleaned_df cleaned result t saving out.
  destruct (run_loaded sid s d w Hs Hname Hpath Hload Hempty)
    as (r & w' & rest & E & Hlog & Hafter & Hresults & Hcleaned & _ & _
        & _ & _ & Hpictures & Htrue).
  subst out. rewrite E. cbn [fst snd].
  exists rest.
  split; [exact Hlog|]. split; [exact Hcleaned|].
  split; [exact Hpictures|]. split; [exact Hafter|].
  split; [exact Hresults|exact Htrue].
Qed.

End Orchestrator.

Section OrchestratorExamples.
Import Frame Text Effects Agent StorageAudit Examples.

(** A run over a file that is not a table. *)
Lemma unreadable_input_ends_in_error_witness :
  let out := run_with always_answers writes_work "s2" in
  fst out = Returned false
  /\ status <$> sessions (snd out) !! "s2" = Some "error"
  /\ files (snd out) = files store.
Proof.
  destruct (unreadable_input_ends_in_error
              "/srv/temp" read_sales read_nothing Cleaner.parse_integer
              writes_work Profiler.column_types string profile_stage
              quoted nothing_raises exit_exits always_answers
              narrate_stage report_stage (dumps "profile") (dumps "charts")
              (fun r => Returned r) "s2" notes_session store)
    as (H1 & H2 & H3 & _);
    [reflexivity|reflexivity|reflexivity|left; reflexivity|].
  repeat split; assumption.
Defined.

(** A run over the sales table in which every write works: the
    cleaned table is in the folder of the session. *)
Lemma persistence_points_witness :
  let out := run_with always_answers writes_work "s1" in
  exists rest,
    log (snd out)
    = [StatusSet "s1" "analyzing";
       Printed ("Loading dataset: " +:+ "/srv/temp/s1/sales.csv");
       Loaded "/srv/temp/s1/sales.csv"; Printed "Cleaning data..."; Cleaned;
       SavedDataframe (cleaned_path "/srv/temp" "s1");
       Printed "Profiling data..."]
      ++ rest
    /\ files (snd out) !! cleaned_path "/srv/temp" "s1"
       = Some (CsvFile (Cleaner.df (Cleaner.run Cleaner.parse_integer
                                               (Cleaner.init sales_table)))).
Proof.
  destruct (persistence_points
              "/srv/temp" read_sales read_nothing Cleaner.parse_integer
              writes_work Profiler.column_types string profile_stage
              quoted nothing_raises exit_exits always_answers
              narrate_stage report_stage (dumps "profile") (dumps "charts")
              (fun r => Returned r) "s1" sales_session sales_table store)
    as (rest & Hlog & Hcleaned & _);
    [reflexivity|reflexivity|reflexivity|reflexivity|reflexivity|].
  exists rest. split; [exact Hlog|exact Hcleaned].
Defined.

(** C2 as stated fails.  In the run in which everything works, the
    profile is produced before the charts, the narrative and the
    report, and written after all of them.  When the text generated
    for the heatmap is [exit()], the [SystemExit] leaves
    [run_analysis]: the profile has been produced and is not written,
    and the session stays "analyzing".  When the disk is full nothing
    is written, the cleaned table included, and the run still returns
    [True]. *)
Lemma results_wait_for_the_report :
  log (snd (run_with always_answers writes_work "s1"))
  = [StatusSet "s1" "analyzing";
     Printed "Loading dataset: /srv/temp/s1/sales.csv";
     Loaded "/srv/temp/s1/sales.csv"; Printed "Cleaning data..."; Cleaned;
     SavedDataframe "/srv/temp/s1/s1_cleaned.csv";
     Printed "Profiling data..."; Profiled;
     Printed "Generating charts..."; Charted;
     Printed "Generating AI insights..."; Narrated;
     Printed "Building final report..."; ReportBuilt;
     Printed "Saving results..."; SavedResult "s1" "profile";
     SavedResult "s1" "charts"; SavedResult "s1" "insights";
     SavedResult "s1" "report"; StatusSet "s1" "completed";
     Printed "Analysis completed successfully."]
  /\ (let out := run_with answers_exit writes_work "s1" in
      fst out = Raised SystemExit
      /\ log (snd out)
         = [StatusSet "s1" "analyzing";
            Printed "Loading dataset: /srv/temp/s1/sales.csv";
            Loaded "/srv/temp/s1/sales.csv"; Printed "Cleaning data...";
            Cleaned; SavedDataframe "/srv/temp/s1/s1_cleaned.csv";
            Printed "Profiling data..."; Profiled;
            Printed "Generating charts..."]
      /\ files (snd out) !! "/srv/temp/s1/profile.json" = None
      /\ is_Some (files (snd out) !! "/srv/temp/s1/s1_cleaned.csv")
      /\ status <$> sessions (snd out) !! "s1" = Some "analyzing")
  /\ (let out := run_with always_answers disk_full "s1" in
      fst out = Returned true
      /\ files (snd out) !! "/srv/temp/s1/s1_cleaned.csv" = None
      /\ files (snd out) !! "/srv/temp/s1/profile.json" = None
      /\ files (snd out) !! "/srv/temp/s1/correlation_heatmap.png"
         = Some PngFile
      /\ status <$> sessions (snd out) !! "s1" = Some "completed").
Proof.
  split; [vm_compute; reflexivity|]. split.
  - repeat split; try (vm_compute; reflexivity).
    vm_compute. eexists. reflexivity.
  - repeat split; vm_compute; reflexivity.
Qed.

End OrchestratorExamples.

(* ===================================================================== *)
(** * Further properties *)
(* ===================================================================== *)

(** ** The cleaner: what the report accounts for *)

Section CleanerAccounts.
Import Frame Cleaner Audit.
Variable parse_number : string -> option Q.

Lemma select_length_le {A : Type} (mask : list bool) (l : list A) :
  length (select mask l) <= length l.
Proof.
  revert l. induction mask as [|b mask IH]; intros l; [simpl; lia|].
  destruct l as [|x l]; [simpl; lia|].
  simpl. specialize (IH l). destruct b; simpl; lia.
Qed.

Lemma select_rows_index_le (mask : list bool) (d : DataFrame) :
  index_len (select_rows mask d) <= index_len d.
Proof.
  unfold select_rows. cbn [index_len].
  pose proof (select_length_le mask (seq 0 (index_len d))) as H.
  rewrite length_seq in H. exact H.
Qed.

Lemma select_rows_columns_length (mask : list bool) (d : DataFrame) :
  length (columns (select_rows mask d)) = length (columns d).
Proof. unfold select_rows. cbn [columns]. apply length_map. Qed.

Lemma drop_duplicates_index_le (d : DataFrame) :
  index_len (drop_duplicates d) <= index_len d.
Proof.
  unfold drop_duplicates. destruct (empty d); [lia|].
  apply select_rows_index_le.
Qed.

Lemma drop_duplicates_columns_length (d : DataFrame) :
  length (columns (drop_duplicates d)) = length (columns d).
Proof.
  unfold drop_duplicates. destruct (empty d); [reflexivity|].
  apply select_rows_columns_length.
Qed.

Lemma total_app (f : entry -> nat) (r : list entry) (e : entry) :
  total f (r ++ [e]) = total f r + f e.
Proof.
  unfold total. induction r as [|x r IH]; simpl; [lia|].
  rewrite IH. lia.
Qed.

Lemma standardize_accounted (self : DataCleaner) :
  accounted self -> accounted (_standardize_columns self).
Proof.
  unfold accounted, _standardize_columns, set_df. cbn.
  rewrite length_map. tauto.
Qed.

Lemma remove_duplicates_accounted (self : DataCleaner) :
  accounted self -> accounted (_remove_duplicates self).
Proof.
  unfold accounted, _remove_duplicates. intros [Hr Hc].
  pose proof (drop_duplicates_index_le (df self)) as Hle.
  pose proof (drop_duplicates_columns_length (df self)) as Hlen.
  destruct (Nat.ltb 0 _) eqn:E;
    unfold report_append, set_df in *;
    cbn [df original_df cleaning_report] in *;
    rewrite !total_app; cbn [rows_removed cols_removed];
    [|apply Nat.ltb_ge in E]; lia.
Qed.

Lemma fix_data_types_accounted (self : DataCleaner) :
  accounted self -> accounted (_fix_data_types parse_number self).
Proof.
  unfold accounted, _fix_data_types. intros [Hr Hc].
  destruct (somes _);
    unfold report_append, set_df; cbn [df original_df cleaning_report
                                       index_len columns];
    rewrite !total_app, !length_map; cbn [rows_removed cols_removed]; lia.
Qed.

Lemma handle_missing_values_accounted (self : DataCleaner) :
  accounted self -> accounted (_handle_missing_values self).
Proof.
  unfold accounted, _handle_missing_values. intros [Hr Hc].
  destruct (somes _);
    unfold report_append, set_df; cbn [df original_df cleaning_report
                                       index_len columns];
    rewrite !total_app, !length_map; cbn [rows_removed cols_removed]; lia.
Qed.

Lemma remove_empty_accounted (self : DataCleaner) :
  accounted self -> accounted (_remove_empty self).
Proof.
  unfold accounted. intros [Hr Hc].
  pose proof (remove_empty_report self) as Hrep. cbv zeta in Hrep.
  rewrite Hrep. clear Hrep.
  rewrite (remove_empty_df self).
  assert (Ho : original_df (_remove_empty self) = original_df self).
  { unfold _remove_empty. destruct (_ || _); reflexivity. }
  rewrite Ho.
  pose proof (select_rows_index_le (map (existsb notna) (rows (df self)))
                                   (df self)) as Hle.
  pose proof (select_rows_columns_length
                (map (existsb notna) (rows (df self))) (df self)) as Hlen.
  pose proof (filter_length_le (fun c => existsb notna (cells c))
                (columns (dropna_rows (df self)))) as Hf.
  unfold dropna_columns. cbn [index_len columns].
  unfold dropna_rows in *.
  set (d1 := select_rows (map (existsb notna) (rows (df self))) (df self)) in *.
  set (kept := List.filter (fun c => existsb notna (cells c)) (columns d1)) in *.
  destruct (Nat.ltb 0 (index_len (df self) - index_len d1)
            || Nat.ltb 0 (length (columns (df self)) - length kept)) eqn:E.
  - rewrite !total_app. cbn [rows_removed cols_removed]. lia.
  - rewrite app_nil_r. apply Bool.orb_false_iff in E. destruct E as [E1 E2].
    apply Nat.ltb_ge in E1, E2. lia.
Qed.

Lemma detect_outliers_accounted (self : DataCleaner) :
  accounted self -> accounted (_detect_outliers self).
Proof.
  unfold accounted, _detect_outliers. intros [Hr Hc].
  destruct (somes _);
    unfold report_append; cbn [df original_df cleaning_report];
    rewrite !total_app; cbn [rows_removed cols_removed]; lia.
Qed.

(** X1.  The cleaning summary accounts for every row and column: the
    original number of rows is the cleaned number plus the rows the
    report says were removed (as duplicates or as empty), and likewise
    for columns.  In particular cleaning never adds a row or a column. *)
Theorem cleaning_summary_accounts (d : DataFrame) :
  let s := get_cleaning_summary (run parse_number (init d)) in
  original_rows s = index_len d
  /\ original_cols s = length (columns d)
  /\ original_rows s = cleaned_rows s + total rows_removed (report s)
  /\ original_cols s = cleaned_cols s + total cols_removed (report s)
  /\ cleaned_rows s <= original_rows s
  /\ cleaned_cols s <= original_cols s.
Proof.
  intros s.
  assert (H : accounted (run parse_number (init d))).
  { unfold run. apply detect_outliers_accounted, remove_empty_accounted,
      handle_missing_values_accounted, fix_data_types_accounted,
      remove_duplicates_accounted, standardize_accounted.
    split; cbn; lia. }
  assert (Ho : original_df (run parse_number (init d)) = d).
  { unfold run, _detect_outliers, _remove_empty, _handle_missing_values,
      _fix_data_types, _remove_duplicates.
    repeat match goal with
           | |- context [match ?x with _ => _ end] => destruct x
           end; reflexivity. }
  destruct H as [Hr Hc]. rewrite Ho in Hr, Hc.
  subst s. unfold get_cleaning_summary.
  cbn [original_rows original_cols cleaned_rows cleaned_cols report].
  rewrite Ho. repeat split; lia.
Qed.

End CleanerAccounts.

(** ** The cleaner: columns *)

Section CleanerColumns.
Import Frame Cleaner Audit.
Variable parse_number : string -> option Q.

Lemma sublist_map_filter {A B : Type} (f : A -> B) (p : A -> bool)
      (l : list A) :
  sublist (map f (List.filter p l)) (map f l).
Proof.
  induction l as [|x l IH]; simpl; [constructor|].
  destruct (p x); simpl; [apply sublist_skip|apply sublist_cons]; exact IH.
Qed.




(** *** Type fixing *)

Lemma numeric_dtype_is_numeric (cs : list cell) :
  is_int64_or_float64 (numeric_dtype cs) = true.
Proof. unfold numeric_dtype. destruct (forallb _ _); reflexivity. Qed.

Lemma fix_column_again (n : nat) (c : column) :
  fix_column parse_number n (fst (fix_column parse_number n c))
  = (fst (fix_column parse_number n c), None).
Proof.
  unfold fix_column at 2 3.
  destruct (dtype_eqb (dtype_of c) object_) eqn:Ed.
  - destruct (converts_enough _ _) eqn:Ec; cbn [fst].
    + unfold fix_column. cbn [dtype_of].
      unfold numeric_dtype. destruct (forallb _ _); reflexivity.
    + unfold fix_column. rewrite Ed, Ec. reflexivity.
  - cbn [fst]. unfold fix_column. rewrite Ed. reflexivity.
Qed.

(** X3.  Type fixing is idempotent: applied to its own result it changes
    no column and reports that the types are appropriate. *)
Theorem fix_data_types_idempotent (self : DataCleaner) :
  let once := _fix_data_types parse_number self in
  _fix_data_types parse_number once = report_append TypesAppropriate once.
Proof.
  intros once. apply fix_data_types_settled.
  unfold no_convertible_text. apply List.forallb_forall. intros c' Hc'.
  unfold once in Hc'. rewrite fix_data_types_df in Hc'. cbn [columns] in Hc'.
  apply in_map_iff in Hc'. destruct Hc' as [c [Hc' _]]. subst c'.
  assert (Hn : index_len (df once) = index_len (df self)).
  { unfold once. rewrite fix_data_types_df. reflexivity. }
  rewrite Hn.
  pose proof (fix_column_again (index_len (df self)) c) as H.
  unfold fix_column in H at 1.
  destruct (dtype_eqb (dtype_of (fst (fix_column parse_number
                                        (index_len (df self)) c))) object_);
    [|reflexivity].
  destruct (converts_enough _ _); [discriminate H|reflexivity].
Qed.

(** *** Type fixing, then missing values *)

Lemma to_numeric_cells (cs : list cell) :
  Forall (fun x => isna x = true \/ is_num x = true)
         (to_numeric parse_number cs).
Proof.
  unfold to_numeric. apply List.Forall_map. apply List.Forall_forall.
  intros c _. destruct c as [q|s|]; simpl; auto.
  destruct (parse_number s); simpl; auto.
Qed.

Lemma isna_notna_sum (cs : list cell) :
  isna_sum cs + notna_sum cs = length cs.
Proof.
  unfold isna_sum, notna_sum, notna.
  induction cs as [|c cs IH]; [reflexivity|].
  simpl. destruct (isna c); simpl; lia.
Qed.

Lemma fillna_number (q : Q) (cs : list cell) :
  Forall (fun x => isna x = true \/ is_num x = true) cs ->
  forallb is_num (fillna (Num q) cs) = true.
Proof.
  unfold fillna. induction 1 as [|c cs Hc _ IH]; [reflexivity|].
  simpl. rewrite IH. destruct c; simpl; try reflexivity.
  destruct Hc; discriminate.
Qed.

Lemma fillna_keeps_numbers (v : cell) (cs : list cell) (j : nat) (q : Q) :
  nth_error cs j = Some (Num q) -> nth_error (fillna v cs) j = Some (Num q).
Proof.
  intros H. unfold fillna. rewrite (nth_error_map_Some _ _ _ _ H).
  reflexivity.
Qed.

Lemma no_gap_all_numbers (cs : list cell) :
  Forall (fun x => isna x = true \/ is_num x = true) cs ->
  isna_sum cs = 0 -> forallb is_num cs = true.
Proof.
  unfold isna_sum. induction 1 as [|c cs Hc _ IH]; [reflexivity|].
  simpl. destruct c; simpl; intros H; try discriminate; try (apply IH; exact H).
  destruct Hc; discriminate.
Qed.

Lemma fillna_no_gap_id (v : cell) (cs : list cell) :
  isna_sum cs = 0 -> fillna v cs = cs.
Proof.
  unfold isna_sum, fillna. induction cs as [|c cs IH]; [reflexivity|].
  simpl. destruct (isna c) eqn:E; simpl; [discriminate|].
  intros H. rewrite (IH H). reflexivity.
Qed.

(** X4.  A text column that type fixing adopts as numeric comes out of
    the missing-value step without a gap: the texts that did not read as
    numbers (fewer than 30% of the rows) are always replaced by the
    median of those that did, and the numbers read are kept. *)
Theorem adopted_column_is_imputed (self : DataCleaner) (i : nat)
        (c : column) :
  nth_error (columns (df self)) i = Some c ->
  length (cells c) = index_len (df self) ->
  dtype_of c = object_ ->
  7 * index_len (df self)
  < 10 * notna_sum (to_numeric parse_number (cells c)) ->
  exists c' median_val,
    nth_error
      (columns (df (_handle_missing_values
                      (_fix_data_types parse_number self)))) i = Some c'
    /\ name c' = name c
    /\ is_int64_or_float64 (dtype_of c') = true
    /\ median (to_numeric parse_number (cells c)) = Some median_val
    /\ cells c'
       = fillna (Num median_val) (to_numeric parse_number (cells c))
    /\ forallb is_num (cells c') = true
    /\ (forall j q,
           nth_error (to_numeric parse_number (cells c)) j = Some (Num q) ->
           nth_error (cells c') j = Some (Num q)).
Proof.
  intros Hi Hlen Hd Hk.
  set (n := index_len (df self)) in *.
  set (nc := to_numeric parse_number (cells c)) in *.
  pose proof (fix_types_at parse_number self i c Hi) as Hfix.
  assert (Hkn : notna_sum nc <= n).
  { rewrite <- Hlen, <- (to_numeric_length parse_number (cells c)).
    apply notna_sum_le. }
  assert (Hc1 : fst (fix_column parse_number n c)
                = mkColumn (name c) (numeric_dtype nc) nc).
  { unfold fix_column. rewrite Hd. cbn [dtype_eqb]. fold nc.
    replace (converts_enough (notna_sum nc) n) with true
      by (symmetry; apply converts_enough_iff; assumption).
    reflexivity. }
  fold n in Hfix. rewrite Hc1 in Hfix.
  destruct (handle_missing_at (_fix_data_types parse_number self) i _ Hfix)
    as [Hcol _].
  assert (Hn : index_len (df (_fix_data_types parse_number self)) = n)
    by (rewrite fix_data_types_df; reflexivity).
  rewrite Hn in Hcol. clear Hfix.
  pose proof (to_numeric_cells (cells c)) as Hty. fold nc in Hty.
  pose proof (isna_notna_sum nc) as Hsum.
  assert (Hlen' : length nc = n)
    by (unfold nc; rewrite to_numeric_length; exact Hlen).
  destruct (quantile_some (1 # 2) nc) as [v Hv].
  { apply numbers_not_nil; [exact Hty|lia]. }
  eexists. exists v. split; [exact Hcol|].
  unfold handle_column. cbn [cells name dtype_of].
  destruct (Nat.ltb 0 (isna_sum nc)) eqn:Em.
  - apply Nat.ltb_lt in Em.
    assert (Hhalf : Qltb (inject_Z 50) (missing_pct (isna_sum nc) n) = false).
    { destruct (Qltb _ _) eqn:E; [|reflexivity].
      apply over_half_missing_iff in E; lia. }
    rewrite Hhalf, numeric_dtype_is_numeric.
    unfold median. rewrite Hv. cbn [fst name dtype_of cells fill_value].
    repeat split.
    + apply numeric_dtype_is_numeric.
    + apply fillna_number. exact Hty.
    + intros j q Hj. apply fillna_keeps_numbers. exact Hj.
  - apply Nat.ltb_ge in Em. cbn [fst name dtype_of cells].
    repeat split.
    + apply numeric_dtype_is_numeric.
    + exact Hv.
    + symmetry. apply fillna_no_gap_id. lia.
    + apply no_gap_all_numbers; [exact Hty|lia].
    + intros j q Hj. exact Hj.
Qed.

End CleanerColumns.

Section CleanerColumnsExamples.
Import Frame Cleaner Examples.

(** Eight texts out of ten read as numbers; the two others are filled
    with the median 9/2. *)
Lemma adopted_column_is_imputed_witness :
  exists c',
    nth_error
      (columns (df (_handle_missing_values
                      (_fix_data_types parse_integer
                         (init (mkDataFrame 10 [column_80_percent])))))) 0
    = Some c'
    /\ forallb is_num (cells c') = true.
Proof.
  destruct (adopted_column_is_imputed parse_integer
              (init (mkDataFrame 10 [column_80_percent])) 0
              column_80_percent eq_refl eq_refl eq_refl)
    as (c' & median_val & H1 & _ & _ & _ & _ & H2 & _); [vm_compute; lia|].
  exists c'. split; assumption.
Defined.

End CleanerColumnsExamples.

(** ** The cleaner: missing values *)

Section CleanerMissing.
Import Frame Cleaner Audit.
Variable parse_number : string -> option Q.

Lemma fillna_no_gap (v : cell) (cs : list cell) :
  isna v = false -> isna_sum (fillna v cs) = 0.
Proof.
  intros Hv. unfold isna_sum, fillna.
  induction cs as [|c cs IH]; [reflexivity|].
  simpl. destruct (isna c) eqn:E; [rewrite Hv|rewrite E]; exact IH.
Qed.

Lemma typed_cells (c : column) :
  typed_column c = true -> is_int64_or_float64 (dtype_of c) = true ->
  Forall (fun x => isna x = true \/ is_num x = true) (cells c).
Proof.
  unfold typed_column. intros H Hd. rewrite Hd in H. simpl in H.
  apply List.Forall_forall. intros x Hx.
  rewrite List.forallb_forall in H. specialize (H x Hx).
  apply Bool.orb_true_iff in H. exact H.
Qed.

(** What the loop of [_handle_missing_values] leaves of a column, and
    what it never notes. *)
Lemma handle_column_result (n : nat) (c : column) :
  length (cells c) = n -> typed_column c = true ->
  let h := handle_column n c in
  (isna_sum (cells (fst h)) = 0 \/ n < 2 * isna_sum (cells (fst h)))
  /\ (forall col k, snd h <> Some (FilledUnknown col k))
  /\ typed_column (fst h) = true.
Proof.
  intros Hlen Hty h. subst h. unfold handle_column.
  pose proof (isna_sum_le (cells c)) as Hle. rewrite Hlen in Hle.
  destruct (Nat.ltb 0 (isna_sum (cells c))) eqn:Em; cbn [fst snd].
  2:{ apply Nat.ltb_ge in Em. repeat split;
        [left; lia|discriminate|exact Hty]. }
  apply Nat.ltb_lt in Em.
  destruct (Qltb (inject_Z 50) (missing_pct (isna_sum (cells c)) n)) eqn:Eh;
    cbn [fst snd].
  { apply over_half_missing_iff in Eh; [|exact Hle].
    repeat split; [right; exact Eh|discriminate|exact Hty]. }
  assert (Hhalf : 2 * isna_sum (cells c) <= n).
  { destruct (Nat.le_gt_cases (2 * isna_sum (cells c)) n) as [H|H];
      [exact H|].
    apply (over_half_missing_iff _ _ Hle) in H. congruence. }
  destruct (is_int64_or_float64 (dtype_of c)) eqn:Ed; cbn [fst snd].
  - pose proof (typed_cells c Hty Ed) as Hnum.
    destruct (quantile_some (1 # 2) (cells c)) as [v Hv].
    { apply numbers_not_nil; [exact Hnum|lia]. }
    unfold median. rewrite Hv. cbn [fill_value cells].
    repeat split.
    + left. apply fillna_no_gap. reflexivity.
    + discriminate.
    + unfold typed_column. cbn [dtype_of cells]. rewrite Ed. simpl.
      pose proof (fillna_number v (cells c) Hnum) as Hf.
      rewrite List.forallb_forall in Hf. apply List.forallb_forall.
      intros x Hx. rewrite (Hf x Hx). apply Bool.orb_true_r.
  - pose proof (mode_not_nil (cells c)) as Hmode.
    destruct (mode (cells c)) as [|mode_val rest] eqn:E;
      [exfalso; apply Hmode; [lia|reflexivity]|].
    cbn [fst snd cells].
    repeat split.
    + left. apply fillna_no_gap. apply (mode_notna (cells c)).
      rewrite E. left. reflexivity.
    + discriminate.
    + unfold typed_column. cbn [dtype_of]. rewrite Ed. reflexivity.
Qed.

Lemma handle_column_settled (n : nat) (c : column) :
  length (cells c) = n ->
  isna_sum (cells c) = 0 \/ n < 2 * isna_sum (cells c) ->
  fst (handle_column n c) = c.
Proof.
  intros Hlen H. unfold handle_column.
  destruct (Nat.ltb 0 (isna_sum (cells c))) eqn:Em; [|reflexivity].
  apply Nat.ltb_lt in Em. destruct H as [H|H]; [lia|].
  pose proof (isna_sum_le (cells c)) as Hle. rewrite Hlen in Hle.
  replace (Qltb (inject_Z 50) (missing_pct (isna_sum (cells c)) n))
    with true by (symmetry; apply over_half_missing_iff; assumption).
  reflexivity.
Qed.

(** X5.  After the missing-value step every column of a well-formed,
    well-typed table is either complete or more than half missing: a
    column with a gap and at most half of its cells missing is always
    filled (a median or a mode always exists for it).  Applying the step
    again changes nothing in the table. *)
Theorem missing_values_postcondition (self : DataCleaner) :
  well_formedb (df self) = true -> well_typed (df self) = true ->
  let after := _handle_missing_values self in
  Forall (fun c => isna_sum (cells c) = 0
                   \/ index_len (df after) < 2 * isna_sum (cells c))
         (columns (df after))
  /\ df (_handle_missing_values after) = df after.
Proof.
  intros Hwf Hty after.
  apply well_formedb_iff in Hwf. unfold well_formed in Hwf.
  rewrite List.Forall_forall in Hwf.
  unfold well_typed in Hty. rewrite List.forallb_forall in Hty.
  assert (Hn : index_len (df after) = index_len (df self))
    by (unfold after; rewrite handle_missing_values_df; reflexivity).
  assert (Hpost :
            Forall (fun c => length (cells c) = index_len (df self)
                             /\ (isna_sum (cells c) = 0
                                 \/ index_len (df self)
                                    < 2 * isna_sum (cells c)))
                   (columns (df after))).
  { unfold after. rewrite handle_missing_values_df. cbn [columns].
    apply List.Forall_map. apply List.Forall_forall. intros c Hc.
    split; [rewrite handle_column_length; apply Hwf; exact Hc|].
    apply (handle_column_result _ c (Hwf c Hc) (Hty c Hc)). }
  split.
  - rewrite Hn. eapply List.Forall_impl; [|exact Hpost]. intros c [_ H].
    exact H.
  - rewrite (handle_missing_values_df after), Hn.
    transitivity (mkDataFrame (index_len (df after)) (columns (df after)));
      [|apply frame_eta].
    rewrite Hn. f_equal.
    apply map_id_in. intros c Hc.
    rewrite List.Forall_forall in Hpost. destruct (Hpost c Hc) as [Hl Hs].
    apply handle_column_settled; assumption.
Qed.

End CleanerMissing.

(** ** The cleaner: the fill that never happens *)

Section CleanerUnknown.
Import Frame Cleaner Audit.
Variable parse_number : string -> option Q.

Lemma select_forallb {A : Type} (p : A -> bool) (mask : list bool)
      (l : list A) :
  forallb p l = true -> forallb p (select mask l) = true.
Proof.
  revert l. induction mask as [|b mask IH]; intros l H; [reflexivity|].
  destruct l as [|x l]; [reflexivity|].
  simpl in H. apply Bool.andb_true_iff in H. destruct H as [Hx Hl].
  simpl. destruct b; simpl; [rewrite Hx|]; apply IH; exact Hl.
Qed.

Lemma select_rows_well_typed (mask : list bool) (d : DataFrame) :
  well_typed d = true -> well_typed (select_rows mask d) = true.
Proof.
  unfold well_typed, select_rows. cbn [columns]. intros H.
  rewrite forallb_map_comp. apply List.forallb_forall. intros c Hc.
  rewrite List.forallb_forall in H. specialize (H c Hc).
  unfold typed_column in *. cbn [dtype_of cells].
  apply Bool.orb_true_iff in H. apply Bool.orb_true_iff.
  destruct H as [H|H]; [left; exact H|right].
  apply select_forallb. exact H.
Qed.

Lemma fix_column_typed (n : nat) (c : column) :
  typed_column c = true ->
  typed_column (fst (fix_column parse_number n c)) = true.
Proof.
  intros H. unfold fix_column.
  destruct (dtype_eqb (dtype_of c) object_); [|exact H].
  destruct (converts_enough _ _); [|exact H].
  cbn [fst]. unfold typed_column. cbn [dtype_of cells].
  apply Bool.orb_true_iff. right.
  apply List.forallb_forall. intros x Hx.
  pose proof (to_numeric_cells parse_number (cells c)) as Hn.
  rewrite List.Forall_forall in Hn. destruct (Hn x Hx) as [E|E]; rewrite E;
    [reflexivity|apply Bool.orb_true_r].
Qed.

(** The table the missing-value step receives in a run of [clean]. *)
Lemma before_missing_values (d : DataFrame) :
  well_formed d -> well_typed d = true ->
  let s2 := _fix_data_types parse_number
              (_remove_duplicates (_standardize_columns (init d))) in
  well_formed (df s2) /\ well_typed (df s2) = true.
Proof.
  intros Hwf Hty s2. subst s2.
  set (s0 := _standardize_columns (init d)).
  assert (H0 : well_formed (df s0) /\ well_typed (df s0) = true).
  { unfold s0. rewrite standardize_df. cbn [df init].
    unfold well_formed, well_typed in *. cbn [columns index_len]. split.
    - apply List.Forall_map. exact Hwf.
    - rewrite forallb_map_comp. exact Hty. }
  set (s1 := _remove_duplicates s0).
  assert (H1 : well_formed (df s1) /\ well_typed (df s1) = true).
  { unfold s1. rewrite remove_duplicates_df. destruct H0 as [W T]. split.
    - apply drop_duplicates_well_formed. exact W.
    - unfold drop_duplicates. destruct (empty _); [exact T|].
      apply select_rows_well_typed. exact T. }
  rewrite fix_data_types_df. destruct H1 as [W T].
  unfold well_formed, well_typed in *. cbn [columns index_len]. split.
  - apply List.Forall_map. eapply List.Forall_impl; [|exact W].
    intros c Hc. cbn beta. rewrite fix_column_length. exact Hc.
  - rewrite forallb_map_comp. apply List.forallb_forall. intros c Hc.
    rewrite List.forallb_forall in T. apply fix_column_typed. exact (T c Hc).
Qed.

Lemma missing_notes_app (r1 r2 : list entry) :
  missing_notes (r1 ++ r2) = missing_notes r1 ++ missing_notes r2.
Proof. unfold missing_notes. apply flat_map_app. Qed.

Lemma missing_notes_other (r : list entry) (e : entry) :
  step_of e <> HandleMissingValues ->
  missing_notes (r ++ [e]) = missing_notes r.
Proof.
  intros H. rewrite missing_notes_app.
  destruct e; try (simpl; apply app_nil_r). contradiction H. reflexivity.
Qed.

Lemma handle_missing_values_notes (self : DataCleaner) :
  missing_notes (cleaning_report (_handle_missing_values self))
  = missing_notes (cleaning_report self)
    ++ somes (map (fun c => snd (handle_column (index_len (df self)) c))
                  (columns (df self))).
Proof.
  unfold _handle_missing_values. rewrite map_map.
  destruct (somes _) as [|x l];
    unfold report_append; cbn [cleaning_report];
    rewrite missing_notes_app; simpl; rewrite ?app_nil_r; reflexivity.
Qed.

(** X6.  In a run of [clean] on a well-formed, well-typed table no
    column is ever filled with the text "Unknown": whenever a column
    other than a numeric one is imputed it has a most frequent value,
    so the branch of the source for a column without a mode is never
    taken. *)
Theorem never_filled_with_unknown (d : DataFrame) :
  well_formedb d = true -> well_typed d = true ->
  forallb (fun note => negb (is_filled_unknown note))
          (missing_notes (snd (clean parse_number d))) = true.
Proof.
  intros Hwf Hty. apply well_formedb_iff in Hwf.
  destruct (before_missing_values d Hwf Hty) as [W T].
  unfold clean, run. cbn [snd].
  set (s2 := _fix_data_types parse_number
               (_remove_duplicates (_standardize_columns (init d)))) in *.
  destruct (detect_outliers_report
              (_remove_empty (_handle_missing_values s2))) as (e5 & E5 & S5).
  rewrite E5, missing_notes_other by (rewrite S5; discriminate).
  pose proof (remove_empty_report (_handle_missing_values s2)) as E4.
  cbv zeta in E4. rewrite E4. clear E4.
  rewrite missing_notes_app.
  match goal with
  | |- context [if ?b then [RemovedEmpty ?x ?y] else []] =>
      replace (missing_notes (if b then [RemovedEmpty x y] else []))
        with (@nil missing_note) by (destruct b; reflexivity)
  end.
  rewrite app_nil_r, handle_missing_values_notes.
  assert (Hprev : missing_notes (cleaning_report s2) = []).
  { unfold s2.
    destruct (fix_data_types_report parse_number
                (_remove_duplicates (_standardize_columns (init d))))
      as (e2 & E2 & S2).
    rewrite E2, missing_notes_other by (rewrite S2; discriminate).
    destruct (remove_duplicates_report (_standardize_columns (init d)))
      as (e1 & E1 & S1).
    rewrite E1, missing_notes_other by (rewrite S1; discriminate).
    reflexivity. }
  rewrite Hprev. cbn [app].
  apply List.forallb_forall. intros note Hnote.
  apply In_somes in Hnote. apply in_map_iff in Hnote.
  destruct Hnote as (c & Hc & Hin).
  unfold well_formed in W. rewrite List.Forall_forall in W.
  unfold well_typed in T. rewrite List.forallb_forall in T.
  destruct (handle_column_result (index_len (df s2)) c (W c Hin) (T c Hin))
    as (_ & Hnever & _).
  destruct note; try reflexivity.
  exfalso. exact (Hnever _ _ Hc).
Qed.

End CleanerUnknown.

Section CleanerMissingExamples.
Import Frame Cleaner Audit Examples.

(** On the messy table: after the step, no column has a gap. *)
Lemma missing_values_postcondition_witness :
  Forall (fun c => isna_sum (cells c) = 0
                   \/ index_len (df (_handle_missing_values (init messy_table)))
                      < 2 * isna_sum (cells c))
         (columns (df (_handle_missing_values (init messy_table)))).
Proof.
  apply (missing_values_postcondition (init messy_table)); reflexivity.
Defined.

(** In the report of the table with a text gap the gap is filled with
    the mode. *)
Lemma never_filled_with_unknown_witness :
  forallb (fun note => negb (is_filled_unknown note))
          (missing_notes (snd (clean parse_integer table_with_text_gap)))
  = true.
Proof.
  apply (never_filled_with_unknown parse_integer table_with_text_gap);
    reflexivity.
Defined.

End CleanerMissingExamples.

(** ** The cleaner: rows *)

Section CleanerRows.
Import Frame Cleaner Audit.

Lemma select_map {A B : Type} (f : A -> B) (mask : list bool) (l : list A) :
  select mask (map f l) = map f (select mask l).
Proof.
  revert l. induction mask as [|b mask IH]; intros l; [reflexivity|].
  destruct l as [|x l]; [reflexivity|].
  simpl. destruct b; simpl; rewrite IH; reflexivity.
Qed.

Lemma select_In {A : Type} (mask : list bool) (l : list A) (x : A) :
  In x (select mask l) -> In x l.
Proof.
  revert l. induction mask as [|b mask IH]; intros l; [intros []|].
  destruct l as [|y l]; [intros []|].
  simpl. destruct b; simpl; intros H; [destruct H as [H|H]; auto|auto].
Qed.

Lemma select_mask_filter {A : Type} (f : A -> bool) (l : list A) :
  select (map f l) l = List.filter f l.
Proof.
  induction l as [|x l IH]; [reflexivity|].
  simpl. destruct (f x); rewrite IH; reflexivity.
Qed.

(** The entries kept by a mask, read through their positions. *)
Lemma select_by_position {A : Type} (d : A) (l : list A) (mask : list bool)
      (k : nat) :
  select mask l
  = map (fun i => nth (i - k) l d) (select mask (seq k (length l))).
Proof.
  revert mask k. induction l as [|x l IH]; intros mask k.
  - destruct mask; reflexivity.
  - destruct mask as [|b mask]; [reflexivity|].
    cbn [length seq select].
    assert (Hrest : select mask l
                    = map (fun i => nth (i - k) (x :: l) d)
                          (select mask (seq (S k) (length l)))).
    { rewrite (IH mask (S k)). apply map_ext_in. intros i Hi.
      apply select_In in Hi. apply in_seq in Hi.
      replace (i - k) with (S (i - S k)) by lia. reflexivity. }
    destruct b; cbn [map]; [|exact Hrest].
    rewrite Nat.sub_diag. cbn [nth]. f_equal. exact Hrest.
Qed.

Lemma positions_of {A : Type} (d : A) (l : list A) (k : nat) :
  map (fun j => nth (j - k) l d) (seq k (length l)) = l.
Proof.
  revert k. induction l as [|x l IH]; intros k; [reflexivity|].
  cbn [length seq map]. rewrite Nat.sub_diag. cbn [nth]. f_equal.
  rewrite <- (IH (S k)) at 2. apply map_ext_in. intros j Hj.
  apply in_seq in Hj. replace (j - k) with (S (j - S k)) by lia.
  reflexivity.
Qed.

(** Selecting rows of a table selects the rows of its row view. *)
Lemma rows_select_rows (mask : list bool) (d : DataFrame) :
  well_formed d -> rows (select_rows mask d) = select mask (rows d).
Proof.
  intros Hwf. unfold rows at 2. rewrite select_map.
  set (S := select mask (seq 0 (index_len d))).
  unfold rows, select_rows. cbn [index_len columns]. fold S.
  transitivity (map (fun j => row_at d (nth (j - 0) S 0))
                    (seq 0 (length S))).
  2:{ rewrite <- (map_map (fun j => nth (j - 0) S 0) (row_at d)).
      rewrite positions_of. reflexivity. }
  apply map_ext_in. intros j Hj. apply in_seq in Hj.
  unfold row_at. cbn [columns]. rewrite map_map.
  apply map_ext_in. intros c Hc. cbn [cells].
  unfold well_formed in Hwf. rewrite List.Forall_forall in Hwf.
  rewrite (select_by_position NA (cells c) mask 0), (Hwf c Hc). fold S.
  rewrite (nth_indep _ NA (nth (0 - 0) (cells c) NA))
    by (rewrite length_map; lia).
  rewrite (map_nth (fun i => nth (i - 0) (cells c) NA) S 0 j).
  rewrite !Nat.sub_0_r. reflexivity.
Qed.

(** Rows kept because no equal row came before are not duplicates of
    one another. *)
Lemma kept_rows_not_duplicated (seen seen' rs : list (list cell)) :
  (forall x, In x seen' -> In x seen) ->
  forallb negb
          (duplicated_from seen'
             (select (map negb (duplicated_from seen rs)) rs)) = true.
Proof.
  revert seen seen'. induction rs as [|r rs IH]; intros seen seen' Hsub;
    [reflexivity|].
  cbn [duplicated_from map select].
  destruct (existsb (row_eqb r) seen) eqn:E; cbn [negb].
  - apply IH. intros x Hx. right. apply Hsub. exact Hx.
  - cbn [duplicated_from forallb].
    assert (E' : existsb (row_eqb r) seen' = false).
    { destruct (existsb (row_eqb r) seen') eqn:E'; [|reflexivity].
      apply existsb_exists in E'. destruct E' as (x & Hx & Hr).
      assert (existsb (row_eqb r) seen = true)
        by (apply existsb_exists; exists x; auto).
      congruence. }
    rewrite E'. cbn [negb andb].
    apply IH. intros x [Hx|Hx]; [left; exact Hx|right; apply Hsub; exact Hx].
Qed.

(** X7.  After [_remove_duplicates] on a well-formed, non-empty table no
    row is a duplicate of an earlier one, the report tells how many rows
    went (or that none was found), and a second application finds no
    duplicate. *)
Theorem remove_duplicates_leaves_none (self : DataCleaner) :
  well_formedb (df self) = true -> empty (df self) = false ->
  let after := _remove_duplicates self in
  let removed := index_len (df self) - index_len (df after) in
  no_duplicates (df after) = true
  /\ index_len (df self) = index_len (df after) + removed
  /\ cleaning_report after
     = cleaning_report self
       ++ [if Nat.ltb 0 removed then RemovedDuplicates removed
           else NoDuplicates]
  /\ _remove_duplicates after = report_append NoDuplicates after.
Proof.
  intros Hwf Hne after removed.
  apply well_formedb_iff in Hwf.
  assert (Hdf : df after = drop_duplicates (df self))
    by apply remove_duplicates_df.
  assert (Hnd : no_duplicates (df after) = true).
  { rewrite Hdf. unfold drop_duplicates. rewrite Hne.
    unfold no_duplicates, duplicated.
    rewrite rows_select_rows by exact Hwf.
    apply kept_rows_not_duplicated. auto. }
  split; [exact Hnd|]. split.
  - subst removed. rewrite Hdf.
    pose proof (drop_duplicates_index_le (df self)). lia.
  - split.
    + subst removed after. unfold _remove_duplicates.
      destruct (Nat.ltb 0 _) eqn:E; unfold report_append, set_df in *;
        cbn [df cleaning_report] in *; rewrite E; reflexivity.
    + apply remove_duplicates_settled; [|exact Hnd].
      rewrite Hdf. apply drop_duplicates_well_formed. exact Hwf.
Qed.

(** X8.  After [_remove_empty] on a well-formed table every remaining
    row has a value in some remaining column and every remaining column
    has a value in some remaining row; a second application removes
    nothing and writes nothing. *)
Theorem remove_empty_leaves_none (self : DataCleaner) :
  well_formedb (df self) = true ->
  let after := _remove_empty self in
  forallb (existsb notna) (rows (df after)) = true
  /\ forallb (fun c => existsb notna (cells c)) (columns (df after)) = true
  /\ _remove_empty after = after.
Proof.
  intros Hwf after. apply well_formedb_iff in Hwf.
  assert (Hdf : df after = dropna_columns (dropna_rows (df self)))
    by apply remove_empty_df.
  set (d := df self) in *.
  set (d1 := dropna_rows d) in *.
  assert (Hwf1 : well_formed d1) by (apply select_rows_well_formed; exact Hwf).
  assert (Hrows1 : forallb (existsb notna) (rows d1) = true).
  { unfold d1, dropna_rows. rewrite rows_select_rows by exact Hwf.
    rewrite select_mask_filter. apply List.forallb_forall.
    intros r Hr. apply List.filter_In in Hr. tauto. }
  assert (Hcols : forallb (fun c => existsb notna (cells c))
                          (columns (dropna_columns d1)) = true).
  { unfold dropna_columns. cbn [columns]. apply List.forallb_forall.
    intros c Hc. apply List.filter_In in Hc. tauto. }
  assert (Hrows : forallb (existsb notna) (rows (dropna_columns d1)) = true).
  { unfold rows in *. rewrite forallb_map_comp in *.
    unfold dropna_columns at 1. cbn [index_len].
    apply List.forallb_forall. intros i Hi.
    rewrite List.forallb_forall in Hrows1. specialize (Hrows1 i Hi).
    unfold row_at in *. unfold dropna_columns. cbn [columns].
    apply existsb_exists in Hrows1. destruct Hrows1 as (x & Hx & Hn).
    apply in_map_iff in Hx. destruct Hx as (c & Hx & Hc). subst x.
    apply existsb_exists. exists (nth i (cells c) NA). split; [|exact Hn].
    apply in_map_iff. exists c. split; [reflexivity|].
    apply List.filter_In. split; [exact Hc|].
    apply existsb_exists. exists (nth i (cells c) NA). split; [|exact Hn].
    destruct (Nat.lt_ge_cases i (length (cells c))) as [Hlt|Hge];
      [apply nth_In; exact Hlt|].
    rewrite nth_overflow in Hn by exact Hge. discriminate. }
  rewrite Hdf. split; [exact Hrows|]. split; [exact Hcols|].
  assert (Hwf2 : well_formed (df after)).
  { rewrite Hdf. unfold dropna_columns, well_formed in *.
    cbn [columns index_len]. apply List.Forall_forall. intros c Hc.
    apply List.filter_In in Hc. destruct Hc as [Hc _].
    rewrite List.Forall_forall in Hwf1. exact (Hwf1 c Hc). }
  assert (E1 : dropna_rows (df after) = df after).
  { unfold dropna_rows. apply select_rows_all; [exact Hwf2| |].
    - rewrite forallb_map_comp, Hdf. exact Hrows.
    - rewrite length_map. apply rows_length. }
  assert (E2 : dropna_columns (df after) = df after).
  { unfold dropna_columns.
    transitivity (mkDataFrame (index_len (df after)) (columns (df after)));
      [|apply frame_eta].
    f_equal. apply filter_all. intros c Hc.
    rewrite Hdf in Hc. rewrite List.forallb_forall in Hcols.
    exact (Hcols c Hc). }
  unfold _remove_empty at 1.
  rewrite E1, set_df_same, E2, set_df_same, !Nat.sub_diag. reflexivity.
Qed.

End CleanerRows.

Section CleanerRowsExamples.
Import Frame Cleaner Audit Examples.

(** The messy table has one repeated row. *)
Lemma remove_duplicates_leaves_none_witness :
  no_duplicates (df (_remove_duplicates (init messy_table))) = true
  /\ cleaning_report (_remove_duplicates (init messy_table))
     = [RemovedDuplicates 1].
Proof.
  destruct (remove_duplicates_leaves_none (init messy_table) eq_refl eq_refl)
    as (H1 & _ & H3 & _).
  split; [exact H1|exact H3].
Defined.

(** The table with an empty row loses it. *)
Lemma remove_empty_leaves_none_witness :
  forallb (existsb notna)
          (rows (df (_remove_empty (init table_with_empty_row)))) = true.
Proof.
  destruct (remove_empty_leaves_none (init table_with_empty_row) eq_refl)
    as (H1 & _).
  exact H1.
Defined.

End CleanerRowsExamples.

(** ** The profiler: the three lists *)

Section ClassificationPartition.
Import Frame Profiler.

Lemma three_way_split {A : Type} (p1 p2 p3 : A -> bool) (l : list A) :
  (forall x, In x l ->
             (p1 x = true /\ p2 x = false /\ p3 x = false)
             \/ (p1 x = false /\ p2 x = true /\ p3 x = false)
             \/ (p1 x = false /\ p2 x = false /\ p3 x = true)) ->
  Permutation (List.filter p1 l ++ List.filter p2 l ++ List.filter p3 l) l.
Proof.
  induction l as [|x l IH]; intros H; [constructor|].
  set (f1 := List.filter p1 l) in *.
  set (f2 := List.filter p2 l) in *.
  set (f3 := List.filter p3 l) in *.
  assert (IH' : Permutation (f1 ++ f2 ++ f3) l)
    by (apply IH; intros y Hy; apply H; right; exact Hy).
  cbn [List.filter]. fold f1. fold f2. fold f3.
  destruct (H x (or_introl eq_refl))
    as [(E1 & E2 & E3)|[(E1 & E2 & E3)|(E1 & E2 & E3)]];
    rewrite E1, E2, E3; cbv iota; apply Permutation_sym.
  - cbn [app]. apply perm_skip. apply Permutation_sym. exact IH'.
  - apply Permutation_cons_app. apply Permutation_sym. exact IH'.
  - rewrite (app_assoc f1 f2 (x :: f3)).
    apply Permutation_cons_app. rewrite <- (app_assoc f1 f2 f3).
    apply Permutation_sym. exact IH'.
Qed.

(** X9.  The three lists of [_classify_columns] partition the columns:
    taken together they are the column labels, each column counted
    once, and each list keeps the columns in the order of the table. *)
Theorem classification_is_partition (d : DataFrame) :
  let t := _classify_columns d in
  let labels := map name (columns d) in
  Permutation (numeric t ++ categorical t ++ datetime t) labels
  /\ length (numeric t) + length (categorical t) + length (datetime t)
     = length (columns d)
  /\ sublist (numeric t) labels
  /\ sublist (categorical t) labels
  /\ sublist (datetime t) labels.
Proof.
  intros t labels. subst t labels. unfold _classify_columns.
  rewrite classify_fold. cbn [numeric categorical datetime app].
  set (n := index_len d).
  match goal with
  | |- Permutation (map name (List.filter ?p1 _)
                    ++ map name (List.filter ?p2 _)
                    ++ map name (List.filter ?p3 _)) _ /\ _ =>
      set (P1 := p1); set (P2 := p2); set (P3 := p3)
  end.
  assert (HP : Permutation (List.filter P1 (columns d)
                            ++ List.filter P2 (columns d)
                            ++ List.filter P3 (columns d)) (columns d)).
  { apply three_way_split. intros c _. unfold P1, P2, P3.
    destruct (is_int64_or_float64 (dtype_of c)); cbn [andb negb].
    - destruct (Nat.ltb (nunique (cells c)) 10
                && Nat.ltb (20 * nunique (cells c)) n); cbn [negb]; tauto.
    - destruct (dtype_eqb (dtype_of c) datetime64_ns); cbn [negb]; tauto. }
  split; [|split].
  - rewrite <- !map_app. apply Permutation_map. exact HP.
  - apply Permutation_length in HP. rewrite !length_app in HP.
    rewrite !length_map. lia.
  - repeat split; apply sublist_map_filter.
Qed.

End ClassificationPartition.
(** ** The automatic run, whatever the libraries do *)

Section AutomaticRunAlways.
Import Frame Text Effects Analyzer ChartAudit.
Local Open Scope effect_scope.

Variable repr_str : string -> string.
Variable raises : nat -> plt_call -> option string.
Variable exec_exits : nat -> string -> bool.
Variable _make_request : nat -> prompt -> option string.

Local Opaque replace path_join String.append strip.

(** What [analyze] appends, by file name and by path. *)
Lemma analyze_files (w : world) :
  exists new w' r,
    analyze repr_str raises exec_exits _make_request w = (r, w')
    /\ (r = Returned (charts w ++ new) \/ r = Raised SystemExit)
    /\ charts w' = charts w ++ new
    /\ same_object w w'
    /\ sublist (map filename new) (role_names (df w))
    /\ map filepath new = map (path_join (charts_dir w)) (map filename new).
Proof.
  destruct (analyze_shape repr_str raises exec_exits _make_request w)
    as (r & w' & new & reqs & figs & E & G & Hnames & Hpaths & _ & Hr).
  destruct G as (S & C & _).
  exists new, w', r. split; [exact E|].
  split; [|split; [exact C|split; [exact S|split; assumption]]].
  destruct r as [cs|[e|]].
  - left. destruct Hr as [-> _]. rewrite C. reflexivity.
  - destruct Hr.
  - right. reflexivity.
Qed.

(** X10.  Whatever the plotting libraries and the language model do,
    no [Exception] leaves [analyze]: it returns the analyzer's list of
    charts, or passes on the [SystemExit] of a generated text that
    leaves the interpreter.  Either way it has appended at most five
    charts to the list, at most one per block and in the order of the
    blocks (heatmap, histogram, bar chart, box plot, relationship
    plot), each with the charts folder joined to its file name as its
    path. *)
Theorem analyze_adds_at_most_five (w : world) :
  exists new w' r,
    analyze repr_str raises exec_exits _make_request w = (r, w')
    /\ (r = Returned (charts w ++ new) \/ r = Raised SystemExit)
    /\ charts w' = charts w ++ new
    /\ same_object w w'
    /\ length new <= 5
    /\ sublist (map filename new) (role_names (df w))
    /\ List.Forall
         (fun c => filepath c = path_join (charts_dir w) (filename c)) new.
Proof.
  destruct (analyze_files w) as (new & w' & r & E & Hr & C & S & Hsub & Hpath).
  exists new, w', r.
  split; [exact E|]. split; [exact Hr|]. split; [exact C|].
  split; [exact S|]. split; [|split; [exact Hsub|]].
  - apply sublist_length in Hsub. rewrite length_map in Hsub.
    exact Hsub.
  - clear -Hpath. induction new as [|c new IH]; constructor.
    + cbn [map] in Hpath. congruence.
    + apply IH. cbn [map] in Hpath. congruence.
Qed.

(** X11.  No two charts that a run of [analyze] appends share a file
    name, nor a path: a chart never overwrites the picture of
    another. *)
Theorem chart_files_never_collide (w : world) :
  exists new w' r,
    analyze repr_str raises exec_exits _make_request w = (r, w')
    /\ (r = Returned (charts w ++ new) \/ r = Raised SystemExit)
    /\ charts w' = charts w ++ new
    /\ NoDup (map filename new)
    /\ NoDup (map filepath new).
Proof.
  destruct (analyze_files w) as (new & w' & r & E & Hr & C & S & Hsub & Hpath).
  exists new, w', r.
  split; [exact E|]. split; [exact Hr|]. split; [exact C|].
  assert (Hnames : NoDup (map filename new))
    by (eapply sublist_NoDup; [apply role_names_distinct|exact Hsub]).
  split; [exact Hnames|].
  rewrite Hpath. apply NoDup_map_on; [|exact Hnames].
  intros a b Ha Hb. apply path_join_relative_inj.
  - apply (role_names_relative (df w)). eapply sublist_In; eassumption.
  - apply (role_names_relative (df w)). eapply sublist_In; eassumption.
Qed.

(** X12.  A run of [analyze] that returns has asked the language model
    exactly twice, for the heatmap and then for the relationship plot,
    when the table has at least two numeric columns (and the client is
    available), and not at all otherwise, whatever failed in between.
    A run that a generated text ends with a [SystemExit] has asked for
    the heatmap, and for the relationship plot when it is the text
    made for that plot that left the interpreter. *)
Theorem analyze_requests (w : world) :
  let numeric_cols := numeric_cols_of (df w) in
  let asks := Nat.ltb 1 (length numeric_cols) && llm_available w in
  let run := analyze repr_str raises exec_exits _make_request w in
  exists reqs,
    requests (events (snd run)) = requests (events w) ++ reqs
    /\ match fst run with
       | Returned _ =>
           reqs = (if asks
                   then [heatmap_prompt repr_str numeric_cols;
                         relationship_prompt repr_str numeric_cols]
                   else [])
       | Raised SystemExit =>
           asks = true
           /\ (reqs = [heatmap_prompt repr_str numeric_cols]
               \/ reqs = [heatmap_prompt repr_str numeric_cols;
                          relationship_prompt repr_str numeric_cols])
       | Raised (Exception _) => False
       end.
Proof.
  intros numeric_cols asks run. subst run.
  destruct (analyze_shape repr_str raises exec_exits _make_request w)
    as (r & w' & new & reqs & figs & E & G & _ & _ & _ & Hr).
  rewrite E. cbn [fst snd]. exists reqs.
  split; [apply G|].
  destruct r as [cs|[e|]]; [exact (proj2 Hr)|exact Hr|exact Hr].
Qed.

(** X13.  No [Exception] leaves [create_custom_chart], and its result
    tells what it did: when it returns a file name and the code, it
    has appended exactly one chart, drawn with that code; when it
    returns [None], or the generated text leaves the interpreter with
    a [SystemExit], the list of charts is as it was. *)
Theorem custom_chart_result (x_col : string) (y_col : option string)
        (chart_type : string) (w : world) :
  let cols :=
    x_col +:+ match y_col with
              | Some y => if truthy y then ", " +:+ y else ""
              | None => ""
              end in
  let name :=
    replace " " "_"
            ("custom_" +:+ x_col +:+ "_" +:+ chart_type +:+ ".png") in
  let run :=
    create_custom_chart repr_str raises exec_exits _make_request
                        x_col y_col chart_type w in
  same_object w (snd run)
  /\ match fst run with
     | Returned (Some (returned_name, code)) =>
         returned_name = name /\ truthy code = true
         /\ charts (snd run)
            = charts w
              ++ [custom_chart (charts_dir w) code
                               (chart_type +:+ " of " +:+ cols)
                               (replace ".png" "" name)]
     | Returned None => charts (snd run) = charts w
     | Raised SystemExit => charts (snd run) = charts w
     | Raised (Exception _) => False
     end.
Proof.
  intros cols name0 run. subst run.
  destruct (create_custom_chart_shape repr_str raises exec_exits
                                      _make_request x_col y_col
                                      chart_type w)
    as (r & w' & E & S & Hr).
  rewrite E. cbn [fst snd]. split; [exact S|exact Hr].
Qed.

End AutomaticRunAlways.
(** ** The file names of the built-in charts *)

Section SafeNames.
Import Frame Text Effects Analyzer ChartAudit.

Lemma prefix_empty (s : string) : String.prefix "" s = true.
Proof. destruct s; reflexivity. Qed.

Lemma prefix_char (c a : ascii) (s : string) :
  String.prefix (String c "") (String a s) = Ascii.eqb a c.
Proof.
  cbn [String.prefix]. destruct (ascii_dec c a) as [->|Hne].
  - rewrite prefix_empty, Ascii.eqb_refl. reflexivity.
  - symmetry. apply Ascii.eqb_neq. congruence.
Qed.

Lemma string_forallb_app (p : ascii -> bool) (a b : string) :
  string_forallb p (a +:+ b) = string_forallb p a && string_forallb p b.
Proof.
  induction a as [|x a IH]; [reflexivity|].
  simpl. rewrite IH, andb_assoc. reflexivity.
Qed.

Lemma string_forallb_impl (p q : ascii -> bool) (s : string) :
  (forall a, p a = true -> q a = true) ->
  string_forallb p s = true -> string_forallb q s = true.
Proof.
  intros Hpq. induction s as [|x s IH]; [reflexivity|].
  cbn [string_forallb]. rewrite !andb_true_iff. intros [Hx Hs].
  split; [apply Hpq; exact Hx|apply IH; exact Hs].
Qed.

Lemma string_forallb_all (p : ascii -> bool) (s : string) :
  (forall a, p a = true) -> string_forallb p s = true.
Proof.
  intros Hp. induction s as [|x s IH]; [reflexivity|].
  cbn [string_forallb]. rewrite Hp, IH. reflexivity.
Qed.

(** Replacing a character leaves none of it, when the replacement has
    none. *)
Lemma replace_char_keeps (c : ascii) (new s : string)
      (p : ascii -> bool) :
  string_forallb p new = true ->
  string_forallb (fun a => Ascii.eqb a c || p a) s = true ->
  string_forallb p (replace (String c "") new s) = true.
Proof.
  intros Hnew. unfold replace. induction s as [|a s IH]; [reflexivity|].
  cbn [string_forallb replace_from]. rewrite prefix_char.
  rewrite andb_true_iff. intros [Ha Hs].
  change (String.length (String c "") - 1) with 0.
  destruct (Ascii.eqb a c).
  - rewrite string_forallb_app, Hnew, (IH Hs). reflexivity.
  - cbn [string_forallb]. cbn [orb] in Ha. rewrite Ha, (IH Hs).
    reflexivity.
Qed.

(** Replacing a character that does not occur changes nothing. *)
Lemma replace_char_absent (c : ascii) (new s : string) :
  string_forallb (fun a => negb (Ascii.eqb a c)) s = true ->
  replace (String c "") new s = s.
Proof.
  unfold replace. induction s as [|a s IH]; [reflexivity|].
  cbn [string_forallb replace_from]. rewrite prefix_char.
  rewrite andb_true_iff. intros [Ha Hs].
  apply negb_true_iff in Ha. rewrite Ha, (IH Hs). reflexivity.
Qed.

(** X14.  The file name that [_save_plot] derives from its argument
    holds no space, no slash and no backslash, whatever the column
    label was, and deriving it again from the result changes nothing. *)
Theorem safe_name_is_clean (filename_base : string) :
  string_forallb (fun a => negb (unsafe_char a)) (safe_name filename_base)
  = true
  /\ safe_name (safe_name filename_base) = safe_name filename_base.
Proof.
  assert (Hclean : forall s,
             string_forallb (fun a => negb (unsafe_char a)) (safe_name s)
             = true).
  { intros s. unfold safe_name.
    apply replace_char_keeps; [reflexivity|].
    apply (string_forallb_impl
             (fun a => negb (Ascii.eqb a " ") && negb (Ascii.eqb a "/"))).
    { intros a. unfold unsafe_char.
      destruct (Ascii.eqb a " "), (Ascii.eqb a "/"), (Ascii.eqb a "\");
        intros H; try discriminate H; reflexivity. }
    apply replace_char_keeps; [reflexivity|].
    apply (string_forallb_impl (fun a => negb (Ascii.eqb a " "))).
    { intros a.
      destruct (Ascii.eqb a " "), (Ascii.eqb a "/");
        intros H; try discriminate H; reflexivity. }
    apply replace_char_keeps; [reflexivity|].
    apply string_forallb_all. intros a.
    destruct (Ascii.eqb a " "); reflexivity. }
  assert (Hchar : forall a,
             negb (unsafe_char a) = true ->
             Ascii.eqb a " " = false /\ Ascii.eqb a "/" = false
             /\ Ascii.eqb a "\" = false).
  { intros a. unfold unsafe_char.
    destruct (Ascii.eqb a " "), (Ascii.eqb a "/"), (Ascii.eqb a "\");
      intros H; try discriminate H; repeat split. }
  assert (Hkept : forall s,
             string_forallb (fun a => negb (unsafe_char a)) s = true ->
             safe_name s = s).
  { intros s Hs. unfold safe_name.
    assert (H1 : replace " " "_" s = s).
    { apply replace_char_absent.
      eapply string_forallb_impl; [|exact Hs].
      intros a Ha. cbv beta. destruct (Hchar a Ha) as (-> & _).
      reflexivity. }
    rewrite H1.
    assert (H2 : replace "/" "" s = s).
    { apply replace_char_absent.
      eapply string_forallb_impl; [|exact Hs].
      intros a Ha. cbv beta. destruct (Hchar a Ha) as (_ & -> & _).
      reflexivity. }
    rewrite H2.
    apply replace_char_absent.
    eapply string_forallb_impl; [|exact Hs].
    intros a Ha. cbv beta. destruct (Hchar a Ha) as (_ & _ & ->).
    reflexivity. }
  split; [apply Hclean|]. apply Hkept. apply Hclean.
Qed.

End SafeNames.
(** ** The storage and the agent *)

Section UploadFilter.
Import Frame Text Effects Agent StorageAudit.

Variable read_csv read_excel : string -> result DataFrame.

Lemma contains_dot_after (s : string) :
  contains_dot s
  = match after_last_dot s with Some _ => true | None => false end.
Proof.
  induction s as [|a s IH]; [reflexivity|].
  cbn [contains_dot after_last_dot]. rewrite IH.
  destruct (after_last_dot s); [apply orb_true_r|].
  destruct (Ascii.eqb a "."); reflexivity.
Qed.

(** X15.  The loader and the upload filter agree: [load_dataframe]
    hands a path to a reader exactly when [allowed_file] accepts it (to
    the CSV reader for the extension csv, in any letter case, to the
    Excel reader for xlsx and xls), and returns [None] for every path
    the filter refuses, without reading anything. *)
Theorem loader_reads_what_upload_accepts (filepath : string) :
  load_dataframe read_csv read_excel filepath
  = if allowed_file filepath then
      match after_last_dot filepath with
      | Some e =>
          match (if String.eqb (lower e) "csv" then read_csv filepath
                 else read_excel filepath) with
          | Returned d => Some d
          | Raised _ => None
          end
      | None => None
      end
    else None.
Proof.
  unfold load_dataframe, allowed_file. rewrite contains_dot_after.
  destruct (after_last_dot filepath) as [e|]; [|reflexivity].
  cbn [andb existsb ALLOWED_EXTENSIONS].
  destruct (String.eqb (lower e) "csv"); [reflexivity|].
  cbn [orb]. rewrite orb_false_r.
  destruct (String.eqb (lower e) "xlsx" || String.eqb (lower e) "xls");
    reflexivity.
Qed.

End UploadFilter.
(** ** The agent, whatever the stages do *)

Section AgentOutcome.
Import Frame Text Effects Agent StorageAudit.
Local Open Scope effect_scope.

Variable TEMP_FOLDER : string.
Variable read_csv read_excel : string -> result DataFrame.
Variable parse_number : string -> option Q.
Variable write_error : nat -> string -> option string.
Variable Profile Report : Type.
Variable generate_profile : DataFrame -> result (Profile * string).
Variable repr_str : string -> string.
Variable raises : nat -> Analyzer.plt_call -> option string.
Variable exec_exits : nat -> string -> bool.
Variable _make_request : nat -> Analyzer.prompt -> option string.
Variable narrate :
  string -> Cleaner.summary -> Profile -> string
  -> result (string * string * string).
Variable build_report :
  string -> string -> Profile -> Cleaner.summary -> list Analyzer.chart
  -> string * string * string -> result Report.
Variable dumps_profile : Profile -> result string.
Variable dumps_charts : list Analyzer.chart -> result string.
Variable dumps_report : Report -> result string.

Local Abbreviation run_session :=
  (run TEMP_FOLDER read_csv read_excel parse_number write_error Profile
       Report generate_profile repr_str raises exec_exits _make_request
       narrate build_report dumps_profile dumps_charts dumps_report).

Local Abbreviation paths_of :=
  (run_paths TEMP_FOLDER read_csv read_excel parse_number).

Local Opaque path_join String.append Cleaner.run.

(** A run whose file does not load, or loads as an empty table. *)
Lemma run_not_loaded (sid : string) (s : session) (w : world) :
  sessions w !! sid = Some s ->
  truthy (filename s) = true -> truthy (filepath s) = true ->
  cleaned_table read_csv read_excel parse_number s = None ->
  run_session sid w
  = (Returned false,
     mkWorld
       (alter (fun s0 => mkSession (filename s0) (filepath s0) "error") sid
          (alter (fun s0 => mkSession (filename s0) (filepath s0)
                                      "analyzing") sid
                 (sessions w)))
       (files w)
       ((((log w ++ [StatusSet sid "analyzing"])
          ++ [Printed ("Loading dataset: " +:+ filepath s)])
         ++ [Printed ("Agent error in run_analysis: "
                      +:+ "Dataset could not be loaded or is empty")])
        ++ [StatusSet sid "error"])).
Proof.
  intros Hs Hname Hpath Hload.
  assert (Hraise :
            forall w0 : world,
              match load_dataframe read_csv read_excel (filepath s) with
              | Some d =>
                  if empty d
                  then raise "Dataset could not be loaded or is empty"
                  else stage (Loaded (filepath s)) (Returned d)
              | None => raise "Dataset could not be loaded or is empty"
              end w0
              = (Raised (Exception "Dataset could not be loaded or is empty"),
                 w0)).
  { intros w0. unfold cleaned_table in Hload.
    destruct (load_dataframe read_csv read_excel (filepath s)) as [d|];
      [|reflexivity].
    destruct (empty d); [reflexivity|discriminate Hload]. }
  unfold run, init, get_session. rewrite Hs.
  unfold run_analysis.
  cbn [agent_filename agent_filepath agent_session_id].
  rewrite Hname, Hpath. cbn [andb].
  unfold try_except, pipeline.
  unfold bind, update_session_status, print, modify, record_event.
  cbn [sessions files log].
  rewrite Hraise. reflexivity.
Qed.

(** The outcome of a run over a session that exists. *)
Lemma run_outcome (sid : string) (s : session) (w : world) :
  sessions w !! sid = Some s ->
  truthy (filename s) = true -> truthy (filepath s) = true ->
  exists r w',
    run_session sid w = (r, w')
    /\ status <$> sessions w' !! sid
       = Some (match r with
               | Returned true => "completed"
               | Returned false => "error"
               | Raised _ => "analyzing"
               end)
    /\ (forall e, r <> Raised (Exception e))
    /\ (forall sid', sid' <> sid -> sessions w' !! sid' = sessions w !! sid')
    /\ (forall p, ~ In p (paths_of sid w) -> files w' !! p = files w !! p).
Proof.
  intros Hs Hname Hpath.
  destruct (cleaned_table read_csv read_excel parse_number s)
    as [cleaned_df|] eqn:Ec.
  - unfold run_paths. rewrite Hs, Ec.
    unfold cleaned_table in Ec.
    destruct (load_dataframe read_csv read_excel (filepath s))
      as [d|] eqn:El; [|discriminate Ec].
    destruct (empty d) eqn:Ee; [discriminate Ec|].
    injection Ec as <-.
    destruct (run_loaded TEMP_FOLDER read_csv read_excel parse_number
                         write_error Profile Report generate_profile
                         repr_str raises exec_exits _make_request narrate
                         build_report dumps_profile dumps_charts
                         dumps_report sid s d w Hs Hname Hpath El Ee)
      as (r & w' & rest & E & _ & _ & _ & _ & Hst & Hexc & Hother & Hfiles
          & _).
    exists r, w'. repeat split; assumption.
  - rewrite (run_not_loaded sid s w Hs Hname Hpath Ec).
    eexists; eexists. split; [reflexivity|]. cbn [sessions files].
    split; [rewrite !lookup_alter_eq, Hs; reflexivity|].
    split; [intros e; discriminate|].
    split; [|intros p _; reflexivity].
    intros sid' Hne. rewrite !lookup_alter_ne by congruence. reflexivity.
Qed.


(** X16.  The status of a session that exists tells how the run over
    it ended: "completed" when [run_analysis] returned [True], "error"
    when it returned [False], and "analyzing" when it did not return,
    a [SystemExit] (that of a generated text that leaves the
    interpreter) being the only exception that leaves it: no
    [Exception] does. *)
Theorem run_settles_status (sid : string) (s : session) (w : world) :
  sessions w !! sid = Some s ->
  truthy (filename s) = true -> truthy (filepath s) = true ->
  let out := run_session sid w in
  status <$> sessions (snd out) !! sid
  = Some (match fst out with
          | Returned true => "completed"
          | Returned false => "error"
          | Raised _ => "analyzing"
          end)
  /\ (fst out = Raised SystemExit \/ exists b, fst out = Returned b).
Proof.
  intros Hs Hname Hpath out. subst out.
  destruct (run_outcome sid s w Hs Hname Hpath)
    as (r & w' & E & Hst & Hexc & _).
  rewrite E. cbn [fst snd]. split; [exact Hst|].
  destruct r as [b|[e|]].
  - right. exists b. reflexivity.
  - destruct (Hexc e eq_refl).
  - left. reflexivity.
Qed.


End AgentOutcome.

Section AgentOutcomeExamples.
Import Frame Text Effects Agent StorageAudit Examples.

(** The run over the sales session in which the generated text is
    [exit()] leaves the session "analyzing". *)
Lemma run_settles_status_witness :
  let out := run_with answers_exit writes_work "s1" in
  fst out = Raised SystemExit
  /\ status <$> sessions (snd out) !! "s1" = Some "analyzing".
Proof.
  destruct (run_settles_status
              "/srv/temp" read_sales read_nothing Cleaner.parse_integer
              writes_work Profiler.column_types string profile_stage
              quoted nothing_raises exit_exits answers_exit
              narrate_stage report_stage (dumps "profile") (dumps "charts")
              (fun r => Returned r) "s1" sales_session store)
    as (Hst & _); [reflexivity|reflexivity|reflexivity|].
  assert (E : fst (run_with answers_exit writes_work "s1")
              = Raised SystemExit) by (vm_compute; reflexivity).
  split; [exact E|].
  unfold run_with in *. rewrite E in Hst. exact Hst.
Defined.


End AgentOutcomeExamples.
(** ** The profiler and the chart engine on the same table *)

Section ColumnKinds.
Import Frame Profiler Analyzer.

Lemma sublist_filter_impl {A B : Type} (f : A -> B) (p q : A -> bool)
      (l : list A) :
  (forall x, p x = true -> q x = true) ->
  sublist (map f (List.filter p l)) (map f (List.filter q l)).
Proof.
  intros Hpq. induction l as [|x l IH]; [constructor|].
  cbn [List.filter]. destruct (p x) eqn:Ep.
  - rewrite (Hpq x Ep). cbn [map]. apply sublist_skip. exact IH.
  - destruct (q x); [cbn [map]; apply sublist_cons|]; exact IH.
Qed.

(** X18.  The profiler and the chart engine classify the same table
    independently, and agree one way: every column the profiler lists
    as numeric is one the chart engine draws as numeric, and every
    column the chart engine takes as categorical (dtype object) is
    categorical for the profiler, both in table order. *)
Theorem profile_and_chart_columns (d : DataFrame) :
  sublist (numeric (_classify_columns d)) (numeric_cols_of d)
  /\ sublist (categorical_cols_of d) (categorical (_classify_columns d)).
Proof.
  unfold _classify_columns, numeric_cols_of, categorical_cols_of.
  rewrite classify_fold. cbn [numeric categorical datetime app].
  split; apply sublist_filter_impl; intros c.
  - destruct (dtype_of c); cbn; intros H; try discriminate H; reflexivity.
  - destruct (dtype_of c); cbn; intros H; try discriminate H; reflexivity.
Qed.

End ColumnKinds.
(** ** The figures of the chart engine *)

Section Figures.
Import Frame Text Effects Analyzer FigureAudit.
Local Open Scope effect_scope.

Variable raises : nat -> plt_call -> option string.

Local Opaque replace path_join String.append strip.

(** X21.  A built-in chart whose drawing call raises leaves its figure
    open: after [plt.figure()] has returned and the next call has
    raised, the method prints the error and returns, having called
    [plt.close()] nowhere and recorded no chart. *)
Theorem failed_builtin_leaves_figure_open (e : string) (w : world) :
  raises (length (events w)) plt_figure = None ->
  (forall c, raises (length (events w) + 1) c = Some e) ->
  (forall column,
      _create_histogram raises column w
      = (Returned tt,
         record_event (Printed ("Hist error: " +:+ e))
           (record_event (Called (sns_histplot column))
              (record_event (Called plt_figure) w))))
  /\ (forall column,
         _create_bar_chart raises column w
         = (Returned tt,
            record_event (Printed ("Bar error: " +:+ e))
              (record_event (Called (sns_countplot column))
                 (record_event (Called plt_figure) w))))
  /\ (forall numeric_cols,
         _create_boxplot raises numeric_cols w
         = (Returned tt,
            record_event (Printed ("Boxplot error: " +:+ e))
              (record_event (Called (plt_boxplot (firstn 5 numeric_cols)))
                 (record_event (Called plt_figure) w)))).
Proof.
  intros Hfig Hdraw.
  assert (Hlen : forall ev,
             length (events (record_event ev w)) = length (events w) + 1).
  { intros ev. unfold record_event. cbn [events].
    rewrite length_app. reflexivity. }
  repeat split; intros x.
  - unfold _create_histogram, try_except, bind, call at 1. rewrite Hfig.
    unfold call at 1. rewrite Hlen, Hdraw. reflexivity.
  - unfold _create_bar_chart, try_except, bind, call at 1. rewrite Hfig.
    unfold call at 1. rewrite Hlen, Hdraw. reflexivity.
  - unfold _create_boxplot, try_except, bind, call at 1. rewrite Hfig.
    unfold call at 1. rewrite Hlen, Hdraw. reflexivity.
Qed.

End Figures.

Section FiguresExamples.
Import Frame Text Effects Analyzer FigureAudit Examples.

(** The second call of a fresh analyzer raises. *)
Lemma failed_builtin_leaves_figure_open_witness :
  events (snd (_create_histogram (raises_at 1 "no such column")
                                 (LStr "price")
                                 (init "/srv/temp" sales_table "s1")))
  = [Called plt_figure; Called (sns_histplot (LStr "price"));
     Printed "Hist error: no such column"].
Proof.
  destruct (failed_builtin_leaves_figure_open
              (raises_at 1 "no such column") "no such column"
              (init "/srv/temp" sales_table "s1"))
    as (H & _); [reflexivity|intros c; reflexivity|].
  rewrite (H (LStr "price")). reflexivity.
Defined.

End FiguresExamples.
